(** * Token and session lifecycle of the authentication backend

    A shallow embedding of the token lifecycle implemented by
    [src/services/jwt.service.ts], [src/models/user.model.ts],
    [src/controllerd/auth.controller.ts] and the error classes and
    [errorHandler] of [src/middlewares/errorHandler.ts], of the
    middlewares of [src/middlewares/auth.middleware.ts] with the routes of
    [src/routes/auth.routes.ts] that they guard, and of three string
    helpers of [src/utils/helpers.ts].

    Conventions.
    - Wall-clock time ([Date.now()]) is an integer number of milliseconds,
      passed explicitly to every operation that reads the clock; one request
      reads one instant.
    - The document store is the list of user records in natural order;
      [findOne] returns the first match and [save] writes a document back
      under its [_id].  Requests are handled one after the other.
    - Third-party libraries are interfaces: [Jsonwebtoken] (the compact
      encoding and HMAC check behind [jwt.sign] and [jwt.verify]) and
      [Crypto] (SHA-256 and bcrypt).  Every theorem holds for every
      implementation of the interfaces; [Symbolic] gives one, used to run
      the operations on concrete requests.
    - Randomness ([crypto.randomBytes], [bcrypt.genSalt]) and the outcome
      of mail delivery are inputs of the operation that draws them.
    - The bookkeeping stamps [createdAt]/[updatedAt] that the store keeps
      are not part of the record: no operation reads them.
    - A string holds the UTF-8 bytes of the text; [js_length] counts its
      UTF-16 code units, as [length] does in the program.
    - The application mounts no error middleware ([initializeErrorHandling]
      is commented out in [src/app.ts]): what a handler throws is answered
      by the default error handler of Express, [finalhandler]. *)

From stdpp Require Import base decidable option list strings numbers.
From Stdlib Require Import ZArith Ascii String Lia.

Local Open Scope string_scope.

(* ===================================================================== *)
(** ** [src/types/index.ts] *)
(* ===================================================================== *)

Inductive UserRole := USER | ADMIN.

Inductive OAuthProvider := GOOGLE | GITHUB | FACEBOOK | LINKEDIN | TWITTER.

#[global] Instance UserRole_eq_dec : EqDecision UserRole.
Proof. solve_decision. Defined.

#[global] Instance OAuthProvider_eq_dec : EqDecision OAuthProvider.
Proof. solve_decision. Defined.

(** [JWTPayload]: the fields the service signs.  [type] is the kind
    discriminator, ['access'] or ['refresh'] for the pair issued here. *)
Record JWTPayload := mkPayload {
  userId : string;
  p_email : string;
  p_role : UserRole;
  type : string
}.

#[global] Instance JWTPayload_eq_dec : EqDecision JWTPayload.
Proof. solve_decision. Defined.

(** What [jwt.sign] really signs: the payload with the issue and expiry
    stamps (in seconds) that the library adds. *)
Record Claims := mkClaims {
  body : JWTPayload;
  iat : Z;
  exp : Z
}.

#[global] Instance Claims_eq_dec : EqDecision Claims.
Proof. solve_decision. Defined.

(** The [jwt] part of [Config]; the two durations are the configured
    [accessExpiresIn] and [refreshExpiresIn] ('15m', '7d') in seconds. *)
Record JwtConfig := mkJwtConfig {
  accessSecret : string;
  refreshSecret : string;
  accessExpiresIn : Z;
  refreshExpiresIn : Z
}.

Record Config := mkConfig {
  nodeEnv : string;
  jwt : JwtConfig
}.

(** [AppConfig.isDevelopment] *)
Definition isDevelopment (config : Config) : bool :=
  bool_decide (nodeEnv config = "development").

(* ===================================================================== *)
(** ** Errors: [src/middlewares/errorHandler.ts] *)
(* ===================================================================== *)

(** The class [ApiError], with the status code given to its constructor,
    and its subclasses, each with the status code its constructor passes to
    [super]. *)
Inductive ApiErrorClass :=
  | ApiError (code : Z)
  | NotFoundError
  | BadRequestError
  | UnauthorizedError
  | ForbiddenError
  | ConflictError
  | ValidationError.

Definition statusCode (c : ApiErrorClass) : Z :=
  match c with
  | ApiError code => code
  | NotFoundError => 404
  | BadRequestError => 400
  | UnauthorizedError => 401
  | ForbiddenError => 403
  | ConflictError => 409
  | ValidationError => 422
  end.

(** A thrown value: an instance of [ApiError] or of one of its subclasses,
    or any other [Error], told apart by its [name] (and [code], for the
    store's errors) as [errorHandler] does. *)
Inductive Exn :=
  | Api (c : ApiErrorClass) (message : string)
  | Plain (name : string) (message : string) (code : option Z).

#[global] Instance ApiErrorClass_eq_dec : EqDecision ApiErrorClass.
Proof. solve_decision. Defined.

#[global] Instance Exn_eq_dec : EqDecision Exn.
Proof. solve_decision. Defined.

(** [new Error(msg)] *)
Definition Error (message : string) : Exn := Plain "Error" message None.

Definition exn_message (e : Exn) : string :=
  match e with
  | Api _ m => m
  | Plain _ m _ => m
  end.

(** A computation that returns or throws. *)
Inductive Result (A : Type) : Type :=
  | Return (a : A)
  | Throw (e : Exn).

Arguments Return {A} a.
Arguments Throw {A} e.

Definition is_Return {A} (r : Result A) : bool :=
  match r with Return _ => true | Throw _ => false end.

Definition bindR {A B} (r : Result A) (k : A → Result B) : Result B :=
  match r with
  | Return a => k a
  | Throw e => Throw e
  end.

(** [try { r } catch (error) { h error }] *)
Definition try_catch {A} (r : Result A) (h : Exn → Result A) : Result A :=
  match r with
  | Return a => Return a
  | Throw e => h e
  end.

(** A field of a JSON request body as a handler reads it: a string, or a
    value that is no string (absent, a number, a boolean, [null], an array
    or an object). *)
Inductive Field :=
  | Text (s : string)
  | NotText.

Coercion Text : string >-> Field.

(* ===================================================================== *)
(** ** The libraries the code calls *)
(* ===================================================================== *)

(** The part of [jsonwebtoken] below [jwt.sign]/[jwt.verify]: a token is
    the compact serialisation of the claims with an HMAC under the secret.
    [jws_sign] is a function, as HS256 signing is: equal claims under one
    secret give one token.  The laws say that a signed token decodes to its
    claims and passes the check under the signing secret, and that the
    empty string ([falsy]) does not decode.  Nothing is assumed about the
    check under another secret. *)
Class Jsonwebtoken := {
  Token : Type;
  Token_eq_dec :: EqDecision Token;
  falsy : Token → bool;
  jws_sign : Claims → string → Token;
  jws_decode : Token → option Claims;
  jws_verify : Token → string → bool;
  jws_decode_sign : ∀ c k, jws_decode (jws_sign c k) = Some c;
  jws_verify_sign : ∀ c k, jws_verify (jws_sign c k) k = true;
  jws_decode_truthy : ∀ t c, jws_decode t = Some c → falsy t = false
}.

(** [crypto.createHash('sha256').update(s).digest('hex')], [bcrypt.hash]
    with the salt drawn by [bcrypt.genSalt(12)], and [bcrypt.compare]. *)
Class Crypto := {
  sha256 : string → string;
  bcrypt_hash : string → string → string;
  bcrypt_compare : string → string → bool
}.

Module jsonwebtoken.
Section Lib.
Context `{Jsonwebtoken}.

(** [jwt.sign(payload, secret, { expiresIn })] at clock [now]: the
    library stamps [iat = floor(now / 1000)] and [exp = iat + expiresIn]. *)
Definition sign (payload : JWTPayload) (secret : string) (expiresIn : Z)
    (now : Z) : Token :=
  let timestamp := (now / 1000)%Z in
  jws_sign {| body := payload; iat := timestamp;
              exp := (timestamp + expiresIn)%Z |} secret.

(** [jwt.verify(token, secret)] at clock [now]: malformed, then
    signature, then expiry ([clockTimestamp >= exp] is expired). *)
Definition verify (token : Token) (secret : string) (now : Z)
    : Result Claims :=
  match jws_decode token with
  | None => Throw (Plain "JsonWebTokenError" "jwt malformed" None)
  | Some decoded =>
      if negb (jws_verify token secret)
      then Throw (Plain "JsonWebTokenError" "invalid signature" None)
      else if (exp decoded <=? now / 1000)%Z
      then Throw (Plain "TokenExpiredError" "jwt expired" None)
      else Return decoded
  end.
End Lib.
End jsonwebtoken.

(* ===================================================================== *)
(** ** The user document: [IUser], [src/models/user.model.ts] *)
(* ===================================================================== *)

Section UserRecord.
Context `{Jsonwebtoken}.

Record User := mkUser {
  _id : string;
  email : string;
  password : string;
  firstName : string;
  lastName : string;
  role : UserRole;
  isEmailVerified : bool;
  emailVerificationToken : option string;
  emailVerificationExpires : option Z;
  passwordResetToken : option string;
  passwordResetExpires : option Z;
  refreshTokens : list Token;
  oauthProvider : option OAuthProvider;
  oauthId : option string;
  avatar : option string
}.

#[global] Instance User_eq_dec : EqDecision User.
Proof. solve_decision. Defined.
End UserRecord.

(* ===================================================================== *)
(** ** [src/services/jwt.service.ts] *)
(* ===================================================================== *)

Record TokenPair `{Jsonwebtoken} := mkTokenPair {
accessToken : Token;
refreshToken : Token
}.

Module JWTService.
Section Service.
Context `{Jsonwebtoken}.
Variable config : Config.

Definition generateAccessToken (now : Z) (user : User) : Token :=
  let payload := {| userId := _id user; p_email := email user;
                    p_role := role user; type := "access" |} in
  jsonwebtoken.sign payload (accessSecret (jwt config))
    (accessExpiresIn (jwt config)) now.

Definition generateRefreshToken (now : Z) (user : User) : Token :=
  let payload := {| userId := _id user; p_email := email user;
                    p_role := role user; type := "refresh" |} in
  jsonwebtoken.sign payload (refreshSecret (jwt config))
    (refreshExpiresIn (jwt config)) now.

Definition generateTokenPair (now : Z) (user : User) : TokenPair :=
  {| accessToken := generateAccessToken now user;
     refreshToken := generateRefreshToken now user |}.

(** The [try] body throws on a wrong [type]; the [catch] replaces every
    error, the library's and that one, by one plain [Error]. *)
Definition verifyAccessToken (now : Z) (token : Token) : Result JWTPayload :=
  try_catch
    (bindR (jsonwebtoken.verify token (accessSecret (jwt config)) now)
       (λ decoded,
          if bool_decide (type (body decoded) ≠ "access")
          then Throw (Error "Invalid token type")
          else Return (body decoded)))
    (λ _, Throw (Error "Invalid access token")).

Definition verifyRefreshToken (now : Z) (token : Token) : Result JWTPayload :=
  try_catch
    (bindR (jsonwebtoken.verify token (refreshSecret (jwt config)) now)
       (λ decoded,
          if bool_decide (type (body decoded) ≠ "refresh")
          then Throw (Error "Invalid token type")
          else Return (body decoded)))
    (λ _, Throw (Error "Invalid refresh token")).
End Service.
End JWTService.

(* ===================================================================== *)
(** ** The store and the effects of a request *)
(* ===================================================================== *)

Section Store.
Context `{Jsonwebtoken}.

(** The [users] collection, in natural order. *)
Definition Db : Type := list User.

(** A request handler: reads and writes the store, then returns or throws.
    The store keeps what was saved before a throw. *)
Definition M (A : Type) : Type := Db → Result A * Db.

Definition ret {A} (a : A) : M A := λ db, (Return a, db).

Definition throw {A} (e : Exn) : M A := λ db, (Throw e, db).

Definition bind {A B} (m : M A) (k : A → M B) : M B :=
  λ db, match m db with
        | (Return a, db') => k a db'
        | (Throw e, db') => (Throw e, db')
        end.

(** A pure step (a service call) inside a handler. *)
Definition lift {A} (r : Result A) : M A := λ db, (r, db).

(** [Model.findOne(filter)]: the first document that matches. *)
Definition findOne (filter : User → bool) : M (option User) :=
  λ db, (Return (find filter db), db).

(** [Model.findById(id)] *)
Definition findById (id : string) : M (option User) :=
  findOne (λ u, bool_decide (_id u = id)).

(** [doc.save()] of a loaded document whose password is not modified:
    the stored document with that [_id] becomes [doc]. *)
Definition store (doc : User) (db : Db) : Db :=
  map (λ u, if bool_decide (_id u = _id doc) then doc else u) db.

Definition save (doc : User) : M unit :=
  λ db, (Return tt, store doc db).
End Store.

Notation "'let*' x ':=' m 'in' k" := (bind m (λ x, k))
  (at level 10, x name, m at level 100, k at level 200).

(* ===================================================================== *)
(** ** [src/models/user.model.ts]: methods and statics *)
(* ===================================================================== *)

(** [String.prototype.toLowerCase] on the ASCII letters. *)
Definition lower_ascii (c : ascii) : ascii :=
  let n := nat_of_ascii c in
  if (65 <=? n)%nat && (n <=? 90)%nat then ascii_of_nat (n + 32) else c.

Fixpoint toLowerCase (s : string) : string :=
  match s with
  | EmptyString => EmptyString
  | String c s' => String (lower_ascii c) (toLowerCase s')
  end.

(** The UTF-16 code units that a byte of UTF-8 text stands for: none for
    a continuation byte, two (a surrogate pair) for the lead byte of a
    four-byte sequence, one for any other. *)
Definition units_of_byte (c : ascii) : nat :=
  let n := nat_of_ascii c in
  if (n <? 128)%nat then 1
  else if (n <? 192)%nat then 0
  else if (n <? 240)%nat then 1
  else 2.

(** [s.length] *)
Fixpoint js_length (s : string) : nat :=
  match s with
  | EmptyString => 0
  | String c s' => units_of_byte c + js_length s'
  end.

Module UserModel.
Section Model.
Context `{Jsonwebtoken} `{Crypto}.

(** Field assignments [this.f = v] on a document. *)
Definition set_password (v : string) (u : User) : User :=
  mkUser (_id u) (email u) v (firstName u) (lastName u) (role u)
    (isEmailVerified u) (emailVerificationToken u)
    (emailVerificationExpires u) (passwordResetToken u)
    (passwordResetExpires u) (refreshTokens u) (oauthProvider u)
    (oauthId u) (avatar u).

Definition set_isEmailVerified (v : bool) (u : User) : User :=
  mkUser (_id u) (email u) (password u) (firstName u) (lastName u) (role u)
    v (emailVerificationToken u)
    (emailVerificationExpires u) (passwordResetToken u)
    (passwordResetExpires u) (refreshTokens u) (oauthProvider u)
    (oauthId u) (avatar u).

Definition set_emailVerificationToken (v : option string) (u : User) : User :=
  mkUser (_id u) (email u) (password u) (firstName u) (lastName u) (role u)
    (isEmailVerified u) v
    (emailVerificationExpires u) (passwordResetToken u)
    (passwordResetExpires u) (refreshTokens u) (oauthProvider u)
    (oauthId u) (avatar u).

Definition set_emailVerificationExpires (v : option Z) (u : User) : User :=
  mkUser (_id u) (email u) (password u) (firstName u) (lastName u) (role u)
    (isEmailVerified u) (emailVerificationToken u)
    v (passwordResetToken u)
    (passwordResetExpires u) (refreshTokens u) (oauthProvider u)
    (oauthId u) (avatar u).

Definition set_passwordResetToken (v : option string) (u : User) : User :=
  mkUser (_id u) (email u) (password u) (firstName u) (lastName u) (role u)
    (isEmailVerified u) (emailVerificationToken u)
    (emailVerificationExpires u) v
    (passwordResetExpires u) (refreshTokens u) (oauthProvider u)
    (oauthId u) (avatar u).

Definition set_passwordResetExpires (v : option Z) (u : User) : User :=
  mkUser (_id u) (email u) (password u) (firstName u) (lastName u) (role u)
    (isEmailVerified u) (emailVerificationToken u)
    (emailVerificationExpires u) (passwordResetToken u)
    v (refreshTokens u) (oauthProvider u)
    (oauthId u) (avatar u).

Definition set_refreshTokens (v : list Token) (u : User) : User :=
  mkUser (_id u) (email u) (password u) (firstName u) (lastName u) (role u)
    (isEmailVerified u) (emailVerificationToken u)
    (emailVerificationExpires u) (passwordResetToken u)
    (passwordResetExpires u) v (oauthProvider u)
    (oauthId u) (avatar u).

(** The [pre('save')] hook when [isModified('password')]: the built-in
    validation runs first on the plain password ([minlength: 8], which
    compares the [length] of the string), then the hook replaces it by its
    bcrypt hash under the drawn [salt].  Returns the document as it is in
    memory after the save. *)
Definition saveModifiedPassword (salt : string) (doc : User) : M User :=
  if (js_length (password doc) <? 8)%nat
  then throw (Plain "ValidationError"
    "User validation failed: password: Password must be at least 8 characters long"
    None)
  else
    let doc := set_password (bcrypt_hash (password doc) salt) doc in
    let* _ := save doc in
    ret doc.

(** [comparePassword]: [bcrypt.compare] of two strings does not throw;
    given a candidate that is no string it rejects ("Illegal arguments"),
    and the [catch] replaces the error. *)
Definition comparePassword (u : User) (candidatePassword : Field)
    : Result bool :=
  try_catch
    (match candidatePassword with
     | Text s => Return (bcrypt_compare s (password u))
     | NotText => Throw (Error "Illegal arguments")
     end)
    (λ _, Throw (Error "Password comparison failed")).

(** [generateEmailVerificationToken]; [token] is the hex string of the 32
    random bytes drawn.  Expires after 24 hours. *)
Definition generateEmailVerificationToken (token : string) (now : Z)
    (u : User) : string * User :=
  (token,
   set_emailVerificationExpires (Some (now + 24 * 60 * 60 * 1000)%Z)
     (set_emailVerificationToken (Some (sha256 token)) u)).

(** [generatePasswordResetToken]; expires after 10 minutes. *)
Definition generatePasswordResetToken (token : string) (now : Z)
    (u : User) : string * User :=
  (token,
   set_passwordResetExpires (Some (now + 10 * 60 * 1000)%Z)
     (set_passwordResetToken (Some (sha256 token)) u)).

(** [clearTokens] *)
Definition clearTokens (u : User) : User :=
  set_passwordResetExpires None
    (set_passwordResetToken None
       (set_emailVerificationExpires None
          (set_emailVerificationToken None
             (set_refreshTokens [] u)))).

(** The query operator [{ $gt: now }] on an optional date field. *)
Definition gt_now (expires : option Z) (now : Z) : bool :=
  match expires with
  | Some e => (now <? e)%Z
  | None => false
  end.

Definition findByEmail (email' : string) : M (option User) :=
  findOne (λ u, bool_decide (email u = toLowerCase email')).

Definition findByVerificationToken (token : string) (now : Z)
    : M (option User) :=
  let hashedToken := sha256 token in
  findOne (λ u, bool_decide (emailVerificationToken u = Some hashedToken)
                && gt_now (emailVerificationExpires u) now).

Definition findByPasswordResetToken (token : string) (now : Z)
    : M (option User) :=
  let hashedToken := sha256 token in
  findOne (λ u, bool_decide (passwordResetToken u = Some hashedToken)
                && gt_now (passwordResetExpires u) now).
End Model.
End UserModel.

(* ===================================================================== *)
(** ** [src/services/email.service.ts] *)
(* ===================================================================== *)

Module EmailService.

(** [sendEmail]: [delivered] is the outcome of [transporter.sendMail];
    a transport error is caught and replaced. *)
Definition sendEmail (delivered : bool) : Result unit :=
  try_catch
    (if delivered then Return tt else Throw (Error "transport failure"))
    (λ _, Throw (Error "Failed to send email")).

Definition sendPasswordReset (delivered : bool) : Result unit :=
  sendEmail delivered.

Definition sendWelcomeEmail (delivered : bool) : Result unit :=
  sendEmail delivered.

End EmailService.

(* ===================================================================== *)
(** ** Responses *)
(* ===================================================================== *)

Section Responses.
Context `{Jsonwebtoken}.

(** The [user] object of an [AuthResponse]. *)
Record AuthUser := mkAuthUser {
  au_id : string;
  au_email : string;
  au_firstName : string;
  au_lastName : string;
  au_role : UserRole;
  au_isEmailVerified : bool;
  au_avatar : option string
}.

Record AuthResponse := mkAuthResponse {
  user : AuthUser;
  tokens : TokenPair
}.

Inductive ResponseData :=
  | AuthData (r : AuthResponse)
  | TokenData (t : TokenPair).

(** [res.cookie('refreshToken', t, { httpOnly: true, secure, sameSite:
    'lax', maxAge: 7 days })] and [res.clearCookie('refreshToken')]. *)
Inductive CookieOp :=
  | SetRefreshCookie (t : Token) (secure : bool)
  | ClearRefreshCookie.

(** What the client receives: the status, the envelope
    [{ success, message, data?, error? }] and the cookie operation. *)
Record Response := mkResponse {
  status : Z;
  success : bool;
  message : string;
  data : option ResponseData;
  error : option string;
  cookie : option CookieOp
}.

(** [errorHandler]: the response for a thrown error.  The stack trace that
    development builds attach is left out.  The module exports the
    handler; the application does not mount it. *)
Definition errorHandler (config : Config) (err : Exn) : Response :=
  let isDevelopement := isDevelopment config in
  let '(statusCode', message') :=
    match err with
    | Api c m => (statusCode c, m)
    | Plain name m code =>
        if bool_decide (name = "ValidationError")
        then (400%Z, "Validation failed")
        else if bool_decide (name = "MongoError")
                && bool_decide (code = Some 11000%Z)
        then (409%Z, "Duplicate field value")
        else if bool_decide (name = "JsonWebTokenError")
        then (401%Z, "Invalid token")
        else if bool_decide (name = "TokenExpiredError")
        then (401%Z, "Token expired")
        else (500%Z, if isDevelopement then m else "Internal Server Error")
    end in
  {| status := statusCode';
     success := false;
     message := message';
     data := None;
     error := Some (if isDevelopement then exn_message err else message');
     cookie := None |}.

(** The text of the page that [finalhandler] sends: the standard message
    of the status code, or the stack trace of the error, which starts with
    its name and message. *)
Inductive PageText :=
  | StatusMessage
  | Stack (err : Exn).

(** What the client receives: the JSON envelope that a handler or a
    middleware sent, or the HTML page of [finalhandler]. *)
Inductive Reply :=
  | Json (res : Response)
  | ErrorPage (code : Z) (text : PageText).

Definition reply_status (r : Reply) : Z :=
  match r with
  | Json res => status res
  | ErrorPage code _ => code
  end.

(** [finalhandler], to which Express passes an error that no middleware
    handled.  The status is the error's [statusCode] when it has one from
    400 to 599, else 500 (the handlers throw before they set a status);
    the page shows the stack trace unless the environment is
    "production". *)
Definition finalhandler (config : Config) (err : Exn) : Reply :=
  let code :=
    match err with
    | Api c _ =>
        if (400 <=? statusCode c)%Z && (statusCode c <? 600)%Z
        then statusCode c else 500%Z
    | Plain _ _ _ => 500%Z
    end in
  ErrorPage code
    (if bool_decide (nodeEnv config = "production") then StatusMessage
     else Stack err).

(** What a handler wrapped by [asyncHandler] sends: its own response, or,
    when it threw, what [next(error)] leads to. *)
Definition respond (config : Config) (r : Result Response) : Reply :=
  match r with
  | Return res => Json res
  | Throw e => finalhandler config e
  end.
End Responses.

(* ===================================================================== *)
(** ** [src/controllerd/auth.controller.ts] *)
(* ===================================================================== *)

Module AuthController.
Section Controller.
Context `{Jsonwebtoken} `{Crypto}.
Variable config : Config.

(** [process.env['NODE_ENV'] === 'production'] *)
Definition secureCookie : bool := bool_decide (nodeEnv config = "production").

Definition authUser (u : User) : AuthUser :=
  {| au_id := _id u; au_email := email u; au_firstName := firstName u;
     au_lastName := lastName u; au_role := role u;
     au_isEmailVerified := isEmailVerified u; au_avatar := avatar u |}.

(** [POST /api/auth/login], body [{ email, password }]; the validation
    chain of the route lets through a password that is no string. *)
Definition login (now : Z) (email' : string) (password' : Field)
    : M Response :=
  let* found := UserModel.findByEmail email' in
  match found with
  | None => throw (Api UnauthorizedError "Invalid email or password")
  | Some user =>
      let* isPasswordValid :=
        lift (UserModel.comparePassword user password') in
      if negb isPasswordValid
      then throw (Api UnauthorizedError "Invalid email or password")
      else
        let tokens := JWTService.generateTokenPair config now user in
        let user :=
          UserModel.set_refreshTokens
            (refreshTokens user ++ [refreshToken tokens]) user in
        let* _ := save user in
        ret {| status := 200; success := true;
               message := "Login successful";
               data := Some (AuthData (mkAuthResponse (authUser user) tokens));
               error := None;
               cookie := Some (SetRefreshCookie (refreshToken tokens)
                                 secureCookie) |}
  end.

(** [POST /api/auth/logout]; [req_user] is [req.user]. *)
Definition logout (req_user : option User) : M Response :=
  match req_user with
  | None => throw (Api UnauthorizedError "User not authenticated")
  | Some user =>
      let user := UserModel.clearTokens user in
      let* _ := save user in
      ret {| status := 200; success := true;
             message := "Logout successful";
             data := None; error := None;
             cookie := Some ClearRefreshCookie |}
  end.

(** [a || b] on two optional tokens: [a] when it is truthy, else [b]. *)
Definition or_token (a b : option Token) : option Token :=
  match a with
  | Some t => if falsy t then b else Some t
  | None => b
  end.

(** The second half of [refreshToken] (from "Check if refresh token exists
    in user's tokens" to the response): the membership check and the
    rotation, for a verified token and the user it names. *)
Definition rotate (now : Z) (presented : Token) (user : User) : M Response :=
  if negb (bool_decide (presented ∈ refreshTokens user))
  then throw (Api UnauthorizedError "Invalid refresh token")
  else
    let newTokens := JWTService.generateTokenPair config now user in
    let user :=
      UserModel.set_refreshTokens
        (filter (λ token, token ≠ presented) (refreshTokens user)) user in
    let user :=
      UserModel.set_refreshTokens
        (refreshTokens user ++ [refreshToken newTokens]) user in
    let* _ := save user in
    ret {| status := 200; success := true;
           message := "Token refreshed successfully";
           data := Some (TokenData newTokens);
           error := None;
           cookie := Some (SetRefreshCookie (refreshToken newTokens)
                             secureCookie) |}.

(** [GET /api/auth/refresh-token]; [cookie'] is
    [req.cookies['refreshToken']] and [header] is
    [req.headers['x-refresh-token']]. *)
Definition refreshToken (now : Z) (cookie' header : option Token)
    : M Response :=
  match or_token cookie' header with
  | None => throw (Api UnauthorizedError "Refresh token required")
  | Some presented =>
      if falsy presented
      then throw (Api UnauthorizedError "Refresh token required")
      else
        let* decoded :=
          lift (JWTService.verifyRefreshToken config now presented) in
        let* found := findById (userId decoded) in
        match found with
        | None => throw (Api UnauthorizedError "User not found")
        | Some user => rotate now presented user
        end
  end.

(** The document a rotation of [presented] at [now] saves: the filter and
    the push of [refreshToken] in one assignment. *)
Definition rotated (now : Z) (presented : Token) (user : User) : User :=
  UserModel.set_refreshTokens
    (filter (λ token, token ≠ presented) (refreshTokens user)
       ++ [JWTService.generateRefreshToken config now user]) user.

(** [POST /api/auth/verify-email], body [{ token }]; [delivered] is the
    outcome of the welcome mail, whose failure is caught and logged. *)
Definition verifyEmail (now : Z) (delivered : bool) (token : option string)
    : M Response :=
  match token with
  | None | Some EmptyString =>
      throw (Api BadRequestError "Verification token is required")
  | Some token =>
      let* found := UserModel.findByVerificationToken token now in
      match found with
      | None =>
          throw (Api BadRequestError "Invalid or expired verification token")
      | Some user =>
          let user := UserModel.set_isEmailVerified true user in
          let user := UserModel.set_emailVerificationToken None user in
          let user := UserModel.set_emailVerificationExpires None user in
          let* _ := save user in
          let* _ := lift (try_catch (EmailService.sendWelcomeEmail delivered)
                            (λ _, Return tt)) in
          ret {| status := 200; success := true;
                 message := "Email verified successfully";
                 data := None; error := None; cookie := None |}
      end
  end.

(** [POST /api/auth/forgot-password], body [{ email }]; [random] is the
    hex string of the bytes drawn for the reset token and [delivered] the
    outcome of the reset mail. *)
Definition forgotPassword (now : Z) (random : string) (delivered : bool)
    (email' : string) : M Response :=
  let* found := UserModel.findByEmail email' in
  match found with
  | None =>
      ret {| status := 200; success := true;
             message := "If an account with that email exists, a password reset link has been sent";
             data := None; error := None; cookie := None |}
  | Some user =>
      let '(resetToken, user) :=
        UserModel.generatePasswordResetToken random now user in
      let* _ := save user in
      let* _ := lift (try_catch (EmailService.sendPasswordReset delivered)
                        (λ _, Throw (Error "Failed to send password reset email"))) in
      ret {| status := 200; success := true;
             message := "If an account with that email exists, a password reset link has been sent";
             data := None; error := None; cookie := None |}
  end.

(** [POST /api/auth/reset-password], body [{ token, password }]; [salt] is
    the salt drawn when the new password is hashed. *)
Definition resetPassword (now : Z) (salt : string)
    (token password' : option string) : M Response :=
  match token, password' with
  | Some (String _ _ as token), Some (String _ _ as password') =>
      let* found := UserModel.findByPasswordResetToken token now in
      match found with
      | None => throw (Api BadRequestError "Invalid or expired reset token")
      | Some user =>
          let user := UserModel.set_password password' user in
          let user := UserModel.set_passwordResetToken None user in
          let user := UserModel.set_passwordResetExpires None user in
          let* user := UserModel.saveModifiedPassword salt user in
          let user := UserModel.set_refreshTokens [] user in
          let* _ := save user in
          ret {| status := 200; success := true;
                 message := "Password reset successfully. Please log in with your new password.";
                 data := None; error := None; cookie := None |}
      end
  | _, _ => throw (Api BadRequestError "Token and new password are required")
  end.
End Controller.
End AuthController.

(* ===================================================================== *)
(** ** Vocabulary of the properties *)
(* ===================================================================== *)

Section Vocabulary.
Context `{Jsonwebtoken}.

(** The hash [h] is pending, in the given field, on one account at most:
    what drawing 32 random bytes for every one-time token provides. *)
Definition pending_once (field : User → option string) (h : string)
    (db : Db) : Prop :=
  ∀ v w, v ∈ db → w ∈ db → field v = Some h → field w = Some h →
         _id v = _id w.

(** The store after a handler ran, and what the handler returned. *)
Definition after {A} (m : M A) (db : Db) : Db := snd (m db).

Definition outcome {A} (m : M A) (db : Db) : Result A := fst (m db).
End Vocabulary.

(* ===================================================================== *)
(** ** A symbolic implementation of the libraries

    Tokens are terms: the claims together with the signing secret, or a
    string that is no token.  Used to run the handlers on concrete
    requests; the general theorems do not depend on it. *)
(* ===================================================================== *)

Module Symbolic.

Inductive token :=
  | Signed (c : Claims) (secret : string)
  | Raw (s : string).

#[local] Instance token_eq_dec : EqDecision token.
Proof. solve_decision. Defined.

Definition token_falsy (t : token) : bool :=
  match t with
  | Raw EmptyString => true
  | _ => false
  end.

Definition token_decode (t : token) : option Claims :=
  match t with
  | Signed c _ => Some c
  | Raw _ => None
  end.

Definition token_verify (t : token) (secret : string) : bool :=
  match t with
  | Signed _ k => bool_decide (k = secret)
  | Raw _ => false
  end.

Definition token_verify_sign (c : Claims) (k : string) :
  token_verify (Signed c k) k = true.
Proof. unfold token_verify. apply bool_decide_eq_true_2. reflexivity. Defined.

Definition token_decode_truthy (t : token) (c : Claims) :
  token_decode t = Some c → token_falsy t = false.
Proof. destruct t; [reflexivity | discriminate]. Defined.

Definition jwt_lib : Jsonwebtoken :=
  {| Token := token;
     Token_eq_dec := token_eq_dec;
     falsy := token_falsy;
     jws_sign := Signed;
     jws_decode := token_decode;
     jws_verify := token_verify;
     jws_decode_sign := λ c k, eq_refl;
     jws_verify_sign := token_verify_sign;
     jws_decode_truthy := token_decode_truthy |}.

Definition crypto_lib : Crypto :=
  {| sha256 := λ s, "sha256:" ++ s;
     bcrypt_hash := λ p salt, "bcrypt:" ++ p;
     bcrypt_compare := λ candidate h,
       bool_decide (h = "bcrypt:" ++ candidate) |}.

End Symbolic.

(* ===================================================================== *)
(** ** Running the handlers: a small store *)
(* ===================================================================== *)

Module Scenario.
#[local] Existing Instance Symbolic.jwt_lib.
#[local] Existing Instance Symbolic.crypto_lib.

Definition config : Config :=
  {| nodeEnv := "production";
     jwt := {| accessSecret := "access-secret";
               refreshSecret := "refresh-secret";
               accessExpiresIn := 900;
               refreshExpiresIn := 604800 |} |}.

(** The same deployment with one secret for both kinds of token. *)
Definition config_one_secret : Config :=
  {| nodeEnv := "production";
     jwt := {| accessSecret := "secret";
               refreshSecret := "secret";
               accessExpiresIn := 900;
               refreshExpiresIn := 604800 |} |}.

Definition alice : User :=
  {| _id := "a1"; email := "alice@example.com";
     password := "bcrypt:Passw0rd!";
     firstName := "Alice"; lastName := "A"; role := USER;
     isEmailVerified := false;
     emailVerificationToken := None; emailVerificationExpires := None;
     passwordResetToken := None; passwordResetExpires := None;
     refreshTokens := [];
     oauthProvider := None; oauthId := None; avatar := None |}.

Definition bob : User :=
  {| _id := "b2"; email := "bob@example.com";
     password := "bcrypt:hunter2hunter2";
     firstName := "Bob"; lastName := "B"; role := ADMIN;
     isEmailVerified := true;
     emailVerificationToken := None; emailVerificationExpires := None;
     passwordResetToken := None; passwordResetExpires := None;
     refreshTokens := [];
     oauthProvider := None; oauthId := None; avatar := None |}.

Definition db0 : Db := [alice; bob].

(** Alice logs in at 5.000 s: the store then holds her first refresh
    token [t1]. *)
Definition db1 : Db :=
  after (AuthController.login config 5000 "alice@example.com" "Passw0rd!") db0.

Definition t1 : Token := JWTService.generateRefreshToken config 5000 alice.

(** She logs in again at 65.000 s: two sessions, [t1] and [t2]. *)
Definition db2 : Db :=
  after (AuthController.login config 65000 "alice@example.com" "Passw0rd!") db1.

Definition t2 : Token := JWTService.generateRefreshToken config 65000 alice.

(** At 70.000 s she asks for a password reset; the mail is delivered and
    carries the plaintext "r3s3t", good for ten minutes. *)
Definition db_forgot : Db :=
  after (AuthController.forgotPassword 70000 "r3s3t" true "alice@example.com")
    db2.

(** The store right after a registration of Alice at 1.000 s: a pending
    verification token with plaintext "v3r1fy", good for 24 hours. *)
Definition db_pending : Db :=
  store (snd (UserModel.generateEmailVerificationToken "v3r1fy" 1000 alice))
    db0.

(** The same deployment in a development environment. *)
Definition config_dev : Config :=
  {| nodeEnv := "development"; jwt := jwt config |}.

End Scenario.

(* ===================================================================== *)
(** ** [src/services/jwt.service.ts]: the header and expiry helpers *)
(* ===================================================================== *)

(** [s.substring(n)]: [s] without its first [n] characters. *)
Fixpoint substring_from (n : nat) (s : string) : string :=
  match n, s with
  | O, _ => s
  | S n', String _ s' => substring_from n' s'
  | S _, EmptyString => EmptyString
  end.

Module JWTInspect.
Section Inspect.
Context `{Jsonwebtoken}.

(** [extractTokenFromHeader]: the empty header and a header that does not
    start with "Bearer " give [null]. *)
Definition extractTokenFromHeader (authHeader : string) : option string :=
  if bool_decide (authHeader = "") || negb (String.prefix "Bearer " authHeader)
  then None
  else Some (substring_from 7 authHeader).

(** [new Date(ms)]: a time value in milliseconds, or the invalid date
    ([None]) outside the range of 8.64e15 ms around the epoch. *)
Definition new_Date (ms : Z) : option Z :=
  if (Z.abs ms <=? 8640000000000000)%Z then Some ms else None.

(** [getTokenExpiration]: [null] when the token does not decode or its
    [exp] is falsy (zero).  The claims are those of a token that
    [jwt.sign] stamped, with an integer [exp]; a foreign token without
    [exp], for which the function returns [null] too, is not among
    them. *)
Definition getTokenExpiration (token : Token) : option (option Z) :=
  match jws_decode token with
  | Some decoded =>
      if bool_decide (exp decoded ≠ 0%Z)
      then Some (new_Date (exp decoded * 1000))
      else None
  | None => None
  end.

(** [isTokenExpired]: [expiration < new Date()]; a comparison with the
    invalid date is false. *)
Definition isTokenExpired (now : Z) (token : Token) : bool :=
  match getTokenExpiration token with
  | None => true
  | Some expiration =>
      match expiration with
      | Some e => (e <? now)%Z
      | None => false
      end
  end.
End Inspect.
End JWTInspect.

(* ===================================================================== *)
(** ** [src/middlewares/auth.middleware.ts] *)
(* ===================================================================== *)

(** [try { m } catch (error) { h error }] around a handler; the store keeps
    what [m] saved before it threw. *)
Definition try_catchM `{Jsonwebtoken} {A} (m : M A) (h : Exn → M A) : M A :=
  λ db, match m db with
        | (Return a, db') => (Return a, db')
        | (Throw e, db') => h e db'
        end.

(** The values of the [UserRole] enum. *)
Definition role_string (r : UserRole) : string :=
  match r with
  | USER => "user"
  | ADMIN => "admin"
  end.

(** [parts.join(sep)] *)
Fixpoint join (sep : string) (parts : list string) : string :=
  match parts with
  | [] => ""
  | [x] => x
  | x :: rest => x ++ sep ++ join sep rest
  end.

Module AuthMiddleware.
Section Middleware.
Context `{Jsonwebtoken}.
Variable config : Config.

(** The token that the text of a header denotes: the header carries the
    token as a string, which the token library reads. *)
Variable read_token : string → Token.

(** What a middleware does with a request: it answers it, or calls
    [next()] with [req.user] as it then is. *)
Inductive Handled :=
  | Next (req_user : option User)
  | Responded (res : Response).

(** [res.status(code).json({ success: false, message, error })] *)
Definition refuse (code : Z) (message' error' : string) : Response :=
  {| status := code; success := false; message := message';
     data := None; error := Some error'; cookie := None |}.

(** [authenticate]; [authorization] is [req.headers.authorization]. *)
Definition authenticate (now : Z) (authorization : option string)
    : M Handled :=
  try_catchM
    (match authorization with
     | None | Some EmptyString =>
         ret (Responded (refuse 401 "Access token required"
                           "No authorization header provided"))
     | Some authHeader =>
         match JWTInspect.extractTokenFromHeader authHeader with
         | None | Some EmptyString =>
             ret (Responded
                    (refuse 401 "Invalid authorization header format"
                       "Token must be provided in format: Bearer <token>"))
         | Some token =>
             let* decoded :=
               lift (JWTService.verifyAccessToken config now
                       (read_token token)) in
             let* found := findById (userId decoded) in
             match found with
             | None =>
                 ret (Responded (refuse 401 "User not found"
                                   "Invalid token - user does not exist"))
             | Some user =>
                 if bool_decide (_id user = "")
                 then ret (Responded
                             (refuse 401 "User account is inactive"
                                "Account has been deactivated"))
                 else ret (Next (Some user))
             end
         end
     end)
    (λ _, ret (Responded (refuse 401 "Authentication failed"
                            "Invalid or expired access token"))).

(** [authorize(...roles)]; [req_user] is [req.user]. *)
Definition authorize (roles : list UserRole) (req_user : option User)
    : Handled :=
  match req_user with
  | None => Responded (refuse 401 "Authentication required"
                         "User not authenticated")
  | Some user =>
      if negb (bool_decide (role user ∈ roles))
      then Responded
             (refuse 403 "Access denied"
                ("Required roles: " ++ join ", " (map role_string roles)
                 ++ ". Your role: " ++ role_string (role user)))
      else Next req_user
  end.

Definition requireAdmin : option User → Handled := authorize [ADMIN].

Definition requireEmailVerification (req_user : option User) : Handled :=
  match req_user with
  | None => Responded (refuse 401 "Authentication required"
                         "User not authenticated")
  | Some user =>
      if negb (isEmailVerified user)
      then Responded
             (refuse 403 "Email verification required"
                "Please verify your email address before accessing this resource")
      else Next req_user
  end.

(** [optionalAuth]; [req_user] is [req.user] when the middleware is
    entered.  The query here loads the document without the fields the
    schema hides ([select: false]); the record stands for the stored
    document, as everywhere. *)
Definition optionalAuth (now : Z) (authorization : option string)
    (req_user : option User) : M Handled :=
  try_catchM
    (match authorization with
     | None | Some EmptyString => ret (Next req_user)
     | Some authHeader =>
         match JWTInspect.extractTokenFromHeader authHeader with
         | None | Some EmptyString => ret (Next req_user)
         | Some token =>
             let* decoded :=
               lift (JWTService.verifyAccessToken config now
                       (read_token token)) in
             let* found := findById (userId decoded) in
             match found with
             | Some user => ret (Next (Some user))
             | None => ret (Next req_user)
             end
         end
     end)
    (λ _, ret (Next req_user)).
End Middleware.
End AuthMiddleware.

(* ===================================================================== *)
(** ** [src/middlewares/errorHandler.ts]: the 404 handler *)
(* ===================================================================== *)

(** [notFoundhandler]: the error passed to [next] for [req.originalUrl]. *)
Definition notFoundhandler (originalUrl : string) : Exn :=
  Api NotFoundError (originalUrl ++ " not found").

(* ===================================================================== *)
(** ** [src/routes/auth.routes.ts] *)
(* ===================================================================== *)

Module Routes.
Section Router.
Context `{Jsonwebtoken} `{Crypto}.
Variable config : Config.
Variable read_token : string → Token.

(** [router.post(path, middleware, handler)]: the handler runs with the
    [req.user] the middleware passed on, unless the middleware answered. *)
Definition guarded (middleware : M AuthMiddleware.Handled)
    (handler : option User → M Response) : M Response :=
  let* handled := middleware in
  match handled with
  | AuthMiddleware.Responded res => ret res
  | AuthMiddleware.Next req_user => handler req_user
  end.

(** [router.post('/logout', authenticate, authController.logout)] *)
Definition logout (now : Z) (authorization : option string) : M Response :=
  guarded (AuthMiddleware.authenticate config read_token now authorization)
    AuthController.logout.

(** [router.post('/reset-password', authenticate,
    authController.resetPassword)] *)
Definition resetPassword (now : Z) (authorization : option string)
    (salt : string) (token password' : option string) : M Response :=
  guarded (AuthMiddleware.authenticate config read_token now authorization)
    (λ _, AuthController.resetPassword now salt token password').

(** A request to one of the routes of the router, with what its handling
    draws from the environment: random bytes, a salt, the outcome of a
    mail.  The validation chains of the routes that have one are left out:
    they answer some requests with status 400 before the handler, without
    reading or writing the store, and pass the others on with the body
    sanitized; [email'], [password'] and [token] are the body fields as
    the handler receives them. *)
Inductive Request :=
  | Login (email' : string) (password' : Field)
  | Logout (authorization : option string)
  | RefreshToken (cookie' header : option Token)
  | VerifyEmail (delivered : bool) (token : option string)
  | ForgotPassword (random : string) (delivered : bool) (email' : string)
  | ResetPassword (authorization : option string) (salt : string)
      (token password' : option string).

(** The handling of a request at clock [now]. *)
Definition serve (now : Z) (request : Request) : M Response :=
  match request with
  | Login email' password' => AuthController.login config now email' password'
  | Logout authorization => logout now authorization
  | RefreshToken cookie' header =>
      AuthController.refreshToken config now cookie' header
  | VerifyEmail delivered token =>
      AuthController.verifyEmail now delivered token
  | ForgotPassword random delivered email' =>
      AuthController.forgotPassword now random delivered email'
  | ResetPassword authorization salt token password' =>
      resetPassword now authorization salt token password'
  end.

(** The stores that a sequence of requests leads to. *)
Inductive reachable (db0 : Db) : Db → Prop :=
  | reachable_start : reachable db0 db0
  | reachable_serve db now request :
      reachable db0 db → reachable db0 (after (serve now request) db).
End Router.
End Routes.

(* ===================================================================== *)
(** ** [src/utils/helpers.ts]: the string helpers

    These helpers look at single characters, so a string is here the list
    of its UTF-16 code units, as [length], [charAt], [split] and a regular
    expression without the [u] flag see it. *)
(* ===================================================================== *)

Module Helpers.

(** The code units of a literal of the source (ASCII). *)
Definition units (s : string) : list N :=
  map N_of_ascii (list_ascii_of_string s).

(** The character [c] of a literal of the source. *)
Definition unit (c : ascii) : N := N_of_ascii c.

(** White space and line terminators of the language: what [trim] strips
    and [\s] matches. *)
Definition isWhiteSpace (c : N) : bool :=
  bool_decide (c ∈ [9; 10; 11; 12; 13; 32; 160; 5760; 8232; 8233; 8239;
                    8287; 12288; 65279]%N)
  || ((8192 <=? c)%N && (c <=? 8202)%N).

Fixpoint trimStart (s : list N) : list N :=
  match s with
  | c :: s' => if isWhiteSpace c then trimStart s' else s
  | [] => []
  end.

(** [s.trim()] *)
Definition trim (s : list N) : list N :=
  rev (trimStart (rev (trimStart s))).

(** [s.replace(/c/g, r)] for a single character [c] and a replacement
    without [$]. *)
Definition replaceAll (c : N) (r : list N) (s : list N) : list N :=
  flat_map (λ x, if (x =? c)%N then r else [x]) s.

(** [sanitizeInput] *)
Definition sanitizeInput (input : list N) : list N :=
  replaceAll (unit "'") (units "&#x27;")
    (replaceAll (unit DoubleQuote) (units "&quot;")
       (replaceAll (unit ">") (units "&gt;")
          (replaceAll (unit "<") (units "&lt;")
             (replaceAll (unit "&") (units "&amp;")
                (filter (λ x, x ≠ unit "<" ∧ x ≠ unit ">") (trim input)))))).

(** The class [[a-z0-9]]. *)
Definition isSlugChar (c : N) : bool :=
  ((97 <=? c)%N && (c <=? 122)%N) || ((48 <=? c)%N && (c <=? 57)%N).

(** [s.replace(/[^a-z0-9]+/g, '-')]: every maximal run of other characters
    becomes one hyphen; [inRun] says that the run has begun. *)
Fixpoint dashRuns (inRun : bool) (s : list N) : list N :=
  match s with
  | [] => []
  | c :: s' =>
      if isSlugChar c then c :: dashRuns false s'
      else if inRun then dashRuns true s'
      else unit "-" :: dashRuns true s'
  end.

(** [s.replace(/(^-|-$)/g, '')]: a hyphen at the start and a hyphen at the
    end are removed. *)
Definition stripHyphens (s : list N) : list N :=
  let s1 := match s with
            | c :: s' => if (c =? unit "-")%N then s' else s
            | [] => []
            end in
  match rev s1 with
  | c :: r => if (c =? unit "-")%N then rev r else s1
  | [] => s1
  end.

(** [generateSlug]; [toLowerCase] is the language's
    [String.prototype.toLowerCase]. *)
Definition generateSlug (toLowerCase : list N → list N) (text : list N)
    : list N :=
  stripHyphens (dashRuns false (toLowerCase text)).

(** [s.split(sep)] for a single character: the pieces between the
    separators; [piece] is the piece being read, reversed. *)
Fixpoint split_acc (sep : N) (piece : list N) (s : list N)
    : list (list N) :=
  match s with
  | [] => [rev piece]
  | c :: s' =>
      if (c =? sep)%N then rev piece :: split_acc sep [] s'
      else split_acc sep (c :: piece) s'
  end.

Definition split (sep : N) (s : list N) : list (list N) := split_acc sep [] s.

(** [maskEmail]; [parts[0]] and [parts[1]] are falsy when they are absent
    or empty. *)
Definition maskEmail (email' : list N) : list N :=
  let parts := split (unit "@") email' in
  match parts with
  | (first :: rest) as localPart :: (_ :: _) as domain :: _ =>
      if (List.length localPart <=? 2)%nat then email'
      else
        let maskedLocal :=
          ([first] ++ replicate (List.length localPart - 2) (unit "*")
           ++ [List.last localPart first])%list in
        (maskedLocal ++ [unit "@"] ++ domain)%list
  | _ => email'
  end.

(** Escaped text: plain characters, none of which is an angle bracket, a
    double or single quote or an ampersand, and the entities [&amp;],
    [&quot;] and [&#x27;]. *)
Inductive escaped : list N → Prop :=
  | escaped_nil : escaped []
  | escaped_plain c l :
      c ∉ [unit "<"; unit ">"; unit DoubleQuote; unit "'"; unit "&"] →
      escaped l → escaped (c :: l)
  | escaped_amp l : escaped l → escaped (units "&amp;" ++ l)%list
  | escaped_quot l : escaped l → escaped (units "&quot;" ++ l)%list
  | escaped_apos l : escaped l → escaped (units "&#x27;" ++ l)%list.

End Helpers.

(* ===================================================================== *)
(** ** Vocabulary of the store invariants *)
(* ===================================================================== *)

Section Consistency.
Context `{Jsonwebtoken}.
Variable config : Config.

(** [u'] is the account [u] at a later time: the identity, the names, the
    role, the OAuth link and the avatar are those of [u], and a verified
    email stays verified. *)
Definition same_account (u u' : User) : Prop :=
  _id u' = _id u ∧ email u' = email u
  ∧ firstName u' = firstName u ∧ lastName u' = lastName u
  ∧ role u' = role u
  ∧ oauthProvider u' = oauthProvider u ∧ oauthId u' = oauthId u
  ∧ avatar u' = avatar u
  ∧ (isEmailVerified u = true → isEmailVerified u' = true).

(** [t] is a refresh token the service minted for the account [u]. *)
Definition issued_to (u : User) (t : Token) : Prop :=
  ∃ now0, t = JWTService.generateRefreshToken config now0 u.

(** A pending one-time token has its hash and its expiry, or neither. *)
Definition paired (u : User) : Prop :=
  (is_Some (emailVerificationToken u) ↔ is_Some (emailVerificationExpires u))
  ∧ (is_Some (passwordResetToken u) ↔ is_Some (passwordResetExpires u)).

(** A store that descends from [db0]: distinct ids, the accounts of [db0]
    in their order, sessions minted by the service for their owner, paired
    one-time fields. *)
Definition consistent (db0 db : Db) : Prop :=
  NoDup (map _id db)
  ∧ Forall2 same_account db0 db
  ∧ (∀ u t, u ∈ db → t ∈ refreshTokens u → issued_to u t)
  ∧ (∀ u, u ∈ db → paired u).
End Consistency.

(* ===================================================================== *)
(** ** Running the routes: bearer headers and further stores *)
(* ===================================================================== *)

Module ScenarioRoutes.
#[local] Existing Instance Symbolic.jwt_lib.
#[local] Existing Instance Symbolic.crypto_lib.
Import Scenario.

(** The access token of Alice's login at 5.000 s, good for 15 minutes. *)
Definition a1 : Token := JWTService.generateAccessToken config 5000 alice.

(** How the texts of the scenario read as tokens: one of them is Alice's
    access token, one her refresh token [t1]; any other text is no
    token. *)
Definition read_token (s : string) : Token :=
  if bool_decide (s = "alice.access") then a1
  else if bool_decide (s = "alice.refresh") then t1
  else Symbolic.Raw s.

(** Alice with her two sessions, as [db2] stores her, and with the reset
    token of [db_forgot] pending. *)
Definition alice2 : User := UserModel.set_refreshTokens [t1; t2] alice.

Definition alice_forgot : User :=
  snd (UserModel.generatePasswordResetToken "r3s3t" 70000 alice2).

(** At 70.000 s she logs out with her access token. *)
Definition db_logout : Db :=
  after (Routes.logout config read_token 70000 (Some "Bearer alice.access"))
    db2.

(** The reset mail of 70.000 s is lost, and she resets her password at
    80.000 s with the plaintext that was drawn. *)
Definition db_lost_mail : Db :=
  after (AuthController.forgotPassword 70000 "r3s3t" false
           "alice@example.com") db2.

(** She asks for a second reset token at 75.000 s. *)
Definition db_forgot_twice : Db :=
  after (AuthController.forgotPassword 75000 "r3s3t-2" true
           "alice@example.com") db_forgot.

(** She resets her password at 80.000 s. *)
Definition db_reset : Db :=
  after (AuthController.resetPassword 80000 "salt" (Some "r3s3t")
           (Some "N3wPassw0rd!")) db_forgot.

(** The code units of "alice@x.org". *)
Definition alice_at_x_org : list N := Helpers.units "alice@x.org".
End ScenarioRoutes.

(* ===================================================================== *)
(** ** Facts about the store *)
(* ===================================================================== *)

Section StoreFacts.
Context `{Jsonwebtoken}.
Implicit Types (db : Db) (u v doc : User) (t : Token).

Lemma elem_of_store v doc db :
  v ∈ store doc db → v = doc ∨ (v ∈ db ∧ _id v ≠ _id doc).
Proof.
  unfold store. intros Hv. apply list_elem_of_fmap in Hv.
  destruct Hv as (w & -> & Hw).
  case_bool_decide; [left | right]; auto.
Qed.

Lemma store_other v doc db :
  v ∈ db → _id v ≠ _id doc → v ∈ store doc db.
Proof.
  intros Hv Hne. unfold store. apply list_elem_of_fmap.
  exists v. split; [|exact Hv]. rewrite bool_decide_eq_false_2; auto.
Qed.

Lemma store_same v doc db :
  v ∈ db → _id v = _id doc → doc ∈ store doc db.
Proof.
  intros Hv He. unfold store. apply list_elem_of_fmap.
  exists v. split; [|exact Hv]. rewrite bool_decide_eq_true_2; auto.
Qed.

Lemma find_elem_of (f : User → bool) db u :
  find f db = Some u → u ∈ db ∧ f u = true.
Proof.
  intros Hf. apply find_some in Hf. destruct Hf as [Hin Hfu].
  split; [apply list_elem_of_In; exact Hin | exact Hfu].
Qed.

Lemma find_none_elem_of (f : User → bool) db :
  (∀ u, u ∈ db → f u = false) → find f db = None.
Proof.
  induction db as [|w db IH]; intros Hall; simpl; [reflexivity|].
  rewrite (Hall w) by apply list_elem_of_here.
  apply IH. intros u Hu. apply Hall. apply list_elem_of_further, Hu.
Qed.

(** After a save, looking the document up by its id returns it. *)
Lemma find_by_id_store doc db u0 :
  find (λ u, bool_decide (_id u = _id doc)) db = Some u0 →
  find (λ u, bool_decide (_id u = _id doc)) (store doc db) = Some doc.
Proof.
  induction db as [|w db IH]; simpl; [discriminate|].
  destruct (bool_decide (_id w = _id doc)) eqn:Hw.
  - intros _. rewrite bool_decide_eq_true_2; reflexivity.
  - intros Hf. rewrite Hw. apply IH, Hf.
Qed.

(** The record found by id carries that id. *)
Lemma find_by_id_id id db u :
  find (λ u, bool_decide (_id u = id)) db = Some u → _id u = id.
Proof.
  intros Hf. apply find_elem_of in Hf. destruct Hf as [_ Hb].
  apply bool_decide_eq_true_1 in Hb. exact Hb.
Qed.
End StoreFacts.

(* ===================================================================== *)
(** ** The token service *)
(* ===================================================================== *)

Section ServiceFacts.
Context `{Jsonwebtoken}.
Variable config : Config.
Implicit Types (u user : User) (t : Token) (now : Z).

(** Whatever the library throws, the refresh verifier throws one error. *)
Lemma verifyRefreshToken_throw now t e :
  JWTService.verifyRefreshToken config now t = Throw e →
  e = Error "Invalid refresh token".
Proof.
  unfold JWTService.verifyRefreshToken, jsonwebtoken.verify, try_catch, bindR.
  repeat case_match; congruence.
Qed.

Lemma verifyAccessToken_throw now t e :
  JWTService.verifyAccessToken config now t = Throw e →
  e = Error "Invalid access token".
Proof.
  unfold JWTService.verifyAccessToken, jsonwebtoken.verify, try_catch, bindR.
  repeat case_match; congruence.
Qed.

(** What a token accepted by the refresh verifier looks like. *)
Lemma verifyRefreshToken_return now t p :
  JWTService.verifyRefreshToken config now t = Return p →
  ∃ c, jws_decode t = Some c ∧ body c = p ∧ type p = "refresh" ∧
       jws_verify t (refreshSecret (jwt config)) = true ∧
       (now / 1000 < exp c)%Z.
Proof.
  unfold JWTService.verifyRefreshToken, jsonwebtoken.verify, try_catch, bindR.
  destruct (jws_decode t) as [c|]; [|discriminate].
  destruct (jws_verify t _) eqn:Hsig; simpl; [|discriminate].
  destruct (exp c <=? now / 1000)%Z eqn:Hexp; [discriminate|].
  case_bool_decide as Hty; [discriminate|].
  intros [= <-]. exists c. repeat split; auto.
  apply Z.leb_gt in Hexp. exact Hexp.
Qed.

Lemma verifyAccessToken_return now t p :
  JWTService.verifyAccessToken config now t = Return p →
  ∃ c, jws_decode t = Some c ∧ body c = p ∧ type p = "access".
Proof.
  unfold JWTService.verifyAccessToken, jsonwebtoken.verify, try_catch, bindR.
  destruct (jws_decode t) as [c|]; [|discriminate].
  destruct (jws_verify t _); simpl; [|discriminate].
  destruct (exp c <=? now / 1000)%Z; [discriminate|].
  case_bool_decide as Hty; [discriminate|].
  intros [= <-]. exists c. repeat split; auto.
Qed.

(** A refresh token the service issued is accepted until it expires. *)
Lemma verifyRefreshToken_generated now0 now user :
  (now / 1000 < now0 / 1000 + refreshExpiresIn (jwt config))%Z →
  JWTService.verifyRefreshToken config now
    (JWTService.generateRefreshToken config now0 user)
  = Return {| userId := _id user; p_email := email user;
              p_role := role user; type := "refresh" |}.
Proof.
  intros Hexp.
  unfold JWTService.verifyRefreshToken, JWTService.generateRefreshToken,
    jsonwebtoken.verify, jsonwebtoken.sign, try_catch, bindR.
  rewrite jws_decode_sign, jws_verify_sign. simpl.
  destruct (_ <=? _)%Z eqn:Hle; [apply Z.leb_le in Hle; lia|].
  reflexivity.
Qed.

(** Tokens issued to one user in different clock seconds differ. *)
Lemma generateRefreshToken_inj now0 now1 u0 u1 :
  JWTService.generateRefreshToken config now0 u0
  = JWTService.generateRefreshToken config now1 u1 →
  (now0 / 1000 = now1 / 1000)%Z ∧ _id u0 = _id u1.
Proof.
  unfold JWTService.generateRefreshToken, jsonwebtoken.sign. intros Heq.
  apply (f_equal jws_decode) in Heq. rewrite !jws_decode_sign in Heq.
  injection Heq as Hid _ _ Hiat _. auto.
Qed.

(** C3. Kind isolation: an access token minted for any user at any time
    is rejected by the refresh-token verifier, and a refresh token is
    rejected by the access-token verifier, at every later check and for
    every configuration, also when both kinds share one secret, so that
    the signature is valid, and the token has not expired. *)
Theorem kind_isolation (now now' : Z) (user : User) :
  JWTService.verifyRefreshToken config now'
    (JWTService.generateAccessToken config now user)
  = Throw (Error "Invalid refresh token")
  ∧ JWTService.verifyAccessToken config now'
      (JWTService.generateRefreshToken config now user)
    = Throw (Error "Invalid access token").
Proof.
  split.
  - destruct (JWTService.verifyRefreshToken config now' _) as [p|e] eqn:Hv.
    + apply verifyRefreshToken_return in Hv.
      destruct Hv as (c & Hdec & Hbody & Hty & _).
      unfold JWTService.generateAccessToken, jsonwebtoken.sign in Hdec.
      rewrite jws_decode_sign in Hdec. injection Hdec as <-.
      subst p. simpl in Hty. discriminate.
    + f_equal. eapply verifyRefreshToken_throw, Hv.
  - destruct (JWTService.verifyAccessToken config now' _) as [p|e] eqn:Hv.
    + apply verifyAccessToken_return in Hv.
      destruct Hv as (c & Hdec & Hbody & Hty).
      unfold JWTService.generateRefreshToken, jsonwebtoken.sign in Hdec.
      rewrite jws_decode_sign in Hdec. injection Hdec as <-.
      subst p. simpl in Hty. discriminate.
    + f_equal. eapply verifyAccessToken_throw, Hv.
Qed.
End ServiceFacts.

(* ===================================================================== *)
(** ** Refresh: verification, membership, rotation *)
(* ===================================================================== *)

Section RefreshFacts.
Context `{Jsonwebtoken} `{Crypto}.
Variable config : Config.
Implicit Types (db : Db) (u v : User) (t : Token) (now : Z).

Ltac run :=
  unfold bind, ret, throw, lift, findById, findOne, save; simpl.

(** The membership check and the rotation. *)
Lemma rotate_not_member now t u db :
  t ∉ refreshTokens u →
  AuthController.rotate config now t u db
  = (Throw (Api UnauthorizedError "Invalid refresh token"), db).
Proof.
  intros Hnot. unfold AuthController.rotate.
  rewrite bool_decide_eq_false_2 by exact Hnot. reflexivity.
Qed.

Lemma rotate_member now t u db :
  t ∈ refreshTokens u →
  AuthController.rotate config now t u db
  = (Return {| status := 200; success := true;
               message := "Token refreshed successfully";
               data := Some (TokenData (JWTService.generateTokenPair
                                          config now u));
               error := None;
               cookie := Some (SetRefreshCookie
                                 (JWTService.generateRefreshToken config now u)
                                 (AuthController.secureCookie config)) |},
     store (AuthController.rotated config now t u) db).
Proof.
  intros Hin. unfold AuthController.rotate.
  rewrite bool_decide_eq_true_2 by exact Hin. reflexivity.
Qed.

Lemma refreshToken_absent now cookie' header db :
  match AuthController.or_token cookie' header with
  | None => True
  | Some t => falsy t = true
  end →
  AuthController.refreshToken config now cookie' header db
  = (Throw (Api UnauthorizedError "Refresh token required"), db).
Proof.
  unfold AuthController.refreshToken.
  destruct (AuthController.or_token cookie' header) as [t|]; [|reflexivity].
  intros ->. reflexivity.
Qed.

Lemma refreshToken_unverified now cookie' header db t e :
  AuthController.or_token cookie' header = Some t →
  falsy t = false →
  JWTService.verifyRefreshToken config now t = Throw e →
  AuthController.refreshToken config now cookie' header db
  = (Throw (Error "Invalid refresh token"), db).
Proof.
  intros Hor Hf Hv. unfold AuthController.refreshToken.
  rewrite Hor, Hf. run. rewrite Hv.
  rewrite (verifyRefreshToken_throw _ _ _ _ Hv). reflexivity.
Qed.

Lemma refreshToken_no_user now cookie' header db t p :
  AuthController.or_token cookie' header = Some t →
  falsy t = false →
  JWTService.verifyRefreshToken config now t = Return p →
  findById (userId p) db = (Return None, db) →
  AuthController.refreshToken config now cookie' header db
  = (Throw (Api UnauthorizedError "User not found"), db).
Proof.
  intros Hor Hf Hv Hfind. unfold AuthController.refreshToken.
  rewrite Hor, Hf. unfold bind at 1. unfold lift. rewrite Hv.
  unfold bind at 1. rewrite Hfind. reflexivity.
Qed.

Lemma refreshToken_not_member now cookie' header db t p u :
  AuthController.or_token cookie' header = Some t →
  falsy t = false →
  JWTService.verifyRefreshToken config now t = Return p →
  findById (userId p) db = (Return (Some u), db) →
  t ∉ refreshTokens u →
  AuthController.refreshToken config now cookie' header db
  = (Throw (Api UnauthorizedError "Invalid refresh token"), db).
Proof.
  intros Hor Hf Hv Hfind Hnot. unfold AuthController.refreshToken.
  rewrite Hor, Hf. unfold bind at 1. unfold lift. rewrite Hv.
  unfold bind at 1. rewrite Hfind.
  apply rotate_not_member, Hnot.
Qed.

Lemma refreshToken_member now cookie' header db t p u :
  AuthController.or_token cookie' header = Some t →
  falsy t = false →
  JWTService.verifyRefreshToken config now t = Return p →
  findById (userId p) db = (Return (Some u), db) →
  t ∈ refreshTokens u →
  AuthController.refreshToken config now cookie' header db
  = (Return {| status := 200; success := true;
               message := "Token refreshed successfully";
               data := Some (TokenData (JWTService.generateTokenPair
                                          config now u));
               error := None;
               cookie := Some (SetRefreshCookie
                                 (JWTService.generateRefreshToken config now u)
                                 (AuthController.secureCookie config)) |},
     store (AuthController.rotated config now t u) db).
Proof.
  intros Hor Hf Hv Hfind Hin. unfold AuthController.refreshToken.
  rewrite Hor, Hf. unfold bind at 1. unfold lift. rewrite Hv.
  unfold bind at 1. rewrite Hfind.
  apply rotate_member, Hin.
Qed.

(** Every way a refresh can end. *)
Lemma refreshToken_cases now cookie' header db r db' :
  AuthController.refreshToken config now cookie' header db = (r, db') →
  (r = Throw (Api UnauthorizedError "Refresh token required") ∧ db' = db)
  ∨ (r = Throw (Error "Invalid refresh token") ∧ db' = db)
  ∨ (r = Throw (Api UnauthorizedError "User not found") ∧ db' = db)
  ∨ (r = Throw (Api UnauthorizedError "Invalid refresh token") ∧ db' = db)
  ∨ (∃ t p u,
       AuthController.or_token cookie' header = Some t ∧ falsy t = false ∧
       JWTService.verifyRefreshToken config now t = Return p ∧
       findById (userId p) db = (Return (Some u), db) ∧
       t ∈ refreshTokens u ∧
       r = Return {| status := 200; success := true;
               message := "Token refreshed successfully";
               data := Some (TokenData (JWTService.generateTokenPair
                                          config now u));
               error := None;
               cookie := Some (SetRefreshCookie
                                 (JWTService.generateRefreshToken config now u)
                                 (AuthController.secureCookie config)) |} ∧
       db' = store (AuthController.rotated config now t u) db).
Proof.
  destruct (AuthController.or_token cookie' header) as [t|] eqn:Hor.
  2:{ rewrite refreshToken_absent by (rewrite Hor; exact I).
      intros [= <- <-]. auto. }
  destruct (falsy t) eqn:Hf.
  { rewrite refreshToken_absent by (rewrite Hor; exact Hf).
    intros [= <- <-]. auto. }
  destruct (JWTService.verifyRefreshToken config now t) as [p|e] eqn:Hv.
  2:{ rewrite (refreshToken_unverified _ _ _ _ _ _ Hor Hf Hv).
      intros [= <- <-]. auto. }
  destruct (find (λ u, bool_decide (_id u = userId p)) db) as [u|] eqn:Hfind.
  2:{ rewrite (refreshToken_no_user _ _ _ _ _ _ Hor Hf Hv)
        by (run; rewrite Hfind; reflexivity).
      intros [= <- <-]. auto. }
  assert (Hfind' : findById (userId p) db = (Return (Some u), db))
    by (run; rewrite Hfind; reflexivity).
  destruct (decide (t ∈ refreshTokens u)) as [Hin|Hnot].
  - rewrite (refreshToken_member _ _ _ _ _ _ _ Hor Hf Hv Hfind' Hin).
    intros [= <- <-]. do 4 right. exists t, p, u. auto 10.
  - rewrite (refreshToken_not_member _ _ _ _ _ _ _ Hor Hf Hv Hfind' Hnot).
    intros [= <- <-]. auto 10.
Qed.
End RefreshFacts.

Section RotationFacts.
Context `{Jsonwebtoken}.
Variable config : Config.
Implicit Types (db : Db) (u v : User) (t : Token) (now : Z).

Lemma store_store d1 d2 db :
  _id d1 = _id d2 → store d2 (store d1 db) = store d2 db.
Proof.
  intros Hid. unfold store. rewrite <- list_fmap_compose.
  apply list_fmap_ext. intros _ w _. simpl.
  destruct (bool_decide (_id w = _id d1)) eqn:H1.
  - apply bool_decide_eq_true_1 in H1.
    rewrite !bool_decide_eq_true_2; congruence.
  - reflexivity.
Qed.

Lemma findById_found id db u :
  findById id db = (Return (Some u), db) → u ∈ db ∧ _id u = id.
Proof.
  unfold findById, findOne. intros [= Hf]. split.
  - apply find_elem_of in Hf. tauto.
  - eapply find_by_id_id, Hf.
Qed.

Lemma findById_elem_of u db :
  u ∈ db → ∃ u0, findById (_id u) db = (Return (Some u0), db).
Proof.
  intros Hu. unfold findById, findOne.
  destruct (find _ db) as [u0|] eqn:Hf; [eauto|].
  exfalso. apply list_elem_of_In in Hu.
  pose proof (find_none _ _ Hf _ Hu) as Hb. simpl in Hb.
  rewrite bool_decide_eq_true_2 in Hb by reflexivity. discriminate.
Qed.

(** After a save the document is what a lookup by its id returns. *)
Lemma findById_store doc db u0 :
  findById (_id doc) db = (Return (Some u0), db) →
  findById (_id doc) (store doc db) = (Return (Some doc), store doc db).
Proof.
  unfold findById, findOne. intros [= Hf].
  rewrite (find_by_id_store _ _ _ Hf). reflexivity.
Qed.

(** The presented token stays in the rotated set exactly when the token
    minted by the rotation is the same string. *)
Lemma rotated_member now t u :
  t ∈ refreshTokens (AuthController.rotated config now t u)
  ↔ JWTService.generateRefreshToken config now u = t.
Proof.
  unfold AuthController.rotated. simpl. rewrite elem_of_app.
  rewrite list_elem_of_filter, list_elem_of_singleton. split.
  - intros [[Hne _]|Heq]; [contradiction | auto].
  - intros Heq. right. auto.
Qed.

(** First use.  A token of [u]'s set that verifies and names [u] is
    rotated: the call returns the new pair. *)
Lemma rotation_first_use now cookie' header db t p u :
  AuthController.or_token cookie' header = Some t →
  JWTService.verifyRefreshToken config now t = Return p →
  findById (userId p) db = (Return (Some u), db) →
  t ∈ refreshTokens u →
  ∃ res,
    AuthController.refreshToken config now cookie' header db
    = (Return res, store (AuthController.rotated config now t u) db)
    ∧ data res = Some (TokenData (JWTService.generateTokenPair config now u)).
Proof.
  intros Hor Hv Hfind Hin.
  assert (Hf : falsy t = false).
  { apply verifyRefreshToken_return in Hv. destruct Hv as (c & Hdec & _).
    eapply jws_decode_truthy, Hdec. }
  eexists. split.
  - eapply refreshToken_member; eauto.
  - reflexivity.
Qed.

(** Two verifications of one token return one payload. *)
Lemma verifyRefreshToken_functional now now' t p p' :
  JWTService.verifyRefreshToken config now t = Return p →
  JWTService.verifyRefreshToken config now' t = Return p' →
  p' = p.
Proof.
  intros Hv Hv'.
  apply verifyRefreshToken_return in Hv. destruct Hv as (c & Hdec & <- & _).
  apply verifyRefreshToken_return in Hv'.
  destruct Hv' as (c' & Hdec' & <- & _). congruence.
Qed.

(** Second use.  When the rotation minted a token different from [t], a
    later call presenting [t] throws; the error is the membership check's
    [Unauthorized] whenever [t] still passes verification. *)
Lemma rotation_second_use now now2 cookie' header cookie2 header2 db t p u :
  AuthController.or_token cookie' header = Some t →
  JWTService.verifyRefreshToken config now t = Return p →
  findById (userId p) db = (Return (Some u), db) →
  t ∈ refreshTokens u →
  JWTService.generateRefreshToken config now u ≠ t →
  AuthController.or_token cookie2 header2 = Some t →
  let db' := store (AuthController.rotated config now t u) db in
  ∃ e,
    AuthController.refreshToken config now2 cookie2 header2 db'
    = (Throw e, db')
    ∧ (is_Return (JWTService.verifyRefreshToken config now2 t) = true →
       e = Api UnauthorizedError "Invalid refresh token").
Proof.
  intros Hor Hv Hfind Hin Hfresh Hor2 db'.
  assert (Hf : falsy t = false).
  { apply verifyRefreshToken_return in Hv. destruct Hv as (c & Hdec & _).
    eapply jws_decode_truthy, Hdec. }
  destruct (JWTService.verifyRefreshToken config now2 t) as [p2|e2] eqn:Hv2.
  - rewrite (verifyRefreshToken_functional _ _ _ _ _ Hv Hv2) in Hv2.
    exists (Api UnauthorizedError "Invalid refresh token"). split; [|auto].
    destruct (findById_found _ _ _ Hfind) as [Hu Hid].
    eapply (refreshToken_not_member config now2 cookie2 header2 db' t p
              (AuthController.rotated config now t u)); auto.
    + subst db'. rewrite <- Hid.
      change (_id u) with (_id (AuthController.rotated config now t u)).
      eapply findById_store.
      change (_id (AuthController.rotated config now t u)) with (_id u).
      rewrite Hid. exact Hfind.
    + rewrite rotated_member. exact Hfresh.
  - exists (Error "Invalid refresh token"). split; [|discriminate].
    eapply refreshToken_unverified; eauto.
Qed.

(** Single use of a token issued in an earlier clock second: the first
    refresh presenting it is served, and every later one throws. *)
Lemma rotation_single_use now0 now now2 cookie' header cookie2 header2
    db u0 u p :
  let t := JWTService.generateRefreshToken config now0 u0 in
  AuthController.or_token cookie' header = Some t →
  JWTService.verifyRefreshToken config now t = Return p →
  findById (userId p) db = (Return (Some u), db) →
  t ∈ refreshTokens u →
  (now0 / 1000 ≠ now / 1000)%Z →
  AuthController.or_token cookie2 header2 = Some t →
  let db' := store (AuthController.rotated config now t u) db in
  (∃ res, AuthController.refreshToken config now cookie' header db
          = (Return res, db'))
  ∧ ∃ e,
      AuthController.refreshToken config now2 cookie2 header2 db'
      = (Throw e, db')
      ∧ (is_Return (JWTService.verifyRefreshToken config now2 t) = true →
         e = Api UnauthorizedError "Invalid refresh token").
Proof.
  intros t Hor Hv Hfind Hin Hsec Hor2 db'. split.
  - destruct (rotation_first_use now cookie' header db t p u Hor Hv Hfind Hin)
      as (res & Hres & _). eauto.
  - eapply rotation_second_use; eauto.
    intros Heq. apply generateRefreshToken_inj in Heq.
    destruct Heq as [Heq _]. apply Hsec. symmetry. exact Heq.
Qed.

(** Same-second rotation.  The token minted by a rotation in the clock
    second in which [t] was issued is [t] again: [t] is still in the set
    and a later call presenting it is served, for every implementation of
    the token library. *)
Lemma rotation_same_second now0 now now2 db u :
  let t := JWTService.generateRefreshToken config now0 u in
  findById (_id u) db = (Return (Some u), db) →
  t ∈ refreshTokens u →
  (now / 1000 = now0 / 1000)%Z →
  (now2 / 1000 < now0 / 1000 + refreshExpiresIn (jwt config))%Z →
  let db' := store (AuthController.rotated config now t u) db in
  t ∈ refreshTokens (AuthController.rotated config now t u)
  ∧ ∃ res,
      AuthController.refreshToken config now2 (Some t) None db'
      = (Return res,
         store (AuthController.rotated config now2 t
                  (AuthController.rotated config now t u)) db').
Proof.
  intros t Hfind Hin Hsec Hexp db'.
  assert (Hsame : JWTService.generateRefreshToken config now u = t).
  { subst t. unfold JWTService.generateRefreshToken, jsonwebtoken.sign.
    rewrite Hsec. reflexivity. }
  assert (Hkeep : t ∈ refreshTokens (AuthController.rotated config now t u))
    by (apply rotated_member; exact Hsame).
  split; [exact Hkeep|].
  assert (Hf : falsy t = false).
  { subst t. unfold JWTService.generateRefreshToken, jsonwebtoken.sign.
    eapply jws_decode_truthy, jws_decode_sign. }
  eexists.
  eapply (refreshToken_member config now2 (Some t) None db' t _
            (AuthController.rotated config now t u)); auto.
  - simpl. rewrite Hf. reflexivity.
  - subst t. apply verifyRefreshToken_generated. exact Hexp.
  - simpl. subst db'.
    change (_id u) with (_id (AuthController.rotated config now t u)).
    eapply findById_store. exact Hfind.
Qed.

(** C10. Frame of a rotation.  A refresh that succeeds presenting [t]
    rewrites one user document [u], the one [t] names: its set becomes the
    old set without the entries equal to [t], followed by the one newly
    minted refresh token, so every other member stays; every other field of
    [u] (email, password hash, names, role, verified flag, pending one-time
    tokens, OAuth link, avatar) is unchanged; and the documents of the
    other users are what they were. *)
Theorem rotation_frame now cookie' header db res db' :
  AuthController.refreshToken config now cookie' header db = (Return res, db') →
  ∃ t u,
    AuthController.or_token cookie' header = Some t ∧
    u ∈ db ∧ t ∈ refreshTokens u ∧
    let u' := AuthController.rotated config now t u in
    db' = store u' db ∧
    refreshTokens u'
    = (filter (λ token, token ≠ t) (refreshTokens u)
         ++ [JWTService.generateRefreshToken config now u])%list ∧
    (∀ x, x ≠ t → x ∈ refreshTokens u → x ∈ refreshTokens u') ∧
    u' = mkUser (_id u) (email u) (password u) (firstName u) (lastName u)
           (role u) (isEmailVerified u) (emailVerificationToken u)
           (emailVerificationExpires u) (passwordResetToken u)
           (passwordResetExpires u) (refreshTokens u') (oauthProvider u)
           (oauthId u) (avatar u) ∧
    (∀ v, v ∈ db → _id v ≠ _id u → v ∈ db') ∧
    (∀ v, v ∈ db' → v = u' ∨ v ∈ db).
Proof.
  intros Hrun. apply refreshToken_cases in Hrun.
  destruct Hrun as [[? _]|[[? _]|[[? _]|[[? _]|Hok]]]]; try discriminate.
  destruct Hok as (t & p & u & Hor & Hf & Hv & Hfind & Hin & _ & ->).
  destruct (findById_found _ _ _ Hfind) as [Hu Hid].
  exists t, u. split; [exact Hor|]. split; [exact Hu|]. split; [exact Hin|].
  simpl. split; [reflexivity|]. split; [reflexivity|]. split.
  { intros x Hne Hx. apply elem_of_app. left.
    apply list_elem_of_filter. auto. }
  split; [reflexivity|]. split.
  - intros v Hv' Hne. apply store_other; auto.
  - intros v Hv'. apply elem_of_store in Hv'. tauto.
Qed.
End RotationFacts.

(* ===================================================================== *)
(** ** One-time tokens: lookup, consumption, expiry *)
(* ===================================================================== *)

Section OneTimeTokenFacts.
Context `{Jsonwebtoken} `{Crypto}.
Implicit Types (db : Db) (u v : User) (now : Z) (tok : string).

Lemma gt_now_true expires now :
  UserModel.gt_now expires now = true ↔ ∃ e, expires = Some e ∧ (now < e)%Z.
Proof.
  unfold UserModel.gt_now. destruct expires as [e|]; split.
  - intros Hlt. apply Z.ltb_lt in Hlt. eauto.
  - intros (e' & [= <-] & Hlt). apply Z.ltb_lt. exact Hlt.
  - discriminate.
  - intros (e' & Hn & _). discriminate.
Qed.

(** The lookups match a document only on its stored hash and a future
    expiry. *)
Lemma findByVerificationToken_found tok now db u :
  UserModel.findByVerificationToken tok now db = (Return (Some u), db) →
  u ∈ db ∧ emailVerificationToken u = Some (sha256 tok)
  ∧ ∃ e, emailVerificationExpires u = Some e ∧ (now < e)%Z.
Proof.
  unfold UserModel.findByVerificationToken, findOne. intros [= Hf].
  apply find_elem_of in Hf. destruct Hf as [Hu Hb].
  apply andb_true_iff in Hb. destruct Hb as [Hh He].
  apply bool_decide_eq_true_1 in Hh. apply gt_now_true in He. auto.
Qed.

Lemma findByPasswordResetToken_found tok now db u :
  UserModel.findByPasswordResetToken tok now db = (Return (Some u), db) →
  u ∈ db ∧ passwordResetToken u = Some (sha256 tok)
  ∧ ∃ e, passwordResetExpires u = Some e ∧ (now < e)%Z.
Proof.
  unfold UserModel.findByPasswordResetToken, findOne. intros [= Hf].
  apply find_elem_of in Hf. destruct Hf as [Hu Hb].
  apply andb_true_iff in Hb. destruct Hb as [Hh He].
  apply bool_decide_eq_true_1 in Hh. apply gt_now_true in He. auto.
Qed.

Lemma findByVerificationToken_none tok now db :
  (∀ u, u ∈ db → emailVerificationToken u = Some (sha256 tok) →
        UserModel.gt_now (emailVerificationExpires u) now = false) →
  UserModel.findByVerificationToken tok now db = (Return None, db).
Proof.
  intros Hall. unfold UserModel.findByVerificationToken, findOne.
  rewrite find_none_elem_of; [reflexivity|].
  intros u Hu. case_bool_decide as Hh; [|reflexivity].
  simpl. apply Hall; auto.
Qed.

Lemma findByPasswordResetToken_none tok now db :
  (∀ u, u ∈ db → passwordResetToken u = Some (sha256 tok) →
        UserModel.gt_now (passwordResetExpires u) now = false) →
  UserModel.findByPasswordResetToken tok now db = (Return None, db).
Proof.
  intros Hall. unfold UserModel.findByPasswordResetToken, findOne.
  rewrite find_none_elem_of; [reflexivity|].
  intros u Hu. case_bool_decide as Hh; [|reflexivity].
  simpl. apply Hall; auto.
Qed.

(** Every way [verifyEmail] can end on a token that is present. *)
Lemma verifyEmail_cases now delivered tok db :
  tok ≠ "" →
  (UserModel.findByVerificationToken tok now db = (Return None, db)
   ∧ AuthController.verifyEmail now delivered (Some tok) db
     = (Throw (Api BadRequestError "Invalid or expired verification token"),
        db))
  ∨ (∃ u,
       UserModel.findByVerificationToken tok now db = (Return (Some u), db)
       ∧ AuthController.verifyEmail now delivered (Some tok) db
         = (Return {| status := 200; success := true;
                      message := "Email verified successfully";
                      data := None; error := None; cookie := None |},
            store (UserModel.set_emailVerificationExpires None
                     (UserModel.set_emailVerificationToken None
                        (UserModel.set_isEmailVerified true u))) db)).
Proof.
  intros Hne. destruct tok as [|a tok']; [contradiction|].
  unfold AuthController.verifyEmail, bind.
  destruct (UserModel.findByVerificationToken (String a tok') now db)
    as [r db1] eqn:Hfind.
  assert (db1 = db ∧ ∃ o, r = Return o) as [-> [o ->]].
  { unfold UserModel.findByVerificationToken, findOne in Hfind.
    injection Hfind as <- <-. eauto. }
  destruct o as [u|]; [right | left; auto].
  exists u. split; [reflexivity|].
  unfold save, lift, ret. destruct delivered; reflexivity.
Qed.

(** Every way [resetPassword] can end when token and password are
    present. *)
Lemma resetPassword_cases now salt tok pw db :
  tok ≠ "" → pw ≠ "" →
  (UserModel.findByPasswordResetToken tok now db = (Return None, db)
   ∧ AuthController.resetPassword now salt (Some tok) (Some pw) db
     = (Throw (Api BadRequestError "Invalid or expired reset token"), db))
  ∨ (∃ u,
       UserModel.findByPasswordResetToken tok now db = (Return (Some u), db)
       ∧ (js_length pw < 8)%nat
       ∧ ∃ e, AuthController.resetPassword now salt (Some tok) (Some pw) db
              = (Throw e, db))
  ∨ (∃ u,
       UserModel.findByPasswordResetToken tok now db = (Return (Some u), db)
       ∧ (8 ≤ js_length pw)%nat
       ∧ AuthController.resetPassword now salt (Some tok) (Some pw) db
         = (Return {| status := 200; success := true;
                      message := "Password reset successfully. Please log in with your new password.";
                      data := None; error := None; cookie := None |},
            store (UserModel.set_refreshTokens []
                     (UserModel.set_password (bcrypt_hash pw salt)
                        (UserModel.set_passwordResetExpires None
                           (UserModel.set_passwordResetToken None u)))) db)).
Proof.
  intros Hne Hpw. destruct tok as [|a tok']; [contradiction|].
  destruct pw as [|b pw']; [contradiction|].
  unfold AuthController.resetPassword, bind.
  destruct (UserModel.findByPasswordResetToken (String a tok') now db)
    as [r db1] eqn:Hfind.
  assert (db1 = db ∧ ∃ o, r = Return o) as [-> [o ->]].
  { unfold UserModel.findByPasswordResetToken, findOne in Hfind.
    injection Hfind as <- <-. eauto. }
  destruct o as [u|]; [right | left; auto].
  unfold UserModel.saveModifiedPassword.
  cbn [password UserModel.set_password UserModel.set_passwordResetToken
       UserModel.set_passwordResetExpires].
  destruct (js_length (String b pw') <? 8)%nat eqn:Hlen.
  - left. exists u. split; [reflexivity|]. split.
    + apply Nat.ltb_lt in Hlen. exact Hlen.
    + eexists. reflexivity.
  - right. exists u. split; [reflexivity|]. split.
    + apply Nat.ltb_ge in Hlen. exact Hlen.
    + unfold bind, save, ret. f_equal.
      rewrite store_store by reflexivity. reflexivity.
Qed.
End OneTimeTokenFacts.

Section ConsumptionFacts.
Context `{Jsonwebtoken} `{Crypto}.
Variable config : Config.
Implicit Types (db : Db) (u v : User) (now : Z) (tok : string).

Lemma verifyEmail_return_inv now delivered token db res db' :
  AuthController.verifyEmail now delivered token db = (Return res, db') →
  ∃ tok u,
    token = Some tok ∧ tok ≠ "" ∧
    UserModel.findByVerificationToken tok now db = (Return (Some u), db) ∧
    db' = store (UserModel.set_emailVerificationExpires None
                   (UserModel.set_emailVerificationToken None
                      (UserModel.set_isEmailVerified true u))) db.
Proof.
  destruct token as [[|a tok']|]; try discriminate.
  intros Hrun.
  assert (Hne : String a tok' ≠ "") by discriminate.
  destruct (verifyEmail_cases now delivered (String a tok') db Hne)
    as [[_ Hthrow]|(u & Hfind & Hok)].
  - rewrite Hthrow in Hrun. discriminate.
  - rewrite Hok in Hrun. injection Hrun as _ <-.
    exists (String a tok'), u. repeat split; auto; discriminate.
Qed.

Lemma resetPassword_return_inv now salt token pw db res db' :
  AuthController.resetPassword now salt token pw db = (Return res, db') →
  ∃ tok p u,
    token = Some tok ∧ pw = Some p ∧ tok ≠ "" ∧ p ≠ "" ∧
    UserModel.findByPasswordResetToken tok now db = (Return (Some u), db) ∧
    db' = store (UserModel.set_refreshTokens []
                   (UserModel.set_password (bcrypt_hash p salt)
                      (UserModel.set_passwordResetExpires None
                         (UserModel.set_passwordResetToken None u)))) db.
Proof.
  destruct token as [[|a tok']|]; try discriminate.
  destruct pw as [[|b p']|]; try discriminate.
  intros Hrun.
  assert (Hne : String a tok' ≠ "") by discriminate.
  assert (Hp : String b p' ≠ "") by discriminate.
  destruct (resetPassword_cases now salt (String a tok') (String b p') db
              Hne Hp)
    as [[_ Hthrow]|[(u & _ & _ & e & Hthrow)|(u & Hfind & _ & Hok)]].
  - rewrite Hthrow in Hrun. discriminate.
  - rewrite Hthrow in Hrun. discriminate.
  - rewrite Hok in Hrun. injection Hrun as _ <-.
    exists (String a tok'), (String b p'), u. repeat split; auto; discriminate.
Qed.

(** Once the matched document is saved without the hash, no document
    of the store carries it. *)
Lemma consumed_nowhere (field : User → option string) h db u u' :
  pending_once field h db →
  u ∈ db → field u = Some h → _id u' = _id u → field u' = None →
  ∀ v, v ∈ store u' db → field v ≠ Some h.
Proof.
  intros Honce Hu Hfu Hid Hnone v Hv Hfv.
  apply elem_of_store in Hv. destruct Hv as [->|[Hv Hne]].
  - congruence.
  - apply Hne. rewrite Hid. apply Honce; auto.
Qed.

Lemma verifyEmail_repeat now delivered tok db res db' :
  AuthController.verifyEmail now delivered (Some tok) db = (Return res, db') →
  pending_once emailVerificationToken (sha256 tok) db →
  (∃ u u',
     UserModel.findByVerificationToken tok now db = (Return (Some u), db) ∧
     findById (_id u) db' = (Return (Some u'), db') ∧
     isEmailVerified u' = true ∧
     emailVerificationToken u' = None ∧ emailVerificationExpires u' = None)
  ∧ ∀ now2 delivered2,
      AuthController.verifyEmail now2 delivered2 (Some tok) db'
      = (Throw (Api BadRequestError "Invalid or expired verification token"),
         db').
Proof.
  intros Hrun Honce. apply verifyEmail_return_inv in Hrun.
  destruct Hrun as (tok0 & u & [= <-] & Hne & Hfind & ->).
  destruct (findByVerificationToken_found _ _ _ _ Hfind) as (Hu & Hh & _).
  set (u' := UserModel.set_emailVerificationExpires None _).
  split.
  - exists u, u'. split; [exact Hfind|]. split; [|auto].
    destruct (findById_elem_of u db Hu) as [u0 Hu0].
    change (_id u) with (_id u'). eapply findById_store. exact Hu0.
  - intros now2 delivered2.
    destruct (verifyEmail_cases now2 delivered2 tok (store u' db) Hne)
      as [[_ Hthrow]|(w & Hfind2 & _)]; [exact Hthrow|].
    exfalso.
    destruct (findByVerificationToken_found _ _ _ _ Hfind2) as (Hw & Hhw & _).
    exact (consumed_nowhere emailVerificationToken (sha256 tok) db u u'
             Honce Hu Hh eq_refl eq_refl w Hw Hhw).
Qed.

Lemma resetPassword_repeat now salt tok pw db res db' :
  AuthController.resetPassword now salt (Some tok) pw db = (Return res, db') →
  pending_once passwordResetToken (sha256 tok) db →
  (∃ u u',
     UserModel.findByPasswordResetToken tok now db = (Return (Some u), db) ∧
     findById (_id u) db' = (Return (Some u'), db') ∧
     passwordResetToken u' = None ∧ passwordResetExpires u' = None)
  ∧ ∀ now2 salt2 pw2,
      AuthController.resetPassword now2 salt2 (Some tok) pw2 db'
      = (Throw (Api BadRequestError
                  match pw2 with
                  | Some (String _ _) => "Invalid or expired reset token"
                  | _ => "Token and new password are required"
                  end), db').
Proof.
  intros Hrun Honce. apply resetPassword_return_inv in Hrun.
  destruct Hrun as (tok0 & p & u & [= <-] & -> & Hne & Hp & Hfind & ->).
  destruct (findByPasswordResetToken_found _ _ _ _ Hfind) as (Hu & Hh & _).
  set (u' := UserModel.set_refreshTokens [] _).
  split.
  - exists u, u'. split; [exact Hfind|]. split; [|auto].
    destruct (findById_elem_of u db Hu) as [u0 Hu0].
    change (_id u) with (_id u'). eapply findById_store. exact Hu0.
  - intros now2 salt2 pw2.
    destruct tok as [|a tok']; [contradiction|].
    destruct pw2 as [[|b p2]|]; try reflexivity.
    assert (Hp2 : String b p2 ≠ "") by discriminate.
    destruct (resetPassword_cases now2 salt2 (String a tok') (String b p2)
                (store u' db) Hne Hp2)
      as [[_ Hthrow]|[(w & Hfind2 & _)|(w & Hfind2 & _)]];
      [exact Hthrow | exfalso | exfalso].
    all: destruct (findByPasswordResetToken_found _ _ _ _ Hfind2)
           as (Hw & Hhw & _).
    all: exact (consumed_nowhere passwordResetToken _ db u u'
                  Honce Hu Hh eq_refl eq_refl w Hw Hhw).
Qed.

(** C7. One-time tokens are single use.  A successful consume of the
    plaintext [tok], for email verification or for password reset, saves
    the matched document without the stored hash and expiry; when the hash
    was pending on that account only, no document carries it afterwards and
    every later consume presenting [tok] fails with BadRequest:
    "Invalid or expired verification token", and "Invalid or expired reset
    token" for a reset that comes with a password. *)
Theorem one_time_token_single_use now delivered salt tok pw db res db' :
  (AuthController.verifyEmail now delivered (Some tok) db = (Return res, db') →
   pending_once emailVerificationToken (sha256 tok) db →
   (∃ u u',
      UserModel.findByVerificationToken tok now db = (Return (Some u), db) ∧
      findById (_id u) db' = (Return (Some u'), db') ∧
      isEmailVerified u' = true ∧
      emailVerificationToken u' = None ∧ emailVerificationExpires u' = None)
   ∧ ∀ now2 delivered2,
       AuthController.verifyEmail now2 delivered2 (Some tok) db'
       = (Throw (Api BadRequestError "Invalid or expired verification token"),
          db'))
  ∧
  (AuthController.resetPassword now salt (Some tok) pw db = (Return res, db') →
   pending_once passwordResetToken (sha256 tok) db →
   (∃ u u',
      UserModel.findByPasswordResetToken tok now db = (Return (Some u), db) ∧
      findById (_id u) db' = (Return (Some u'), db') ∧
      passwordResetToken u' = None ∧ passwordResetExpires u' = None)
   ∧ ∀ now2 salt2 pw2,
       AuthController.resetPassword now2 salt2 (Some tok) pw2 db'
       = (Throw (Api BadRequestError
                   match pw2 with
                   | Some (String _ _) => "Invalid or expired reset token"
                   | _ => "Token and new password are required"
                   end), db')).
Proof.
  split.
  - apply verifyEmail_repeat.
  - apply resetPassword_repeat.
Qed.
End ConsumptionFacts.

Section ExpiryAndRevocation.
Context `{Jsonwebtoken} `{Crypto}.
Implicit Types (db : Db) (u v : User) (now : Z) (tok : string).

(** C8. Expiry of one-time tokens.  The lookup behind each consume
    returns a document only if its stored hash is the hash of the presented
    plaintext and its expiry is strictly in the future.  So when the clock
    has reached the expiry stored with that hash, on every document that
    carries it, the consume fails with BadRequest and writes nothing,
    whether or not the token was consumed before. *)
Theorem expired_one_time_token_fails now delivered salt tok pw db :
  ((∀ u, UserModel.findByVerificationToken tok now db
         = (Return (Some u), db) →
         u ∈ db ∧ emailVerificationToken u = Some (sha256 tok)
         ∧ ∃ e, emailVerificationExpires u = Some e ∧ (now < e)%Z)
   ∧ ((∀ u e, u ∈ db → emailVerificationToken u = Some (sha256 tok) →
              emailVerificationExpires u = Some e → (e ≤ now)%Z) →
      ∃ m, AuthController.verifyEmail now delivered (Some tok) db
           = (Throw (Api BadRequestError m), db)))
  ∧
  ((∀ u, UserModel.findByPasswordResetToken tok now db
         = (Return (Some u), db) →
         u ∈ db ∧ passwordResetToken u = Some (sha256 tok)
         ∧ ∃ e, passwordResetExpires u = Some e ∧ (now < e)%Z)
   ∧ ((∀ u e, u ∈ db → passwordResetToken u = Some (sha256 tok) →
              passwordResetExpires u = Some e → (e ≤ now)%Z) →
      ∃ m, AuthController.resetPassword now salt (Some tok) pw db
           = (Throw (Api BadRequestError m), db))).
Proof.
  split; split.
  - apply findByVerificationToken_found.
  - intros Hexp. destruct tok as [|a tok'].
    { eexists. reflexivity. }
    assert (Hne : String a tok' ≠ "") by discriminate.
    destruct (verifyEmail_cases now delivered (String a tok') db Hne)
      as [[_ Hthrow]|(u & Hfind & _)]; [eauto|].
    exfalso.
    destruct (findByVerificationToken_found _ _ _ _ Hfind)
      as (Hu & Hh & e & He & Hlt).
    specialize (Hexp u e Hu Hh He). lia.
  - apply findByPasswordResetToken_found.
  - intros Hexp. destruct tok as [|a tok'].
    { eexists. reflexivity. }
    destruct pw as [[|b p]|]; try (eexists; reflexivity).
    assert (Hne : String a tok' ≠ "") by discriminate.
    assert (Hp : String b p ≠ "") by discriminate.
    destruct (resetPassword_cases now salt (String a tok') (String b p) db
                Hne Hp)
      as [[_ Hthrow]|[(u & Hfind & _)|(u & Hfind & _)]]; [eauto|exfalso..].
    all: destruct (findByPasswordResetToken_found _ _ _ _ Hfind)
           as (Hu & Hh & e & He & Hlt).
    all: specialize (Hexp u e Hu Hh He); lia.
Qed.

(** C9. Logout clears every token of the user.  [logout] saves the
    document after [clearTokens]: an empty refresh-token set and no pending
    email-verification or password-reset hash or expiry.  Every document
    stored under the user's id afterwards is that one, so no lookup by a
    one-time token, whatever the plaintext and the time, returns this user
    again. *)
Theorem logout_clears_one_time_tokens (u : User) db :
  let u' := UserModel.clearTokens u in
  AuthController.logout (Some u) db
  = (Return {| status := 200; success := true;
               message := "Logout successful";
               data := None; error := None;
               cookie := Some ClearRefreshCookie |},
     store u' db)
  ∧ refreshTokens u' = []
  ∧ emailVerificationToken u' = None ∧ emailVerificationExpires u' = None
  ∧ passwordResetToken u' = None ∧ passwordResetExpires u' = None
  ∧ (∀ v, v ∈ store u' db → _id v = _id u → v = u')
  ∧ (∀ tok now v,
       UserModel.findByVerificationToken tok now (store u' db)
       = (Return (Some v), store u' db) → _id v ≠ _id u)
  ∧ (∀ tok now v,
       UserModel.findByPasswordResetToken tok now (store u' db)
       = (Return (Some v), store u' db) → _id v ≠ _id u).
Proof.
  intros u'.
  assert (Hsame : ∀ v, v ∈ store u' db → _id v = _id u → v = u').
  { intros v Hv Hid. apply elem_of_store in Hv.
    destruct Hv as [->|[_ Hne]]; [reflexivity|].
    exfalso. apply Hne. exact Hid. }
  repeat split; auto.
  - intros tok now v Hfind Hid.
    destruct (findByVerificationToken_found _ _ _ _ Hfind) as (Hv & Hh & _).
    rewrite (Hsame v Hv Hid) in Hh. discriminate.
  - intros tok now v Hfind Hid.
    destruct (findByPasswordResetToken_found _ _ _ _ Hfind) as (Hv & Hh & _).
    rewrite (Hsame v Hv Hid) in Hh. discriminate.
Qed.

(** C4. Password reset revokes all sessions.  After a reset that
    succeeded, the document of the user [u] matched by the reset token is
    stored with an empty refresh-token set.  So the rotation of any token
    for that user fails with Unauthorized "Invalid refresh token", and no
    refresh presenting a token that names [u] is served, at any time and
    under any configuration: the call throws and writes nothing, with that
    Unauthorized error whenever the token passes verification and so
    reaches the rotation. *)
Theorem reset_revokes_sessions now salt token pw db res db' :
  AuthController.resetPassword now salt token pw db = (Return res, db') →
  ∃ u u',
    (∃ tok, token = Some tok ∧
       UserModel.findByPasswordResetToken tok now db = (Return (Some u), db))
    ∧ findById (_id u) db' = (Return (Some u'), db')
    ∧ refreshTokens u' = []
    ∧ (∀ v, v ∈ db' → _id v = _id u → refreshTokens v = [])
    ∧ (∀ config now' t,
         AuthController.rotate config now' t u' db'
         = (Throw (Api UnauthorizedError "Invalid refresh token"), db'))
    ∧ ∀ config now' cookie' header t c,
        AuthController.or_token cookie' header = Some t →
        jws_decode t = Some c → userId (body c) = _id u →
        ∃ e,
          AuthController.refreshToken config now' cookie' header db'
          = (Throw e, db')
          ∧ (is_Return (JWTService.verifyRefreshToken config now' t) = true →
             e = Api UnauthorizedError "Invalid refresh token").
Proof.
  intros Hrun. apply resetPassword_return_inv in Hrun.
  destruct Hrun as (tok & p & u & -> & -> & Hne & Hp & Hfind & ->).
  destruct (findByPasswordResetToken_found _ _ _ _ Hfind) as (Hu & _).
  set (u' := UserModel.set_refreshTokens [] _).
  assert (Hsame : ∀ v, v ∈ store u' db → _id v = _id u → v = u').
  { intros v Hv Hid. apply elem_of_store in Hv.
    destruct Hv as [->|[_ Hne']]; [reflexivity|].
    exfalso. apply Hne'. exact Hid. }
  assert (Hstored : findById (_id u) (store u' db)
                    = (Return (Some u'), store u' db)).
  { destruct (findById_elem_of u db Hu) as [u0 Hu0].
    change (_id u) with (_id u'). eapply findById_store. exact Hu0. }
  exists u, u'. split; [eauto|]. split; [exact Hstored|].
  split; [reflexivity|]. split.
  { intros v Hv Hid. rewrite (Hsame v Hv Hid). reflexivity. }
  split.
  { intros config now' t. apply rotate_not_member. simpl.
    apply not_elem_of_nil. }
  intros config now' cookie' header t c Hor Hdec Hname.
  assert (Hf : falsy t = false) by (eapply jws_decode_truthy, Hdec).
  destruct (JWTService.verifyRefreshToken config now' t) as [p'|e'] eqn:Hv.
  - exists (Api UnauthorizedError "Invalid refresh token"). split; [|auto].
    pose proof (verifyRefreshToken_return _ _ _ _ Hv) as (c' & Hdec' & Hb & _).
    assert (userId p' = _id u) as Hid by congruence.
    eapply (refreshToken_not_member config now' cookie' header _ t p' u');
      auto.
    + rewrite Hid. exact Hstored.
    + simpl. apply not_elem_of_nil.
  - exists (Error "Invalid refresh token"). split; [|discriminate].
    eapply refreshToken_unverified; eauto.
Qed.
End ExpiryAndRevocation.

(* ===================================================================== *)
(** ** Login and forgot-password responses *)
(* ===================================================================== *)

Section ResponseFacts.
Context `{Jsonwebtoken} `{Crypto}.
Variable config : Config.
Implicit Types (db : Db) (u v : User) (now : Z).

(** Every way a login can fail.  It writes nothing, and it throws
    Unauthorized, or, for an existing account and a password that is no
    string, the plain error of [comparePassword]. *)
Lemma login_throw_inv now email' password' db e db' :
  AuthController.login config now email' password' db = (Throw e, db') →
  db' = db
  ∧ (e = Api UnauthorizedError "Invalid email or password"
     ∨ (e = Error "Password comparison failed" ∧ password' = NotText
        ∧ ∃ u, UserModel.findByEmail email' db = (Return (Some u), db))).
Proof.
  unfold AuthController.login, bind.
  destruct (UserModel.findByEmail email' db) as [fr fd] eqn:Hfind.
  assert (fd = db ∧ ∃ o, fr = Return o) as [-> [o ->]].
  { unfold UserModel.findByEmail, findOne in Hfind.
    injection Hfind as <- <-. eauto. }
  destruct o as [u|]; [|intros [= <- <-]; auto].
  unfold lift. destruct password' as [s|]; simpl.
  - destruct (bcrypt_compare s (password u)); simpl.
    + discriminate.
    + intros [= <- <-]. auto.
  - intros [= <- <-]. split; [reflexivity|]. right. eauto.
Qed.

(** Login failures on a password that [bcrypt] compares are
    indistinguishable.  Whether no account has the given email or the
    account's stored hash does not match the password, [login] throws
    Unauthorized with the one message "Invalid email or password" and
    writes nothing. *)
Theorem login_failure_same_message now email' password' db :
  (UserModel.findByEmail email' db = (Return None, db)
   ∨ ∃ u, UserModel.findByEmail email' db = (Return (Some u), db)
          ∧ UserModel.comparePassword u password' = Return false) →
  AuthController.login config now email' password' db
  = (Throw (Api UnauthorizedError "Invalid email or password"), db).
Proof.
  unfold AuthController.login, bind.
  intros [Hnone|(u & Hsome & Hcmp)].
  - rewrite Hnone. reflexivity.
  - rewrite Hsome. unfold lift. rewrite Hcmp. reflexivity.
Qed.

(** For an existing account, a password that is no string ends the login
    in the plain error of [comparePassword]. *)
Lemma login_password_not_text now email' db u :
  UserModel.findByEmail email' db = (Return (Some u), db) →
  AuthController.login config now email' NotText db
  = (Throw (Error "Password comparison failed"), db).
Proof.
  intros Hsome. unfold AuthController.login, bind. rewrite Hsome.
  reflexivity.
Qed.

(** The response both branches of [forgotPassword] send. *)
Lemma forgotPassword_unknown now random delivered email' db :
  UserModel.findByEmail email' db = (Return None, db) →
  AuthController.forgotPassword now random delivered email' db
  = (Return {| status := 200; success := true;
               message := "If an account with that email exists, a password reset link has been sent";
               data := None; error := None; cookie := None |}, db).
Proof.
  intros Hnone. unfold AuthController.forgotPassword, bind.
  rewrite Hnone. reflexivity.
Qed.

Lemma forgotPassword_known now random delivered email' db u :
  UserModel.findByEmail email' db = (Return (Some u), db) →
  AuthController.forgotPassword now random delivered email' db
  = (if delivered
     then Return {| status := 200; success := true;
               message := "If an account with that email exists, a password reset link has been sent";
               data := None; error := None; cookie := None |}
     else Throw (Error "Failed to send password reset email"),
     store (snd (UserModel.generatePasswordResetToken random now u)) db).
Proof.
  intros Hsome. unfold AuthController.forgotPassword, bind.
  rewrite Hsome. destruct delivered; reflexivity.
Qed.

(** C5, as the code has it.  For an email with no account the handler
    sends the generic success response.  For an email with an account it
    sends the same response, with the same status, when the reset mail is
    delivered; when delivery fails it throws a plain error instead, which
    the application answers with status 500 and the error page of
    [finalhandler], not with an envelope. *)
Theorem forgot_password_responses now random delivered known unknown db u :
  UserModel.findByEmail known db = (Return (Some u), db) →
  UserModel.findByEmail unknown db = (Return None, db) →
  let generic :=
    {| status := 200; success := true;
       message := "If an account with that email exists, a password reset link has been sent";
       data := None; error := None; cookie := None |} in
  let absent_account :=
    respond config
      (outcome (AuthController.forgotPassword now random delivered unknown)
         db) in
  let existing_account :=
    respond config
      (outcome (AuthController.forgotPassword now random delivered known)
         db) in
  absent_account = Json generic
  ∧ (delivered = true → existing_account = absent_account)
  ∧ (delivered = false →
     outcome (AuthController.forgotPassword now random delivered known) db
     = Throw (Error "Failed to send password reset email")
     ∧ existing_account
       = finalhandler config (Error "Failed to send password reset email")
     ∧ reply_status existing_account = 500%Z
     ∧ ∀ res, existing_account ≠ Json res).
Proof.
  intros Hknown Hunknown. simpl. unfold outcome.
  rewrite (forgotPassword_unknown _ _ _ _ _ Hunknown).
  rewrite (forgotPassword_known _ _ _ _ _ _ Hknown).
  split; [reflexivity|]. split.
  - intros ->. reflexivity.
  - intros ->. simpl. repeat split; discriminate.
Qed.

(** A refresh whose token fails verification is answered with status
    500, in every environment: the verifier's error is a plain [Error],
    which has no status code. *)
Lemma refresh_unverified_status env now cookie' header db t e :
  AuthController.or_token cookie' header = Some t →
  falsy t = false →
  JWTService.verifyRefreshToken config now t = Throw e →
  outcome (AuthController.refreshToken config now cookie' header) db
  = Throw (Error "Invalid refresh token")
  ∧ reply_status
      (respond env
         (outcome (AuthController.refreshToken config now cookie' header)
            db)) = 500%Z.
Proof.
  intros Hor Hf Hv. unfold outcome.
  rewrite (refreshToken_unverified _ _ _ _ _ _ _ Hor Hf Hv). simpl.
  split; reflexivity.
Qed.

(** The other two failures of a refresh are answered with status 401. *)
Lemma refresh_unauthorized_status env now cookie' header db m :
  outcome (AuthController.refreshToken config now cookie' header) db
  = Throw (Api UnauthorizedError m) →
  reply_status
    (respond env
       (outcome (AuthController.refreshToken config now cookie' header)
          db)) = 401%Z.
Proof. intros ->. reflexivity. Qed.
End ResponseFacts.

(* ===================================================================== *)
(** ** The bearer header and the expiry helpers *)
(* ===================================================================== *)

Section InspectFacts.
Context `{Jsonwebtoken}.
Implicit Types (s pre rest : string) (t : Token) (now : Z).

Lemma prefix_app pre rest : String.prefix pre (pre ++ rest) = true.
Proof.
  induction pre as [|a pre IH]; simpl.
  - destruct rest; reflexivity.
  - destruct (ascii_dec a a); [exact IH | contradiction].
Qed.

Lemma substring_from_app pre rest :
  substring_from (String.length pre) (pre ++ rest) = rest.
Proof. induction pre as [|a pre IH]; simpl; [reflexivity | exact IH]. Qed.

Lemma prefix_split pre s :
  String.prefix pre s = true →
  s = pre ++ substring_from (String.length pre) s.
Proof.
  revert s. induction pre as [|a pre IH]; intros s; simpl.
  - reflexivity.
  - destruct s as [|b s]; [discriminate|]. simpl.
    destruct (ascii_dec a b) as [<-|]; intros Hp; [|discriminate].
    change (String a s
            = String a (pre ++ substring_from (String.length pre) s)).
    f_equal. apply IH, Hp.
Qed.

(** The headers that carry a token. *)
Lemma extract_bearer (authHeader token : string) :
  JWTInspect.extractTokenFromHeader authHeader = Some token
  ↔ authHeader = "Bearer " ++ token.
Proof.
  unfold JWTInspect.extractTokenFromHeader. split.
  - destruct (bool_decide (authHeader = "")); [discriminate|].
    destruct (String.prefix "Bearer " authHeader) eqn:Hp; [|discriminate].
    simpl. intros [= <-]. apply (prefix_split "Bearer " authHeader Hp).
  - intros ->.
    rewrite bool_decide_eq_false_2 by discriminate.
    rewrite (prefix_app "Bearer " token). reflexivity.
Qed.

(** X1. [extractTokenFromHeader] returns a token exactly for the headers
    made of "Bearer " followed by that token: nothing is returned for any
    other header (another scheme, another case, no space), and what is
    returned is the whole rest of the header, the empty string for the
    header "Bearer " alone. *)
Theorem extractTokenFromHeader_bearer (authHeader token : string) :
  JWTInspect.extractTokenFromHeader authHeader = Some token
  ↔ authHeader = "Bearer " ++ token.
Proof. apply extract_bearer. Qed.

Lemma verify_return t secret now c :
  jsonwebtoken.verify t secret now = Return c →
  jws_decode t = Some c ∧ jws_verify t secret = true ∧ (now / 1000 < exp c)%Z.
Proof.
  unfold jsonwebtoken.verify.
  destruct (jws_decode t) as [c'|]; [|discriminate].
  destruct (jws_verify t secret); simpl; [|discriminate].
  destruct (exp c' <=? now / 1000)%Z eqn:Hexp; [discriminate|].
  intros [= <-]. apply Z.leb_gt in Hexp. auto.
Qed.

(** X2. The expiry helper agrees with the verifier on the tokens of the
    service.  A token that [jwt.sign] stamps with an [expiresIn], as every
    token the service mints is, carries
    [exp = floor(now0 / 1000) + expiresIn].  At a clock that is not before
    the epoch, when [jwt.verify] accepts such a token under a secret,
    [isTokenExpired] does not report it expired, and [getTokenExpiration]
    gives its [exp] in milliseconds (or the invalid date).  The helper is
    the more lenient of the two: it reports the token as unexpired up to
    and including the millisecond [exp * 1000], at which the verifier
    already rejects it. *)
Theorem accepted_token_not_expired
    (payload : JWTPayload) (key : string) (expiresIn now0 : Z) secret now c :
  (0 ≤ now)%Z →
  let t := jsonwebtoken.sign payload key expiresIn now0 in
  jsonwebtoken.verify t secret now = Return c →
  exp c = (now0 / 1000 + expiresIn)%Z
  ∧ JWTInspect.getTokenExpiration t = Some (JWTInspect.new_Date (exp c * 1000))
  ∧ JWTInspect.isTokenExpired now t = false
  ∧ JWTInspect.isTokenExpired (exp c * 1000) t = false
  ∧ is_Return (jsonwebtoken.verify t secret (exp c * 1000)) = false.
Proof.
  intros Hnow t Hv. apply verify_return in Hv.
  destruct Hv as (Hdec & Hsig & Hexp).
  assert (Hc : c = {| body := payload; iat := now0 / 1000;
                      exp := now0 / 1000 + expiresIn |}).
  { subst t. unfold jsonwebtoken.sign in Hdec.
    rewrite jws_decode_sign in Hdec. congruence. }
  split; [rewrite Hc; reflexivity|].
  assert (Hpos : (0 < exp c)%Z).
  { assert (0 ≤ now / 1000)%Z by (apply Z.div_pos; lia). lia. }
  assert (Hlt : (now < exp c * 1000)%Z).
  { pose proof (Z.mul_succ_div_gt now 1000 ltac:(lia)). lia. }
  assert (Hget : JWTInspect.getTokenExpiration t
                 = Some (JWTInspect.new_Date (exp c * 1000))).
  { unfold JWTInspect.getTokenExpiration. rewrite Hdec.
    rewrite bool_decide_eq_true_2 by lia. reflexivity. }
  split; [exact Hget|].
  unfold JWTInspect.isTokenExpired. rewrite Hget.
  unfold JWTInspect.new_Date, jsonwebtoken.verify. rewrite Hdec, Hsig. simpl.
  rewrite Z.div_mul by lia. rewrite Z.leb_refl.
  destruct (Z.abs (exp c * 1000) <=? 8640000000000000)%Z.
  - repeat split; try reflexivity; apply Z.ltb_ge; lia.
  - repeat split; reflexivity.
Qed.

Lemma findById_cases id (db : Db) :
  findById id db = (Return None, db)
  ∨ ∃ u, findById id db = (Return (Some u), db) ∧ u ∈ db ∧ _id u = id.
Proof.
  unfold findById, findOne.
  destruct (find _ db) as [u|] eqn:Hf; [right | left; reflexivity].
  exists u. split; [reflexivity|]. split.
  - apply find_elem_of in Hf. tauto.
  - eapply find_by_id_id, Hf.
Qed.

Lemma verifyAccessToken_functional config now now' t p p' :
  JWTService.verifyAccessToken config now t = Return p →
  JWTService.verifyAccessToken config now' t = Return p' →
  p' = p.
Proof.
  intros Hv Hv'.
  apply verifyAccessToken_return in Hv. destruct Hv as (c & Hdec & <- & _).
  apply verifyAccessToken_return in Hv'.
  destruct Hv' as (c' & Hdec' & <- & _). congruence.
Qed.

End InspectFacts.

(* ===================================================================== *)
(** ** The middlewares *)
(* ===================================================================== *)

Section MiddlewareFacts.
Context `{Jsonwebtoken}.
Variable config : Config.
Variable read_token : string → Token.
Implicit Types (db : Db) (u v : User) (now : Z) (rest : string).

(** Closes a case in which the middleware answered. *)
Ltac answered := solve [eexists; split; [reflexivity | simpl; auto]].

(** A bearer token that verifies and names a stored account passes. *)
Lemma authenticate_pass now rest p u db :
  rest ≠ "" →
  JWTService.verifyAccessToken config now (read_token rest) = Return p →
  findById (userId p) db = (Return (Some u), db) →
  _id u ≠ "" →
  AuthMiddleware.authenticate config read_token now
    (Some ("Bearer " ++ rest)) db
  = (Return (AuthMiddleware.Next (Some u)), db).
Proof.
  intros Hrest Hv Hfind Hid.
  unfold AuthMiddleware.authenticate, try_catchM. simpl.
  rewrite (proj2 (extract_bearer ("Bearer " ++ rest) rest))
    by reflexivity.
  destruct rest as [|a rest']; [contradiction|].
  unfold bind at 1. unfold lift. rewrite Hv.
  unfold bind at 1. rewrite Hfind.
  rewrite bool_decide_eq_false_2 by exact Hid. reflexivity.
Qed.

(** Every way [authenticate] can end. *)
Lemma authenticate_cases now authorization db :
  ∃ handled,
    AuthMiddleware.authenticate config read_token now authorization db
    = (Return handled, db)
    ∧ match handled with
      | AuthMiddleware.Responded res =>
          status res = 401%Z ∧ success res = false
          ∧ data res = None ∧ cookie res = None
      | AuthMiddleware.Next req_user =>
          ∃ u rest p,
            req_user = Some u
            ∧ authorization = Some ("Bearer " ++ rest) ∧ rest ≠ ""
            ∧ JWTService.verifyAccessToken config now (read_token rest)
              = Return p
            ∧ u ∈ db ∧ _id u = userId p
      end.
Proof.
  unfold AuthMiddleware.authenticate, try_catchM.
  destruct authorization as [[|a hdr]|]; try answered.
  destruct (JWTInspect.extractTokenFromHeader (String a hdr))
    as [[|b rest']|] eqn:Hx; try answered.
  apply extract_bearer in Hx.
  unfold bind at 1. unfold lift.
  destruct (JWTService.verifyAccessToken config now
              (read_token (String b rest'))) as [p|e] eqn:Hv;
    [|answered].
  unfold bind at 1.
  destruct (findById_cases (userId p) db) as [Hnone|(u & Hsome & Hu & Hid)].
  - rewrite Hnone. answered.
  - rewrite Hsome. destruct (bool_decide (_id u = "")); [answered|].
    eexists; split; [reflexivity|]. simpl.
    exists u, (String b rest'), p. rewrite Hx. repeat split; auto.
Qed.

(** X3. [authenticate] never throws and never writes.  It either
    answers with status 401 and [success: false], or calls [next] with a
    user: then the header is "Bearer " followed by a non-empty token that
    the access-token verifier accepts at that time, and the user is the
    stored document whose id the token carries. *)
Theorem authenticate_outcomes now authorization db :
  ∃ handled,
    AuthMiddleware.authenticate config read_token now authorization db
    = (Return handled, db)
    ∧ match handled with
      | AuthMiddleware.Responded res =>
          status res = 401%Z ∧ success res = false
          ∧ data res = None ∧ cookie res = None
      | AuthMiddleware.Next req_user =>
          ∃ u rest p,
            req_user = Some u
            ∧ authorization = Some ("Bearer " ++ rest) ∧ rest ≠ ""
            ∧ JWTService.verifyAccessToken config now (read_token rest)
              = Return p
            ∧ u ∈ db ∧ _id u = userId p
      end.
Proof. apply authenticate_cases. Qed.

(** X4. A refresh token is no bearer credential: whatever the clock and
    the store, [authenticate] answers 401 "Authentication failed" to a
    header that carries a refresh token the service issued. *)
Theorem authenticate_refuses_refresh_token now now0 user rest db :
  rest ≠ "" →
  read_token rest = JWTService.generateRefreshToken config now0 user →
  AuthMiddleware.authenticate config read_token now
    (Some ("Bearer " ++ rest)) db
  = (Return (AuthMiddleware.Responded
               (AuthMiddleware.refuse 401 "Authentication failed"
                  "Invalid or expired access token")), db).
Proof.
  intros Hrest Hread.
  unfold AuthMiddleware.authenticate, try_catchM. simpl.
  rewrite (proj2 (extract_bearer ("Bearer " ++ rest) rest))
    by reflexivity.
  destruct rest as [|a rest']; [contradiction|].
  unfold bind at 1. unfold lift.
  destruct (JWTService.verifyAccessToken config now
              (read_token (String a rest'))) as [p|e] eqn:Hv;
    [|reflexivity].
  exfalso. apply verifyAccessToken_return in Hv.
  destruct Hv as (c & Hdec & Hbody & Hty).
  rewrite Hread in Hdec.
  unfold JWTService.generateRefreshToken, jsonwebtoken.sign in Hdec.
  rewrite jws_decode_sign in Hdec. injection Hdec as <-.
  subst p. simpl in Hty. discriminate.
Qed.
(** The access verifier on an access token the service minted. *)
Lemma verifyAccessToken_generated now0 now user :
  JWTService.verifyAccessToken config now
    (JWTService.generateAccessToken config now0 user)
  = if (now0 / 1000 + accessExpiresIn (jwt config) <=? now / 1000)%Z
    then Throw (Error "Invalid access token")
    else Return {| userId := _id user; p_email := email user;
                   p_role := role user; type := "access" |}.
Proof.
  unfold JWTService.verifyAccessToken, JWTService.generateAccessToken,
    jsonwebtoken.verify, jsonwebtoken.sign, try_catch, bindR.
  rewrite jws_decode_sign, jws_verify_sign. simpl.
  destruct (_ <=? _)%Z; reflexivity.
Qed.

(** X5. The life of an access token.  A bearer header that carries an
    access token the service minted for a user at [now0] passes
    [authenticate] at every time before the second
    [now0 / 1000 + accessExpiresIn], with the stored document of that id
    as [req.user]; from that second on it is answered 401 "Authentication
    failed".  Before the expiry, when no document has that id any more,
    the answer is 401 "User not found". *)
Theorem access_token_lifetime now0 now user rest db :
  rest ≠ "" →
  read_token rest = JWTService.generateAccessToken config now0 user →
  let run :=
    AuthMiddleware.authenticate config read_token now
      (Some ("Bearer " ++ rest)) db in
  ((now0 / 1000 + accessExpiresIn (jwt config) ≤ now / 1000)%Z →
   run = (Return (AuthMiddleware.Responded
                    (AuthMiddleware.refuse 401 "Authentication failed"
                       "Invalid or expired access token")), db))
  ∧ ((now / 1000 < now0 / 1000 + accessExpiresIn (jwt config))%Z →
     (∀ u, findById (_id user) db = (Return (Some u), db) →
           _id user ≠ "" →
           run = (Return (AuthMiddleware.Next (Some u)), db))
     ∧ (findById (_id user) db = (Return None, db) →
        run = (Return (AuthMiddleware.Responded
                         (AuthMiddleware.refuse 401 "User not found"
                            "Invalid token - user does not exist")), db))).
Proof.
  intros Hrest Hread run.
  assert (Hstart : run
    = try_catchM
        (let* decoded :=
           lift (JWTService.verifyAccessToken config now
                   (JWTService.generateAccessToken config now0 user)) in
         let* found := findById (userId decoded) in
         match found with
         | None =>
             ret (AuthMiddleware.Responded
                    (AuthMiddleware.refuse 401 "User not found"
                       "Invalid token - user does not exist"))
         | Some user =>
             if bool_decide (_id user = "")
             then ret (AuthMiddleware.Responded
                         (AuthMiddleware.refuse 401 "User account is inactive"
                            "Account has been deactivated"))
             else ret (AuthMiddleware.Next (Some user))
         end)
        (λ _, ret (AuthMiddleware.Responded
                     (AuthMiddleware.refuse 401 "Authentication failed"
                        "Invalid or expired access token"))) db).
  { subst run. unfold AuthMiddleware.authenticate. simpl.
    rewrite (proj2 (extract_bearer ("Bearer " ++ rest) rest)) by reflexivity.
    destruct rest as [|a rest']; [contradiction|]. rewrite Hread.
    reflexivity. }
  rewrite Hstart. clear Hstart. unfold try_catchM.
  unfold bind at 1. unfold lift. rewrite verifyAccessToken_generated.
  split.
  - intros Hexp. apply Z.leb_le in Hexp. rewrite Hexp. reflexivity.
  - intros Hexp. apply Z.leb_gt in Hexp. rewrite Hexp.
    unfold bind. cbn [userId]. split.
    + intros u Hfind Hid. rewrite Hfind.
      destruct (findById_found _ _ _ Hfind) as [_ Hidu].
      rewrite bool_decide_eq_false_2 by congruence. reflexivity.
    + intros Hfind. rewrite Hfind. reflexivity.
Qed.
End MiddlewareFacts.

(* ===================================================================== *)
(** ** The guarded routes and the error handler *)
(* ===================================================================== *)

Section RouteFacts.
Context `{Jsonwebtoken} `{Crypto}.
Variable config : Config.
Variable read_token : string → Token.
Implicit Types (db : Db) (u v : User) (now : Z) (rest : string).

(** What [authenticate] passed on, with the lookup it made. *)
Lemma authenticate_next_inv now authorization db req_user db' :
  AuthMiddleware.authenticate config read_token now authorization db
  = (Return (AuthMiddleware.Next req_user), db') →
  db' = db
  ∧ ∃ u rest p,
      req_user = Some u
      ∧ authorization = Some ("Bearer " ++ rest) ∧ rest ≠ ""
      ∧ JWTService.verifyAccessToken config now (read_token rest) = Return p
      ∧ findById (userId p) db = (Return (Some u), db)
      ∧ _id u ≠ "".
Proof.
  unfold AuthMiddleware.authenticate, try_catchM.
  destruct authorization as [[|a hdr]|]; try discriminate.
  destruct (JWTInspect.extractTokenFromHeader (String a hdr))
    as [[|b rest']|] eqn:Hx; try discriminate.
  apply extract_bearer in Hx.
  unfold bind at 1. unfold lift.
  destruct (JWTService.verifyAccessToken config now
              (read_token (String b rest'))) as [p|e] eqn:Hv;
    [|discriminate].
  unfold bind at 1.
  destruct (findById_cases (userId p) db) as [Hnone|(u & Hsome & Hu & Hid)].
  - rewrite Hnone. discriminate.
  - rewrite Hsome. case_bool_decide as Hempty; [discriminate|].
    intros [= <- <-]. split; [reflexivity|].
    exists u, (String b rest'), p. rewrite Hx. repeat split; auto.
Qed.

(** A logout that was let through: the user it cleared. *)
Lemma logout_route_inv now authorization db res db' :
  Routes.logout config read_token now authorization db = (Return res, db') →
  status res = 200%Z →
  ∃ u rest p,
    authorization = Some ("Bearer " ++ rest) ∧ rest ≠ ""
    ∧ JWTService.verifyAccessToken config now (read_token rest) = Return p
    ∧ findById (userId p) db = (Return (Some u), db)
    ∧ _id u ≠ ""
    ∧ db' = store (UserModel.clearTokens u) db.
Proof.
  unfold Routes.logout, Routes.guarded. unfold bind at 1.
  destruct (authenticate_cases config read_token now authorization db)
    as (handled & Hrun & Hh).
  rewrite Hrun. destruct handled as [req_user|res0].
  - apply authenticate_next_inv in Hrun.
    destruct Hrun as (_ & u & rest & p & -> & Hhdr & Hrest & Hv & Hfind & Hid).
    intros [= <- <-] _. exists u, rest, p. repeat split; auto.
  - destruct Hh as (Hst & _). intros [= <- <-] H200. rewrite Hst in H200.
    discriminate.
Qed.


(** X7. Logout does not revoke the access token.  After a logout that
    was let through, the same bearer header still passes [authenticate],
    at every later time at which the access token verifies: the middleware
    consults the signature, the expiry and the existence of the account,
    not the sessions. *)
Theorem logout_keeps_access_token now now' rest p' db res db' :
  Routes.logout config read_token now (Some ("Bearer " ++ rest)) db
  = (Return res, db') →
  status res = 200%Z →
  JWTService.verifyAccessToken config now' (read_token rest) = Return p' →
  ∃ u,
    u ∈ db ∧ _id u = userId p'
    ∧ AuthMiddleware.authenticate config read_token now'
        (Some ("Bearer " ++ rest)) db'
      = (Return (AuthMiddleware.Next (Some (UserModel.clearTokens u))), db').
Proof.
  intros Hrun H200 Hv'.
  destruct (logout_route_inv _ _ _ _ _ Hrun H200)
    as (u & rest0 & p & Hhdr & Hrest & Hv & Hfind & Hid & ->).
  assert (rest0 = rest) as ->.
  { injection Hhdr as Hhdr. change (rest = rest0) in Hhdr. congruence. }
  assert (p' = p) as ->
    by exact (verifyAccessToken_functional _ _ _ _ _ _ Hv Hv').
  destruct (findById_found _ _ _ Hfind) as [Hu Hidp].
  exists u. split; [exact Hu|]. split.
  { rewrite Hidp. reflexivity. }
  eapply authenticate_pass; eauto.
  rewrite <- Hidp.
  change (_id u) with (_id (UserModel.clearTokens u)).
  eapply findById_store.
  change (_id (UserModel.clearTokens u)) with (_id u).
  rewrite Hidp. exact Hfind.
Qed.

(** Every way the guard of the reset-password route can end. *)
Lemma reset_route_cases now authorization salt token pw db :
  (∃ res,
     Routes.resetPassword config read_token now authorization salt token pw
       db = (Return res, db)
     ∧ status res = 401%Z ∧ success res = false)
  ∨ (∃ u rest p,
       authorization = Some ("Bearer " ++ rest) ∧ rest ≠ ""
       ∧ JWTService.verifyAccessToken config now (read_token rest)
         = Return p
       ∧ u ∈ db ∧ _id u = userId p
       ∧ Routes.resetPassword config read_token now authorization salt
           token pw db
         = AuthController.resetPassword now salt token pw db).
Proof.
  destruct (authenticate_cases config read_token now authorization db)
    as (handled & Hrun & Hh).
  assert (Hroute :
    Routes.resetPassword config read_token now authorization salt token pw db
    = match handled with
      | AuthMiddleware.Next _ =>
          AuthController.resetPassword now salt token pw db
      | AuthMiddleware.Responded res => (Return res, db)
      end).
  { unfold Routes.resetPassword, Routes.guarded, bind. rewrite Hrun.
    destruct handled; reflexivity. }
  rewrite Hroute. destruct handled as [req_user|res0].
  - right. destruct Hh as (u & rest & p & _ & Hhdr & Hrest & Hv & Hu & Hid).
    exists u, rest, p. repeat split; auto.
  - left. exists res0. destruct Hh as (Hst & Hsu & _). auto.
Qed.

(** X8. The reset-password route is behind [authenticate].  A request
    to [POST /reset-password] is either answered with status 401 and
    writes nothing, whatever reset token it carries, or it carries a
    bearer access token that verifies and names a stored account, and then
    it is handled as the controller handles it, without regard to who that
    account is.  In particular a request without an Authorization header is
    answered 401 "Access token required". *)
Theorem reset_route_requires_access_token now authorization salt token pw db :
  ((∃ res,
      Routes.resetPassword config read_token now authorization salt token pw
        db = (Return res, db)
      ∧ status res = 401%Z ∧ success res = false)
   ∨ (∃ u rest p,
        authorization = Some ("Bearer " ++ rest) ∧ rest ≠ ""
        ∧ JWTService.verifyAccessToken config now (read_token rest)
          = Return p
        ∧ u ∈ db ∧ _id u = userId p
        ∧ Routes.resetPassword config read_token now authorization salt
            token pw db
          = AuthController.resetPassword now salt token pw db))
  ∧ Routes.resetPassword config read_token now None salt token pw db
    = (Return (AuthMiddleware.refuse 401 "Access token required"
                 "No authorization header provided"), db).
Proof. split; [apply reset_route_cases | reflexivity]. Qed.

(** X9. The role check reads the stored role.  For a bearer token
    that verifies and names a stored account, [authenticate] passes on the
    stored document, and [authorize(...roles)] lets it through exactly when
    the role of that document is among [roles]; otherwise it answers 403.
    The role inside the token plays no part; [requireAdmin] lets through
    the stored admins only, and an empty list of roles lets nobody
    through. *)
Theorem authorize_by_stored_role roles now rest p u db :
  rest ≠ "" →
  JWTService.verifyAccessToken config now (read_token rest) = Return p →
  findById (userId p) db = (Return (Some u), db) →
  _id u ≠ "" →
  AuthMiddleware.authenticate config read_token now
    (Some ("Bearer " ++ rest)) db
  = (Return (AuthMiddleware.Next (Some u)), db)
  ∧ (role u ∈ roles →
     AuthMiddleware.authorize roles (Some u) = AuthMiddleware.Next (Some u))
  ∧ (role u ∉ roles →
     ∃ res, AuthMiddleware.authorize roles (Some u)
            = AuthMiddleware.Responded res
            ∧ status res = 403%Z ∧ success res = false)
  ∧ (AuthMiddleware.requireAdmin (Some u) = AuthMiddleware.Next (Some u)
     ↔ role u = ADMIN)
  ∧ (∃ res, AuthMiddleware.authorize [] (Some u)
            = AuthMiddleware.Responded res ∧ status res = 403%Z).
Proof.
  intros Hrest Hv Hfind Hid.
  split; [eapply authenticate_pass; eauto|].
  unfold AuthMiddleware.requireAdmin, AuthMiddleware.authorize.
  split; [|split; [|split]].
  - intros Hin. rewrite bool_decide_eq_true_2 by exact Hin. reflexivity.
  - intros Hnot. rewrite bool_decide_eq_false_2 by exact Hnot.
    eexists. split; [reflexivity|]. split; reflexivity.
  - case_bool_decide as Hin; simpl.
    + apply list_elem_of_singleton in Hin. tauto.
    + split; [discriminate|]. intros Hadm. exfalso. apply Hin.
      rewrite Hadm. apply list_elem_of_singleton. reflexivity.
  - rewrite bool_decide_eq_false_2 by apply not_elem_of_nil.
    eexists. split; reflexivity.
Qed.

(** A bearer token that verifies and names a stored account is attached. *)
Lemma optionalAuth_attach now rest p u req_user db :
  rest ≠ "" →
  JWTService.verifyAccessToken config now (read_token rest) = Return p →
  findById (userId p) db = (Return (Some u), db) →
  AuthMiddleware.optionalAuth config read_token now
    (Some ("Bearer " ++ rest)) req_user db
  = (Return (AuthMiddleware.Next (Some u)), db).
Proof.
  intros Hrest Hv Hfind.
  unfold AuthMiddleware.optionalAuth, try_catchM. simpl.
  rewrite (proj2 (extract_bearer ("Bearer " ++ rest) rest))
    by reflexivity.
  destruct rest as [|a rest']; [contradiction|].
  unfold bind at 1. unfold lift. rewrite Hv.
  unfold bind at 1. rewrite Hfind. reflexivity.
Qed.

Lemma optionalAuth_cases now authorization req_user db :
  ∃ o,
    AuthMiddleware.optionalAuth config read_token now authorization req_user
      db = (Return (AuthMiddleware.Next o), db)
    ∧ (o = req_user
       ∨ ∃ u rest p,
           o = Some u
           ∧ authorization = Some ("Bearer " ++ rest) ∧ rest ≠ ""
           ∧ JWTService.verifyAccessToken config now (read_token rest)
             = Return p
           ∧ u ∈ db ∧ _id u = userId p).
Proof.
  unfold AuthMiddleware.optionalAuth, try_catchM.
  destruct authorization as [[|a hdr]|];
    try solve [exists req_user; split; [reflexivity | auto]].
  destruct (JWTInspect.extractTokenFromHeader (String a hdr))
    as [[|b rest']|] eqn:Hx;
    try solve [exists req_user; split; [reflexivity | auto]].
  apply extract_bearer in Hx.
  unfold bind at 1. unfold lift.
  destruct (JWTService.verifyAccessToken config now
              (read_token (String b rest'))) as [p|e] eqn:Hv;
    [|solve [exists req_user; split; [reflexivity | auto]]].
  unfold bind at 1.
  destruct (findById_cases (userId p) db) as [Hnone|(u & Hsome & Hu & Hid)].
  - rewrite Hnone. exists req_user. split; [reflexivity | auto].
  - rewrite Hsome. exists (Some u). split; [reflexivity|].
    right. exists u, (String b rest'), p. rewrite Hx. repeat split; auto.
Qed.

(** X10. [optionalAuth] never blocks a request: it never throws, never
    answers and never writes, and always calls [next].  It attaches the
    user that [authenticate] would let through for the same header; in
    every other case [req.user] is what it was, or a stored account named
    by a verifying bearer token. *)
Theorem optionalAuth_never_blocks now authorization req_user db :
  ∃ o,
    AuthMiddleware.optionalAuth config read_token now authorization req_user
      db = (Return (AuthMiddleware.Next o), db)
    ∧ (∀ u, AuthMiddleware.authenticate config read_token now authorization
              db = (Return (AuthMiddleware.Next (Some u)), db) →
            o = Some u)
    ∧ (o = req_user
       ∨ ∃ u rest p,
           o = Some u
           ∧ authorization = Some ("Bearer " ++ rest) ∧ rest ≠ ""
           ∧ JWTService.verifyAccessToken config now (read_token rest)
             = Return p
           ∧ u ∈ db ∧ _id u = userId p).
Proof.
  destruct (optionalAuth_cases now authorization req_user db)
    as (o & Hrun & Ho).
  exists o. split; [exact Hrun|]. split; [|exact Ho].
  intros u Hauth. apply authenticate_next_inv in Hauth.
  destruct Hauth
    as (_ & u0 & rest & p & [= <-] & -> & Hrest & Hv & Hfind & _).
  rewrite (optionalAuth_attach now rest p u req_user db Hrest Hv Hfind)
    in Hrun.
  congruence.
Qed.

End RouteFacts.

Section ErrorHandlerFacts.
Context `{Jsonwebtoken}.
Variable config : Config.

(** X11. What the exported error handler discloses.  In every
    environment its response has [success: false], no data and no cookie;
    an [ApiError] keeps the status code and the message it was given; an
    error that is no [ApiError] gets status 400, 401, 409 or 500; and the
    404 handler's error is answered with status 404 and the message
    "<url> not found".  When the environment is not "development", the
    response to an error that is no [ApiError] does not depend on the
    error's message: two such errors of one name and code get the same
    response.  In development the [error] field carries the message of
    every error.  (An error named ValidationError or MongoError is
    Mongoose's, with the fields the handler reads from it.) *)
Theorem errorHandler_discloses_no_internals :
  (∀ e, success (errorHandler config e) = false
        ∧ data (errorHandler config e) = None
        ∧ cookie (errorHandler config e) = None)
  ∧ (∀ c m, status (errorHandler config (Api c m)) = statusCode c
            ∧ message (errorHandler config (Api c m)) = m)
  ∧ (∀ name m code,
       status (errorHandler config (Plain name m code))
       ∈ [400; 401; 409; 500]%Z)
  ∧ (∀ url, status (errorHandler config (notFoundhandler url)) = 404%Z
            ∧ message (errorHandler config (notFoundhandler url))
              = url ++ " not found")
  ∧ (isDevelopment config = false →
     ∀ name m m' code,
       errorHandler config (Plain name m code)
       = errorHandler config (Plain name m' code))
  ∧ (isDevelopment config = true →
     ∀ e, error (errorHandler config e) = Some (exn_message e)).
Proof.
  split; [|split; [|split; [|split; [|split]]]].
  - intros e. unfold errorHandler. destruct e as [c m|name m code].
    + repeat split; reflexivity.
    + repeat case_match; simplify_eq; repeat split; reflexivity.
  - intros c m. split; reflexivity.
  - intros name m code. unfold errorHandler.
    repeat case_match; simplify_eq; simpl; rewrite !elem_of_cons; auto.
  - intros url. split; reflexivity.
  - intros Hdev name m m' code. unfold errorHandler. rewrite Hdev.
    repeat case_match; congruence.
  - intros Hdev e. unfold errorHandler. rewrite Hdev.
    destruct e as [c m|name m code].
    + reflexivity.
    + repeat case_match; reflexivity.
Qed.
End ErrorHandlerFacts.

(* ===================================================================== *)
(** ** Sessions and password resets across requests *)
(* ===================================================================== *)

Section FlowFacts.
Context `{Jsonwebtoken} `{Crypto}.
Variable config : Config.
Implicit Types (db : Db) (u v w : User) (now : Z) (t : Token).

(** A lookup finds a document as soon as one matches. *)
Lemma find_is_Some (f : User → bool) db u :
  u ∈ db → f u = true → ∃ v, find f db = Some v.
Proof.
  intros Hu Hf. destruct (find f db) as [v|] eqn:Hfind; [eauto|].
  apply list_elem_of_In in Hu.
  rewrite (find_none _ _ Hfind u Hu) in Hf. discriminate.
Qed.

(** A lookup after a save of the document it found before. *)
Lemma find_store (f : User → bool) db u doc :
  find f db = Some u → _id doc = _id u → f doc = true →
  find f (store doc db) = Some doc.
Proof.
  intros Hfind Hid Hf. induction db as [|w db IH]; [discriminate|].
  simpl in Hfind. simpl.
  destruct (f w) eqn:Hfw.
  - injection Hfind as ->.
    rewrite bool_decide_eq_true_2 by congruence. rewrite Hf. reflexivity.
  - case_bool_decide.
    + rewrite Hf. reflexivity.
    + rewrite Hfw. apply IH, Hfind.
Qed.

Lemma login_success now email' password' db u :
  UserModel.findByEmail email' db = (Return (Some u), db) →
  UserModel.comparePassword u password' = Return true →
  AuthController.login config now email' password' db
  = (Return {| status := 200; success := true;
               message := "Login successful";
               data := Some (AuthData
                 (mkAuthResponse
                    (AuthController.authUser
                       (UserModel.set_refreshTokens
                          (refreshTokens u
                             ++ [JWTService.generateRefreshToken config now u])
                          u))
                    (JWTService.generateTokenPair config now u)));
               error := None;
               cookie := Some (SetRefreshCookie
                                 (JWTService.generateRefreshToken config now u)
                                 (AuthController.secureCookie config)) |},
     store (UserModel.set_refreshTokens
              (refreshTokens u
                 ++ [JWTService.generateRefreshToken config now u]) u) db).
Proof.
  intros Hfind Hcmp. unfold AuthController.login, bind.
  rewrite Hfind. unfold lift. rewrite Hcmp. reflexivity.
Qed.

(** X12. A login opens one more session.  When the account is found
    and the password matches, [login] answers 200 with a token pair, sets
    the refresh cookie to the new refresh token and saves the account with
    that token appended to its set: the sessions it had are kept.  The new
    token is accepted by a refresh at every time before its expiry. *)
Theorem login_opens_session now now' email' password' db u :
  UserModel.findByEmail email' db = (Return (Some u), db) →
  UserModel.comparePassword u password' = Return true →
  (now' / 1000 < now / 1000 + refreshExpiresIn (jwt config))%Z →
  let t := JWTService.generateRefreshToken config now u in
  let u1 := UserModel.set_refreshTokens (refreshTokens u ++ [t]) u in
  let db1 := store u1 db in
  ∃ res res',
    AuthController.login config now email' password' db = (Return res, db1)
    ∧ status res = 200%Z
    ∧ cookie res
      = Some (SetRefreshCookie t (AuthController.secureCookie config))
    ∧ data res
      = Some (AuthData
                (mkAuthResponse (AuthController.authUser u1)
                   (JWTService.generateTokenPair config now u)))
    ∧ refreshTokens u1 = (refreshTokens u ++ [t])%list
    ∧ findById (_id u) db1 = (Return (Some u1), db1)
    ∧ AuthController.refreshToken config now' (Some t) None db1
      = (Return res', store (AuthController.rotated config now' t u1) db1).
Proof.
  intros Hfind Hcmp Hexp t u1 db1.
  assert (Hu : u ∈ db).
  { unfold UserModel.findByEmail, findOne in Hfind. injection Hfind as Hfind.
    apply find_elem_of in Hfind. tauto. }
  assert (Hstored : findById (_id u) db1 = (Return (Some u1), db1)).
  { destruct (findById_elem_of u db Hu) as [u0 Hu0].
    change (_id u) with (_id u1). eapply findById_store. exact Hu0. }
  assert (Hf : falsy t = false).
  { subst t. unfold JWTService.generateRefreshToken, jsonwebtoken.sign.
    eapply jws_decode_truthy, jws_decode_sign. }
  eexists. eexists. split; [apply login_success; assumption|].
  split; [reflexivity|]. split; [reflexivity|]. split; [reflexivity|].
  split; [reflexivity|]. split; [exact Hstored|].
  eapply (refreshToken_member config now' (Some t) None db1 t _ u1).
  - simpl. rewrite Hf. reflexivity.
  - exact Hf.
  - apply verifyRefreshToken_generated. exact Hexp.
  - exact Hstored.
  - simpl. apply elem_of_app. right. apply list_elem_of_singleton.
    reflexivity.
Qed.

Lemma forgotPassword_after now random delivered email' db u :
  UserModel.findByEmail email' db = (Return (Some u), db) →
  after (AuthController.forgotPassword now random delivered email') db
  = store (UserModel.set_passwordResetExpires (Some (now + 600000)%Z)
             (UserModel.set_passwordResetToken (Some (sha256 random)) u)) db.
Proof.
  intros Hfind. unfold after.
  rewrite (forgotPassword_known now random delivered email' db u Hfind).
  reflexivity.
Qed.

(** X13. The mailed token resets the password, whether or not the mail
    arrived.  After a forgot-password request for an existing account,
    also one that ended in the mail error, a reset presenting the drawn
    plaintext within ten minutes, with a password whose [length] is eight
    or more, succeeds, provided no other account holds the same hash: the
    account is then stored with the bcrypt hash of the new password, no
    session and no pending reset token, and with its email unchanged. *)
Theorem forgot_then_reset now now' random delivered email' salt pw db u :
  UserModel.findByEmail email' db = (Return (Some u), db) →
  (∀ w, w ∈ db → passwordResetToken w = Some (sha256 random) →
        _id w = _id u) →
  random ≠ "" →
  (8 ≤ js_length pw)%nat →
  (now' < now + 600000)%Z →
  let db1 :=
    after (AuthController.forgotPassword now random delivered email') db in
  ∃ res db2 u',
    AuthController.resetPassword now' salt (Some random) (Some pw) db1
    = (Return res, db2)
    ∧ status res = 200%Z
    ∧ findById (_id u) db2 = (Return (Some u'), db2)
    ∧ password u' = bcrypt_hash pw salt
    ∧ refreshTokens u' = []
    ∧ passwordResetToken u' = None ∧ passwordResetExpires u' = None
    ∧ email u' = email u.
Proof.
  intros Hfind Honly Hrandom Hlen Hnow db1.
  assert (Hu : u ∈ db).
  { unfold UserModel.findByEmail, findOne in Hfind. injection Hfind as Hfind.
    apply find_elem_of in Hfind. tauto. }
  subst db1. rewrite (forgotPassword_after now random delivered email' db u Hfind).
  set (u1 := UserModel.set_passwordResetExpires _ _).
  assert (Hu1 : u1 ∈ store u1 db) by (eapply (store_same u); eauto).
  assert (Hpw : pw ≠ "") by (destruct pw; [simpl in Hlen; lia | discriminate]).
  destruct (resetPassword_cases now' salt random pw (store u1 db) Hrandom Hpw)
    as [[Hnone _]|[(v & _ & Hshort & _)|(v & Hv & _ & Hrun)]].
  - exfalso. unfold UserModel.findByPasswordResetToken, findOne in Hnone.
    injection Hnone as Hnone.
    destruct (find_is_Some
                (λ w, bool_decide (passwordResetToken w = Some (sha256 random))
                      && UserModel.gt_now (passwordResetExpires w) now')
                (store u1 db) u1 Hu1) as [v Hv].
    { simpl. rewrite bool_decide_eq_true_2 by reflexivity. simpl.
      apply Z.ltb_lt. exact Hnow. }
    congruence.
  - lia.
  - destruct (findByPasswordResetToken_found _ _ _ _ Hv) as (Hvin & Hh & _).
    assert (v = u1) as ->.
    { apply elem_of_store in Hvin. destruct Hvin as [->|[Hvdb Hne]];
        [reflexivity|]. exfalso. apply Hne. apply (Honly v Hvdb Hh). }
    eexists. eexists. eexists. split; [exact Hrun|].
    split; [reflexivity|]. split.
    + rewrite store_store by reflexivity.
      destruct (findById_elem_of u db Hu) as [u0 Hu0].
      match goal with |- findById _ (store ?d _) = _ =>
        change (_id u) with (_id d) end.
      eapply findById_store. exact Hu0.
    + repeat split; reflexivity.
Qed.

(** X14. A newer reset token replaces the older one.  After two
    forgot-password requests for one account with different hashes, a reset
    presenting the first plaintext fails with BadRequest "Invalid or
    expired reset token", at every time, provided no other account holds
    that hash. *)
Theorem newer_reset_token_replaces_older
    now1 now2 now' random1 random2 delivered1 delivered2 email' salt pw db u :
  UserModel.findByEmail email' db = (Return (Some u), db) →
  (∀ w, w ∈ db → passwordResetToken w = Some (sha256 random1) →
        _id w = _id u) →
  sha256 random1 ≠ sha256 random2 →
  random1 ≠ "" → pw ≠ "" →
  let db1 :=
    after (AuthController.forgotPassword now1 random1 delivered1 email') db in
  let db2 :=
    after (AuthController.forgotPassword now2 random2 delivered2 email') db1 in
  AuthController.resetPassword now' salt (Some random1) (Some pw) db2
  = (Throw (Api BadRequestError "Invalid or expired reset token"), db2).
Proof.
  intros Hfind Honly Hdiff Hr1 Hpw db1 db2.
  subst db2 db1.
  rewrite (forgotPassword_after now1 random1 delivered1 email' db u Hfind).
  set (u1 := UserModel.set_passwordResetExpires _ _).
  assert (Hfind1 : UserModel.findByEmail email' (store u1 db)
                   = (Return (Some u1), store u1 db)).
  { unfold UserModel.findByEmail, findOne in *. injection Hfind as Hfind.
    rewrite (find_store _ db u u1 Hfind); [reflexivity..|].
    apply find_elem_of in Hfind. destruct Hfind as [_ Hb]. exact Hb. }
  rewrite (forgotPassword_after now2 random2 delivered2 email' _ u1 Hfind1).
  set (u2 := UserModel.set_passwordResetExpires _ _).
  rewrite store_store by reflexivity.
  destruct (resetPassword_cases now' salt random1 pw (store u2 db) Hr1 Hpw)
    as [[_ Hthrow]|[(v & Hv & _)|(v & Hv & _)]]; [exact Hthrow|exfalso..].
  all: destruct (findByPasswordResetToken_found _ _ _ _ Hv) as (Hvin & Hh & _).
  all: apply elem_of_store in Hvin; destruct Hvin as [->|[Hvdb Hne]];
    [simpl in Hh; congruence | apply Hne, (Honly v Hvdb Hh)].
Qed.

(** X15. What a verification changes, and what it does not depend on.
    A [verifyEmail] that succeeds saves the matched account with the
    verified flag set and the pending verification hash and expiry
    cleared; its sessions, its password and every other field are as they
    were, and so are the other accounts.  The outcome is the same whether
    or not the welcome mail is delivered. *)
Theorem verifyEmail_effect now delivered token db res db' :
  AuthController.verifyEmail now delivered token db = (Return res, db') →
  (∃ tok u,
     token = Some tok
     ∧ UserModel.findByVerificationToken tok now db = (Return (Some u), db)
     ∧ db' = store (mkUser (_id u) (email u) (password u) (firstName u)
                      (lastName u) (role u) true None None
                      (passwordResetToken u) (passwordResetExpires u)
                      (refreshTokens u) (oauthProvider u) (oauthId u)
                      (avatar u)) db
     ∧ (∀ v, v ∈ db → _id v ≠ _id u → v ∈ db'))
  ∧ ∀ delivered',
      AuthController.verifyEmail now delivered' token db = (Return res, db').
Proof.
  intros Hrun.
  assert (Hindep : ∀ d d',
    AuthController.verifyEmail now d token db
    = AuthController.verifyEmail now d' token db).
  { intros d d'. unfold AuthController.verifyEmail.
    destruct token as [[|a tok']|]; try reflexivity.
    unfold bind. destruct (UserModel.findByVerificationToken _ _ _) as [[o|e] d0];
      [|reflexivity].
    destruct o; [|reflexivity]. unfold save, lift.
    destruct d, d'; reflexivity. }
  split.
  - apply verifyEmail_return_inv in Hrun.
    destruct Hrun as (tok & u & -> & _ & Hfind & ->).
    exists tok, u. split; [reflexivity|]. split; [exact Hfind|].
    split; [reflexivity|].
    intros v Hv Hne. apply store_other; auto.
  - intros delivered'. rewrite <- Hrun. apply Hindep.
Qed.
(** X16. After a reset the new password logs in.  When a reset finds
    the account that [email'] names, with a new password whose [length] is
    eight or more, and bcrypt accepts the password it hashed, a login with
    that email and the new password succeeds on the store the reset left:
    it opens the account's only session.  A login
    with any password that bcrypt does not match against the new hash, the
    old password for one, fails with Unauthorized "Invalid email or
    password" and writes nothing. *)
Theorem reset_then_login now now' email' salt tok pw db u :
  UserModel.findByPasswordResetToken tok now db = (Return (Some u), db) →
  UserModel.findByEmail email' db = (Return (Some u), db) →
  tok ≠ "" → (8 ≤ js_length pw)%nat →
  bcrypt_compare pw (bcrypt_hash pw salt) = true →
  let db1 :=
    after (AuthController.resetPassword now salt (Some tok) (Some pw)) db in
  let t := JWTService.generateRefreshToken config now' u in
  (∃ res u',
     AuthController.login config now' email' pw db1
     = (Return res, store u' db1)
     ∧ status res = 200%Z
     ∧ cookie res
       = Some (SetRefreshCookie t (AuthController.secureCookie config))
     ∧ _id u' = _id u ∧ refreshTokens u' = [t]
     ∧ password u' = bcrypt_hash pw salt)
  ∧ ∀ other,
      bcrypt_compare other (bcrypt_hash pw salt) = false →
      AuthController.login config now' email' other db1
      = (Throw (Api UnauthorizedError "Invalid email or password"), db1).
Proof.
  intros Htok Hemail Hne Hlen Hbcrypt db1 t.
  assert (Hpw : pw ≠ "") by (destruct pw; [simpl in Hlen; lia | discriminate]).
  destruct (resetPassword_cases now salt tok pw db Hne Hpw)
    as [[Hnone _]|[(v & _ & Hshort & _)|(v & Hv & _ & Hrun)]];
    [congruence | lia |].
  assert (v = u) as -> by congruence.
  set (u2 := UserModel.set_refreshTokens [] _) in Hrun.
  assert (Hdb1 : db1 = store u2 db).
  { subst db1. unfold after. rewrite Hrun. reflexivity. }
  clearbody db1. subst db1.
  assert (Hfind : UserModel.findByEmail email' (store u2 db)
                  = (Return (Some u2), store u2 db)).
  { unfold UserModel.findByEmail, findOne in *. injection Hemail as Hemail.
    rewrite (find_store _ db u u2 Hemail); [reflexivity..|].
    apply find_elem_of in Hemail. destruct Hemail as [_ Hb]. exact Hb. }
  split.
  - eexists. eexists. split.
    + apply login_success; [exact Hfind|].
      change (Return (bcrypt_compare pw (bcrypt_hash pw salt)) = Return true).
      rewrite Hbcrypt. reflexivity.
    + repeat split; reflexivity.
  - intros other Hother. apply login_failure_same_message. right.
    exists u2. split; [exact Hfind|].
    change (Return (bcrypt_compare other (bcrypt_hash pw salt))
            = Return false).
    rewrite Hother. reflexivity.
Qed.
End FlowFacts.

(* ===================================================================== *)
(** ** What every request keeps *)
(* ===================================================================== *)

Section InvariantFacts.
Context `{Jsonwebtoken} `{Crypto}.
Variable config : Config.
Variable read_token : string → Token.
Implicit Types (db : Db) (u v w doc : User) (now : Z) (t : Token).

(** One step of an account: what a handler may save in place of [u]. *)
Local Abbreviation step_of u doc :=
  (same_account u doc
   ∧ (∀ t, t ∈ refreshTokens doc →
           t ∈ refreshTokens u ∨ issued_to config u t)
   ∧ (paired u → paired doc)).

Lemma same_account_refl u : same_account u u.
Proof. unfold same_account. tauto. Qed.

Lemma same_account_trans u v w :
  same_account u v → same_account v w → same_account u w.
Proof.
  unfold same_account.
  intros (? & ? & ? & ? & ? & ? & ? & ? & ?) (? & ? & ? & ? & ? & ? & ? & ? & ?).
  repeat split; try congruence. auto.
Qed.

Lemma issued_to_same_account u doc t :
  same_account u doc → issued_to config u t → issued_to config doc t.
Proof.
  intros (Hid & Hemail & _ & _ & Hrole & _) [now0 ->]. exists now0.
  unfold JWTService.generateRefreshToken. rewrite Hid, Hemail, Hrole.
  reflexivity.
Qed.

Lemma ids_store doc db : map _id (store doc db) = map _id db.
Proof.
  unfold store. rewrite <- list_fmap_compose. apply list_fmap_ext.
  intros _ w _. simpl. case_bool_decide; congruence.
Qed.

Lemma distinct_ids u w db :
  NoDup (map _id db) → u ∈ db → w ∈ db → _id u = _id w → u = w.
Proof.
  induction db as [|x db IH]; intros Hnd Hu Hw Hid.
  - apply elem_of_nil in Hu. contradiction.
  - simpl in Hnd. apply list.NoDup_cons in Hnd. destruct Hnd as [Hx Hnd].
    apply elem_of_cons in Hu. apply elem_of_cons in Hw.
    destruct Hu as [->|Hu], Hw as [->|Hw]; auto.
    + exfalso. apply Hx. rewrite Hid. apply list_elem_of_fmap. eauto.
    + exfalso. apply Hx. rewrite <- Hid. apply list_elem_of_fmap. eauto.
Qed.

(** Saving one step of an account keeps the store consistent. *)
Lemma consistent_store db0 db u doc :
  consistent config db0 db → u ∈ db → step_of u doc →
  consistent config db0 (store doc db).
Proof.
  intros (Hnd & Hacc & Hses & Hpair) Hu (Hsame & Htok & Hpd).
  assert (Hid : _id doc = _id u) by (destruct Hsame; assumption).
  split; [rewrite ids_store; exact Hnd|]. split; [|split].
  - apply Forall2_same_length_lookup in Hacc. destruct Hacc as [Hlen Hacc].
    apply Forall2_same_length_lookup. split.
    { unfold store. rewrite length_fmap. exact Hlen. }
    intros i w0 y Hw0 Hy. unfold store in Hy.
    rewrite list_lookup_fmap in Hy.
    apply fmap_Some in Hy. destruct Hy as (w & Hwi & ->).
    case_bool_decide as Hwid; [|eapply Hacc; eauto].
    assert (Hw : w ∈ db) by (eapply list_elem_of_lookup_2; exact Hwi).
    assert (w = u) as -> by (eapply distinct_ids; eauto; congruence).
    eapply same_account_trans; [eapply Hacc; eauto | exact Hsame].
  - intros v t Hv Ht. apply elem_of_store in Hv.
    destruct Hv as [->|[Hv _]]; [|eauto].
    eapply issued_to_same_account; [exact Hsame|].
    destruct (Htok t Ht) as [Hold|Hnew]; [eauto | exact Hnew].
  - intros v Hv. apply elem_of_store in Hv.
    destruct Hv as [->|[Hv _]]; [|eauto]. apply Hpd, Hpair, Hu.
Qed.

(** Every way a request can end: it writes nothing, or it saves one step
    of one stored account, and then it succeeded or was a forgot-password
    request. *)
Lemma serve_cases now request db r db' :
  Routes.serve config read_token now request db = (r, db') →
  db' = db
  ∨ ∃ u doc,
      u ∈ db ∧ db' = store doc db ∧ step_of u doc
      ∧ ((∃ res, r = Return res ∧ success res = true)
         ∨ ∃ random delivered email',
             request = Routes.ForgotPassword random delivered email').
Proof.
  destruct request as [email' pw|authorization|cookie' header|delivered token
                       |random delivered email'|authorization salt token pw];
    simpl.
  - (* login *)
    destruct (UserModel.findByEmail email' db) as [fr fd] eqn:Hfind.
    assert (fd = db ∧ ∃ o, fr = Return o) as [-> [o ->]].
    { unfold UserModel.findByEmail, findOne in Hfind.
      injection Hfind as <- <-. eauto. }
    destruct o as [u|].
    2:{ unfold AuthController.login, bind. rewrite Hfind.
        intros [= <- <-]. auto. }
    destruct (UserModel.comparePassword u pw) as [[|]|e] eqn:Hcmp.
    2,3:(unfold AuthController.login, bind, lift; rewrite Hfind, Hcmp;
         intros [= <- <-]; auto).
    rewrite (login_success config now email' pw db u Hfind Hcmp).
    intros [= <- <-]. right.
    assert (Hu : u ∈ db).
    { unfold UserModel.findByEmail, findOne in Hfind.
      injection Hfind as Hfind. apply find_elem_of in Hfind. tauto. }
    eexists u, _. split; [exact Hu|]. split; [reflexivity|].
    split; [|left; eexists; split; reflexivity].
    split; [unfold same_account; simpl; tauto|]. split; [|auto].
    simpl. intros t Ht. apply elem_of_app in Ht.
    destruct Ht as [Ht|Ht]; [auto|].
    apply list_elem_of_singleton in Ht. right. exists now. exact Ht.
  - (* logout *)
    unfold Routes.logout, Routes.guarded, bind.
    destruct (authenticate_cases config read_token now authorization db)
      as (handled & Hrun & Hh).
    rewrite Hrun. destruct handled as [req_user|res0].
    2:{ intros [= <- <-]. auto. }
    destruct Hh as (u & rest & p & -> & _ & _ & _ & Hu & _).
    simpl. intros [= <- <-]. right.
    eexists u, _. split; [exact Hu|]. split; [reflexivity|].
    split; [|left; eexists; split; reflexivity].
    split; [unfold same_account; simpl; tauto|]. split.
    + simpl. intros t Ht. apply elem_of_nil in Ht. contradiction.
    + intros _. unfold paired. simpl. split; split; intros [? ?]; discriminate.
  - (* refresh *)
    intros Hrun. apply refreshToken_cases in Hrun.
    destruct Hrun as [[_ ->]|[[_ ->]|[[_ ->]|[[_ ->]|Hok]]]]; auto.
    destruct Hok as (t & p & u & _ & _ & _ & Hfind & Hin & -> & ->).
    destruct (findById_found _ _ _ Hfind) as [Hu _]. right.
    eexists u, _. split; [exact Hu|]. split; [reflexivity|].
    split; [|left; eexists; split; reflexivity].
    split; [unfold same_account; simpl; tauto|]. split; [|auto].
    simpl. intros x Hx. apply elem_of_app in Hx. destruct Hx as [Hx|Hx].
    + apply list_elem_of_filter in Hx. tauto.
    + apply list_elem_of_singleton in Hx. right. exists now. exact Hx.
  - (* verify email *)
    destruct token as [[|a tok']|]; try (intros [= <- <-]; auto).
    assert (Hne : String a tok' ≠ "") by discriminate.
    destruct (verifyEmail_cases now delivered (String a tok') db Hne)
      as [[_ Hthrow]|(u & Hfind & Hok)].
    + rewrite Hthrow. intros [= <- <-]. auto.
    + rewrite Hok. intros [= <- <-]. right.
      destruct (findByVerificationToken_found _ _ _ _ Hfind) as (Hu & _).
      eexists u, _. split; [exact Hu|]. split; [reflexivity|].
      split; [|left; eexists; split; reflexivity].
      split; [unfold same_account; simpl; tauto|]. split; [simpl; auto|].
      intros [_ Hp]. unfold paired. simpl. split; [|exact Hp].
      split; intros [? ?]; discriminate.
  - (* forgot password *)
    destruct (UserModel.findByEmail email' db) as [fr fd] eqn:Hfind.
    assert (fd = db ∧ ∃ o, fr = Return o) as [-> [o ->]].
    { unfold UserModel.findByEmail, findOne in Hfind.
      injection Hfind as <- <-. eauto. }
    destruct o as [u|].
    2:{ rewrite (forgotPassword_unknown now random delivered email' db Hfind).
        intros [= <- <-]. auto. }
    rewrite (forgotPassword_known now random delivered email' db u Hfind).
    intros [= <- <-]. right.
    assert (Hu : u ∈ db).
    { unfold UserModel.findByEmail, findOne in Hfind.
      injection Hfind as Hfind. apply find_elem_of in Hfind. tauto. }
    eexists u, _. split; [exact Hu|]. split; [reflexivity|].
    split; [|right; eauto].
    split; [unfold same_account; simpl; tauto|]. split; [simpl; auto|].
    intros [Hp _]. unfold paired. simpl. split; [exact Hp|].
    split; intros _; eauto.
  - (* reset password *)
    destruct (reset_route_cases config read_token now authorization salt
                token pw db)
      as [(res0 & Hrun & _)|(u0 & rest & p & _ & _ & _ & _ & _ & Hrun)].
    { rewrite Hrun. intros [= <- <-]. auto. }
    rewrite Hrun. clear Hrun.
    destruct token as [[|a tok']|]; try (intros [= <- <-]; auto).
    destruct pw as [[|b pw']|]; try (intros [= <- <-]; auto).
    assert (Hne : String a tok' ≠ "") by discriminate.
    assert (Hp : String b pw' ≠ "") by discriminate.
    destruct (resetPassword_cases now salt (String a tok') (String b pw') db
                Hne Hp)
      as [[_ Hthrow]|[(u & _ & _ & e & Hthrow)|(u & Hfind & _ & Hok)]].
    + rewrite Hthrow. intros [= <- <-]. auto.
    + rewrite Hthrow. intros [= <- <-]. auto.
    + rewrite Hok. intros [= <- <-]. right.
      destruct (findByPasswordResetToken_found _ _ _ _ Hfind) as (Hu & _).
      eexists u, _. split; [exact Hu|]. split; [reflexivity|].
      split; [|left; eexists; split; reflexivity].
      split; [unfold same_account; simpl; tauto|]. split.
      * simpl. intros t Ht. apply elem_of_nil in Ht. contradiction.
      * intros [Hp' _]. unfold paired. simpl. split; [exact Hp'|].
        split; intros [? ?]; discriminate.
Qed.

(** X17. A request that fails writes nothing, with one exception.  When
    the handling of a request ends in a thrown error or in a response with
    [success: false], the store is what it was, unless the request is a
    forgot-password request, whose reset token is saved before the mail is
    sent. *)
Theorem failed_request_writes_nothing now request r db db' :
  Routes.serve config read_token now request db = (r, db') →
  (∀ res, r = Return res → success res = false) →
  (∀ random delivered email',
     request ≠ Routes.ForgotPassword random delivered email') →
  db' = db.
Proof.
  intros Hrun Hfail Hnot. apply serve_cases in Hrun.
  destruct Hrun as [->|(u & doc & _ & _ & _ & [(res & -> & Hok)|Hforgot])].
  - reflexivity.
  - rewrite (Hfail res eq_refl) in Hok. discriminate.
  - destruct Hforgot as (random & delivered & email' & ->).
    exfalso. eapply Hnot. reflexivity.
Qed.

(** The stores that requests lead to are consistent. *)
Lemma reachable_consistent db0 db :
  NoDup (map _id db0) →
  (∀ u t, u ∈ db0 → t ∈ refreshTokens u → issued_to config u t) →
  (∀ u, u ∈ db0 → paired u) →
  Routes.reachable config read_token db0 db →
  consistent config db0 db.
Proof.
  intros Hnd Hses Hpair Hreach. induction Hreach as [|db now request _ IH].
  - split; [exact Hnd|]. split; [|auto].
    apply Forall2_same_length_lookup. split; [reflexivity|].
    intros i u u' Hu Hu'. assert (u' = u) as -> by congruence.
    apply same_account_refl.
  - unfold after.
    destruct (Routes.serve config read_token now request db) as [r db'] eqn:Hrun.
    simpl. apply serve_cases in Hrun.
    destruct Hrun as [->|(u & doc & Hu & -> & Hstep & _)]; [exact IH|].
    eapply consistent_store; eauto.
Qed.

(** X18. Every request keeps the store consistent.  Starting from a
    store with distinct ids, in which every session token was minted by
    the service for its owner and every pending one-time hash has its
    expiry, every store reached by any sequence of login, logout, refresh,
    verify-email, forgot-password and reset-password requests has the same
    accounts in the same order (same id, email, names, role, OAuth link and
    avatar, and no verified email unverified again), distinct ids, only
    session tokens minted by the service for their owner, and paired
    one-time fields. *)
Theorem requests_keep_store_consistent db0 db :
  NoDup (map _id db0) →
  (∀ u t, u ∈ db0 → t ∈ refreshTokens u → issued_to config u t) →
  (∀ u, u ∈ db0 → paired u) →
  Routes.reachable config read_token db0 db →
  consistent config db0 db.
Proof. apply reachable_consistent. Qed.

(** The refresh verifier on a refresh token past its expiry. *)
Lemma verifyRefreshToken_expired now0 now user :
  (now0 / 1000 + refreshExpiresIn (jwt config) ≤ now / 1000)%Z →
  JWTService.verifyRefreshToken config now
    (JWTService.generateRefreshToken config now0 user)
  = Throw (Error "Invalid refresh token").
Proof.
  intros Hexp.
  unfold JWTService.verifyRefreshToken, JWTService.generateRefreshToken,
    jsonwebtoken.verify, jsonwebtoken.sign, try_catch, bindR.
  rewrite jws_decode_sign, jws_verify_sign. simpl.
  apply Z.leb_le in Hexp. rewrite Hexp. reflexivity.
Qed.

(** X19. A stored session is the owner's own, and it is served.  In
    every store that requests lead to from a consistent one, a token in
    the session set of an account is in the set of no other account, and
    it decodes to claims that name that account.  A refresh that presents
    it before the second [exp] of these claims is served and rotates it in
    that account; from that second on the refresh throws the plain error
    "Invalid refresh token" and writes nothing. *)
Theorem stored_session_is_served db0 db u t now :
  NoDup (map _id db0) →
  (∀ u t, u ∈ db0 → t ∈ refreshTokens u → issued_to config u t) →
  (∀ u, u ∈ db0 → paired u) →
  Routes.reachable config read_token db0 db →
  u ∈ db → t ∈ refreshTokens u →
  (∀ v, v ∈ db → t ∈ refreshTokens v → v = u)
  ∧ ∃ c,
      jws_decode t = Some c ∧ userId (body c) = _id u
      ∧ ((now / 1000 < exp c)%Z →
         ∃ res,
           Routes.serve config read_token now
             (Routes.RefreshToken (Some t) None) db
           = (Return res, store (AuthController.rotated config now t u) db)
           ∧ status res = 200%Z)
      ∧ ((exp c ≤ now / 1000)%Z →
         Routes.serve config read_token now
           (Routes.RefreshToken (Some t) None) db
         = (Throw (Error "Invalid refresh token"), db)).
Proof.
  intros Hnd0 Hses0 Hpair0 Hreach Hu Ht.
  destruct (reachable_consistent db0 db Hnd0 Hses0 Hpair0 Hreach)
    as (Hnd & _ & Hses & _).
  destruct (Hses u t Hu Ht) as [now0 Heq].
  assert (Hdec : jws_decode t
    = Some {| body := {| userId := _id u; p_email := email u;
                         p_role := role u; type := "refresh" |};
              iat := now0 / 1000;
              exp := now0 / 1000 + refreshExpiresIn (jwt config) |}).
  { rewrite Heq. unfold JWTService.generateRefreshToken, jsonwebtoken.sign.
    apply jws_decode_sign. }
  assert (Hf : falsy t = false) by (eapply jws_decode_truthy, Hdec).
  assert (Hor : AuthController.or_token (Some t) None = Some t).
  { simpl. rewrite Hf. reflexivity. }
  assert (Hfind : findById (_id u) db = (Return (Some u), db)).
  { destruct (findById_elem_of u db Hu) as [u0 Hu0].
    destruct (findById_found _ _ _ Hu0) as [Hin Hid].
    rewrite (distinct_ids u0 u db Hnd Hin Hu Hid) in Hu0. exact Hu0. }
  split.
  - intros v Hv Htv. destruct (Hses v t Hv Htv) as [now1 Heq1].
    rewrite Heq in Heq1. apply generateRefreshToken_inj in Heq1.
    destruct Heq1 as [_ Hid]. symmetry in Hid.
    apply (distinct_ids v u db Hnd Hv Hu Hid).
  - eexists. split; [exact Hdec|]. split; [reflexivity|]. cbn [exp]. split.
    + intros Hexp.
      assert (Hv : JWTService.verifyRefreshToken config now t
                   = Return {| userId := _id u; p_email := email u;
                               p_role := role u; type := "refresh" |}).
      { rewrite Heq. apply verifyRefreshToken_generated. exact Hexp. }
      eexists. split.
      * simpl. exact (refreshToken_member config now (Some t) None db t _ u
                        Hor Hf Hv Hfind Ht).
      * reflexivity.
    + intros Hexp. simpl.
      eapply (refreshToken_unverified config now (Some t) None db t);
        [exact Hor | exact Hf |].
      rewrite Heq. apply verifyRefreshToken_expired. exact Hexp.
Qed.
(** X23. What the guards decide about an account does not change.  In
    every store that requests lead to from a consistent one, every account
    of the first store is still there under its id, with the role it had:
    [authorize(...roles)] lets its document through exactly when it let
    the first one through, for every list of roles.  An account that
    [requireEmailVerification] let through is let through ever after. *)
Theorem guards_are_stable db0 db u :
  NoDup (map _id db0) →
  (∀ u t, u ∈ db0 → t ∈ refreshTokens u → issued_to config u t) →
  (∀ u, u ∈ db0 → paired u) →
  Routes.reachable config read_token db0 db →
  u ∈ db0 →
  ∃ u',
    u' ∈ db ∧ _id u' = _id u
    ∧ (∀ roles,
         AuthMiddleware.authorize roles (Some u')
         = AuthMiddleware.Next (Some u')
         ↔ AuthMiddleware.authorize roles (Some u)
           = AuthMiddleware.Next (Some u))
    ∧ (AuthMiddleware.requireEmailVerification (Some u)
       = AuthMiddleware.Next (Some u) →
       AuthMiddleware.requireEmailVerification (Some u')
       = AuthMiddleware.Next (Some u')).
Proof.
  intros Hnd0 Hses0 Hpair0 Hreach Hu.
  destruct (reachable_consistent db0 db Hnd0 Hses0 Hpair0 Hreach)
    as (_ & Hacc & _ & _).
  apply list_elem_of_lookup in Hu. destruct Hu as [i Hi].
  destruct (Forall2_lookup_l _ _ _ _ _ Hacc Hi) as (u' & Hi' & Hsame).
  destruct Hsame as (Hid & _ & _ & _ & Hrole & _ & _ & _ & Hver).
  exists u'. split; [eapply list_elem_of_lookup_2; exact Hi'|].
  split; [exact Hid|]. split.
  - intros roles. unfold AuthMiddleware.authorize. rewrite Hrole.
    destruct (bool_decide (role u ∈ roles)); simpl; split;
      (reflexivity || discriminate).
  - unfold AuthMiddleware.requireEmailVerification.
    destruct (isEmailVerified u); [|discriminate].
    intros _. rewrite (Hver eq_refl). reflexivity.
Qed.
End InvariantFacts.

(* ===================================================================== *)
(** ** The string helpers *)
(* ===================================================================== *)

Section HelperFacts.
Import Helpers.
Implicit Types (s l : list N) (c : N).

Lemma replaceAll_absent c r s : c ∉ s → replaceAll c r s = s.
Proof.
  unfold replaceAll. induction s as [|x s IH]; intros Hc; [reflexivity|].
  simpl. apply not_elem_of_cons in Hc. destruct Hc as [Hx Hs].
  destruct (N.eqb_spec x c) as [->|_]; [contradiction|].
  simpl. f_equal. apply IH, Hs.
Qed.

Lemma replaceAll_cons c r x s :
  replaceAll c r (x :: s)
  = ((if (x =? c)%N then r else [x]) ++ replaceAll c r s)%list.
Proof. reflexivity. Qed.

Lemma replaceAll_app c r s1 s2 :
  replaceAll c r (s1 ++ s2) = (replaceAll c r s1 ++ replaceAll c r s2)%list.
Proof. unfold replaceAll. apply flat_map_app. Qed.

(** The text as it is after the angle brackets are removed and the three
    characters are escaped. *)
Lemma sanitizeInput_escaped l :
  unit "<" ∉ l → unit ">" ∉ l →
  escaped
    (replaceAll (unit "'") (units "&#x27;")
       (replaceAll (unit DoubleQuote) (units "&quot;")
          (replaceAll (unit "&") (units "&amp;") l))).
Proof.
  induction l as [|x l IH]; intros Hlt Hgt; [constructor|].
  apply not_elem_of_cons in Hlt. destruct Hlt as [Hx1 Hlt].
  apply not_elem_of_cons in Hgt. destruct Hgt as [Hx2 Hgt].
  specialize (IH Hlt Hgt).
  rewrite replaceAll_cons, !replaceAll_app.
  destruct (N.eqb_spec x (unit "&")) as [->|Hamp].
  { apply (escaped_amp _ IH). }
  rewrite replaceAll_cons.
  destruct (N.eqb_spec x (unit DoubleQuote)) as [->|Hquot].
  { apply (escaped_quot _ IH). }
  change (replaceAll (unit DoubleQuote) (units "&quot;") []) with (@nil N).
  rewrite replaceAll_app, replaceAll_cons.
  destruct (N.eqb_spec x (unit "'")) as [->|Hapos].
  { apply (escaped_apos _ IH). }
  apply escaped_plain; [|exact IH].
  rewrite !not_elem_of_cons. repeat split; auto. apply not_elem_of_nil.
Qed.

(** Membership in the lists of characters of the source, by cases. *)
Ltac concrete_members :=
  repeat match goal with
         | H : _ ∈ _ |- _ => apply list_elem_of_In in H; vm_compute in H
         end;
  intuition (subst; discriminate).

Lemma escaped_safe l c :
  escaped l → c ∈ [unit "<"; unit ">"; unit DoubleQuote; unit "'"] → c ∉ l.
Proof.
  intros He Hc. induction He as [|x l Hx _ IH|l _ IH|l _ IH|l _ IH].
  - apply not_elem_of_nil.
  - apply not_elem_of_cons. split; [|exact IH].
    intros ->. apply Hx. revert Hc. rewrite !elem_of_cons. tauto.
  - rewrite elem_of_app. intros [Hin|Hin]; [|exact (IH Hin)].
    concrete_members.
  - rewrite elem_of_app. intros [Hin|Hin]; [|exact (IH Hin)].
    concrete_members.
  - rewrite elem_of_app. intros [Hin|Hin]; [|exact (IH Hin)].
    concrete_members.
Qed.

(** X20. [sanitizeInput] returns escaped text.  Whatever the input,
    the result is made of plain characters and the entities [&amp;],
    [&quot;] and [&#x27;]: it contains no angle bracket and no double or
    single quote, and no ampersand outside these entities.  The angle
    brackets of the input are deleted, not escaped: the result is the
    trimmed input without them, with the ampersands and the quotes
    replaced. *)
Theorem sanitizeInput_safe (input : list N) :
  escaped (sanitizeInput input)
  ∧ (∀ c, c ∈ [unit "<"; unit ">"; unit DoubleQuote; unit "'"] →
          c ∉ sanitizeInput input)
  ∧ sanitizeInput input
    = replaceAll (unit "'") (units "&#x27;")
        (replaceAll (unit DoubleQuote) (units "&quot;")
           (replaceAll (unit "&") (units "&amp;")
              (filter (λ x, x ≠ unit "<" ∧ x ≠ unit ">") (trim input)))).
Proof.
  set (l := filter (λ x, x ≠ unit "<" ∧ x ≠ unit ">") (trim input)).
  assert (Hlt : unit "<" ∉ l).
  { subst l. rewrite list_elem_of_filter. tauto. }
  assert (Hgt : unit ">" ∉ l).
  { subst l. rewrite list_elem_of_filter. tauto. }
  assert (Hamp : ∀ c, c ∈ [unit "<"; unit ">"] →
                      c ∉ replaceAll (unit "&") (units "&amp;") l).
  { intros c Hc. unfold replaceAll. rewrite list_elem_of_In, in_flat_map.
    intros (x & Hx & Hin). apply list_elem_of_In in Hx.
    destruct (N.eqb_spec x (unit "&")) as [->|_].
    - apply list_elem_of_In in Hin. clear Hx. concrete_members.
    - destruct Hin as [<-|[]]. revert Hc.
      rewrite !elem_of_cons, elem_of_nil. intros [->|[->|[]]]; contradiction. }
  assert (Heq : sanitizeInput input
    = replaceAll (unit "'") (units "&#x27;")
        (replaceAll (unit DoubleQuote) (units "&quot;")
           (replaceAll (unit "&") (units "&amp;") l))).
  { unfold sanitizeInput. fold l.
    rewrite (replaceAll_absent (unit "<"))
      by (apply Hamp; rewrite !elem_of_cons; auto).
    rewrite (replaceAll_absent (unit ">"))
      by (apply Hamp; rewrite !elem_of_cons; auto).
    reflexivity. }
  assert (Hesc : escaped (sanitizeInput input)).
  { rewrite Heq. apply sanitizeInput_escaped; assumption. }
  split; [exact Hesc|]. split; [|exact Heq].
  intros c Hc. eapply escaped_safe; eauto.
Qed.
(** What [dashRuns] returns: slug characters and single hyphens, and no
    hyphen first when a run has begun. *)
Lemma dashRuns_shape inRun s :
  (∀ c, c ∈ dashRuns inRun s → isSlugChar c = true ∨ c = unit "-")
  ∧ (∀ l1 l2, dashRuns inRun s ≠ (l1 ++ unit "-" :: unit "-" :: l2)%list)
  ∧ (inRun = true → ∀ l, dashRuns inRun s ≠ unit "-" :: l).
Proof.
  revert inRun. induction s as [|x s IH]; intros inRun.
  - simpl. split; [|split].
    + intros c Hc. apply elem_of_nil in Hc. contradiction.
    + intros [|? ?] l2; discriminate.
    + intros _ l. discriminate.
  - cbn [dashRuns]. destruct (isSlugChar x) eqn:Hx.
    + destruct (IH false) as (Hall & Hno & _). split; [|split].
      * intros c Hc. apply elem_of_cons in Hc.
        destruct Hc as [->|Hc]; [left; exact Hx | apply Hall, Hc].
      * intros [|y l1] l2 Heq.
        -- injection Heq as -> _. vm_compute in Hx. discriminate.
        -- injection Heq as _ Heq. apply (Hno l1 l2 Heq).
      * intros _ l Heq. injection Heq as -> _.
        vm_compute in Hx. discriminate.
    + destruct (IH true) as (Hall & Hno & Hhead). destruct inRun.
      * split; [exact Hall|]. split; [exact Hno|]. intros _. apply Hhead.
        reflexivity.
      * split; [|split].
        -- intros c Hc. apply elem_of_cons in Hc.
           destruct Hc as [->|Hc]; [right; reflexivity | apply Hall, Hc].
        -- intros [|y l1] l2 Heq.
           ++ injection Heq as Heq. apply (Hhead eq_refl l2 Heq).
           ++ injection Heq as _ Heq. apply (Hno l1 l2 Heq).
        -- discriminate.
Qed.

(** X21. The shape of a slug.  Whatever the text, and whatever
    [toLowerCase] makes of it, the slug is made of the characters [a-z],
    [0-9] and the hyphen only, it neither starts nor ends with a hyphen,
    and it has no two hyphens in a row. *)
Theorem generateSlug_shape (toLowerCase : list N → list N) (text : list N) :
  (∀ c, c ∈ generateSlug toLowerCase text →
        isSlugChar c = true ∨ c = unit "-")
  ∧ (∀ l, generateSlug toLowerCase text ≠ unit "-" :: l)
  ∧ (∀ l, generateSlug toLowerCase text ≠ (l ++ [unit "-"])%list)
  ∧ (∀ l1 l2, generateSlug toLowerCase text
              ≠ (l1 ++ unit "-" :: unit "-" :: l2)%list).
Proof.
  unfold generateSlug.
  destruct (dashRuns_shape false (toLowerCase text)) as (Hall & Hno & _).
  set (d := dashRuns false (toLowerCase text)) in *.
  unfold stripHyphens.
  set (s1 := match d with
             | c :: s' => if (c =? unit "-")%N then s' else d
             | [] => []
             end).
  assert (Hall1 : ∀ c, c ∈ s1 → isSlugChar c = true ∨ c = unit "-").
  { intros c Hc. apply Hall. subst s1. destruct d as [|x d']; [exact Hc|].
    destruct (x =? unit "-")%N; [|exact Hc]. apply elem_of_cons. auto. }
  assert (Hno1 : ∀ l1 l2, s1 ≠ (l1 ++ unit "-" :: unit "-" :: l2)%list).
  { intros l1 l2 Heq. subst s1. destruct d as [|x d']; [apply (Hno l1 l2 Heq)|].
    destruct (x =? unit "-")%N; [|apply (Hno l1 l2 Heq)].
    apply (Hno (x :: l1) l2). rewrite Heq. reflexivity. }
  assert (Hhead1 : ∀ l, s1 ≠ unit "-" :: l).
  { intros l Heq. subst s1. destruct d as [|x d']; [discriminate|].
    destruct (N.eqb_spec x (unit "-")) as [->|Hx].
    - apply (Hno [] l). rewrite Heq. reflexivity.
    - injection Heq as -> _. contradiction. }
  clearbody s1. clear Hall Hno d.
  destruct (rev s1) as [|c r] eqn:Hrev.
  - apply (f_equal (@rev N)) in Hrev. rewrite rev_involutive in Hrev.
    subst s1. split; [exact Hall1|]. split; [exact Hhead1|].
    split; [|exact Hno1]. intros [|? ?]; discriminate.
  - apply (f_equal (@rev N)) in Hrev. rewrite rev_involutive in Hrev.
    simpl in Hrev.
    destruct (N.eqb_spec c (unit "-")) as [->|Hc].
    + split; [|split; [|split]].
      * intros x Hx. apply Hall1. rewrite Hrev. apply elem_of_app. auto.
      * intros l Heq. apply (Hhead1 (l ++ [unit "-"])%list).
        rewrite Hrev, Heq. reflexivity.
      * intros l Heq. apply (Hno1 l []). rewrite Hrev, Heq.
        rewrite <- app_assoc. reflexivity.
      * intros l1 l2 Heq. apply (Hno1 l1 (l2 ++ [unit "-"])%list).
        rewrite Hrev, Heq. rewrite <- app_assoc. reflexivity.
    + split; [exact Hall1|]. split; [exact Hhead1|]. split; [|exact Hno1].
      intros l Heq. rewrite Hrev in Heq.
      apply app_inj_tail in Heq. destruct Heq as [_ Heq]. contradiction.
Qed.

(** A text without the separator is one piece. *)
Lemma split_acc_absent sep piece l :
  sep ∉ l → split_acc sep piece l = [(rev piece ++ l)%list].
Proof.
  revert piece. induction l as [|x l IH]; intros piece Hsep; simpl.
  - rewrite app_nil_r. reflexivity.
  - apply not_elem_of_cons in Hsep. destruct Hsep as [Hx Hl].
    destruct (N.eqb_spec x sep) as [->|_]; [contradiction|].
    rewrite (IH (x :: piece) Hl). simpl. rewrite <- app_assoc. reflexivity.
Qed.

(** The first piece ends at the first separator. *)
Lemma split_acc_first sep piece l r :
  sep ∉ l →
  split_acc sep piece (l ++ sep :: r)
  = (rev piece ++ l)%list :: split_acc sep [] r.
Proof.
  revert piece. induction l as [|x l IH]; intros piece Hsep; simpl.
  - rewrite N.eqb_refl, app_nil_r. reflexivity.
  - apply not_elem_of_cons in Hsep. destruct Hsep as [Hx Hl].
    destruct (N.eqb_spec x sep) as [->|_]; [contradiction|].
    rewrite (IH (x :: piece) Hl). simpl. rewrite <- app_assoc. reflexivity.
Qed.

(** The local part and the domain that [maskEmail] reads: the text before
    the first [@], and the text between the first and the second. *)
Lemma maskEmail_parts localPart domain tail' :
  unit "@" ∉ localPart → unit "@" ∉ domain →
  (tail' = [] ∨ ∃ rest, tail' = unit "@" :: rest) →
  ∃ more,
    split (unit "@") (localPart ++ unit "@" :: domain ++ tail')
    = localPart :: domain :: more.
Proof.
  intros Hl Hd Htail. unfold split.
  rewrite (split_acc_first _ [] localPart _ Hl).
  destruct Htail as [->|[rest ->]].
  - rewrite app_nil_r, (split_acc_absent _ [] domain Hd).
    eexists. reflexivity.
  - rewrite (split_acc_first _ [] domain rest Hd). eexists. reflexivity.
Qed.

(** X22. What [maskEmail] hides.  For an address whose local part has
    three characters or more and whose domain is not empty, the result
    keeps the first and the last character of the local part, replaces
    each character between them by an asterisk, and keeps the domain;
    what follows a second [@] is dropped.  A local part of one or two
    characters is not masked at all: the address is returned as it is,
    and so is a text without [@]. *)
Theorem maskEmail_shape (first last' : N) (middle domain rest : list N) :
  unit "@" ∉ (first :: middle ++ [last'])%list →
  unit "@" ∉ domain → domain ≠ [] → middle ≠ [] →
  let localPart := (first :: middle ++ [last'])%list in
  let masked :=
    (first :: replicate (List.length middle) (unit "*") ++ [last']
     ++ unit "@" :: domain)%list in
  maskEmail (localPart ++ unit "@" :: domain) = masked
  ∧ maskEmail (localPart ++ unit "@" :: domain ++ unit "@" :: rest) = masked
  ∧ List.length masked = List.length (localPart ++ unit "@" :: domain)%list
  ∧ maskEmail (first :: unit "@" :: domain) = first :: unit "@" :: domain
  ∧ maskEmail (first :: last' :: unit "@" :: domain)
    = first :: last' :: unit "@" :: domain
  ∧ maskEmail domain = domain.
Proof.
  intros Hl Hd Hdom Hmid localPart masked.
  assert (Hrun : ∀ tail',
    (tail' = [] ∨ ∃ rest, tail' = unit "@" :: rest) →
    maskEmail (localPart ++ unit "@" :: domain ++ tail') = masked).
  { intros tail' Htail.
    destruct (maskEmail_parts localPart domain tail' Hl Hd Htail)
      as [more Hparts].
    unfold maskEmail. rewrite Hparts. subst localPart masked.
    destruct domain as [|d0 domain']; [contradiction|].
    destruct middle as [|m0 middle']; [contradiction|].
    cbv beta iota zeta.
    assert (Hlen : List.length (first :: (m0 :: middle') ++ [last'])
                   = S (S (S (List.length middle')))).
    { simpl. rewrite length_app. simpl. lia. }
    rewrite Hlen. cbn [Nat.leb Nat.sub].
    change (first :: (m0 :: middle') ++ [last'])%list
      with ((first :: m0 :: middle') ++ [last'])%list.
    rewrite last_last. simpl. rewrite <- !app_assoc. reflexivity. }
  apply not_elem_of_cons in Hl as Hl'. destruct Hl' as [Hfirst Hrest].
  apply not_elem_of_app in Hrest. destruct Hrest as [Hmiddle Hlast].
  apply not_elem_of_cons in Hlast. destruct Hlast as [Hlast _].
  split; [|split; [|split; [|split; [|split]]]].
  - rewrite <- (app_nil_r domain) at 1. apply Hrun. auto.
  - apply Hrun. eauto.
  - subst masked localPart. cbn [List.length].
    rewrite !length_app, length_replicate. cbn [List.length].
    rewrite ?length_app. cbn [List.length]. lia.
  - destruct (maskEmail_parts [first] domain [] ) as [more Hparts]; auto.
    { apply not_elem_of_cons. split; [exact Hfirst | apply not_elem_of_nil]. }
    rewrite app_nil_r in Hparts. unfold maskEmail.
    change (first :: unit "@" :: domain)
      with ([first] ++ unit "@" :: domain)%list.
    rewrite Hparts. destruct domain; reflexivity.
  - destruct (maskEmail_parts [first; last'] domain [] ) as [more Hparts]; auto.
    { rewrite !not_elem_of_cons. repeat split; auto. apply not_elem_of_nil. }
    rewrite app_nil_r in Hparts. unfold maskEmail.
    change (first :: last' :: unit "@" :: domain)
      with ([first; last'] ++ unit "@" :: domain)%list.
    rewrite Hparts. destruct domain; reflexivity.
  - unfold maskEmail, split. rewrite (split_acc_absent _ [] domain Hd).
    simpl. destruct domain; reflexivity.
Qed.
End HelperFacts.

(* ===================================================================== *)
(** ** The handlers on concrete requests *)
(* ===================================================================== *)

#[local] Existing Instance Symbolic.jwt_lib.
#[local] Existing Instance Symbolic.crypto_lib.
Import Scenario.

Lemma run_pair {A} (m : M A) (db : Db) (r : Result A) :
  outcome m db = r → m db = (r, after m db).
Proof. unfold outcome, after. intros <-. destruct (m db); reflexivity. Qed.

Lemma db1_alice :
  findById "a1" db1
  = (Return (Some (UserModel.set_refreshTokens [t1] alice)), db1).
Proof. vm_compute. reflexivity. Qed.

(** Kind isolation where the signature is valid and the token is fresh:
    with one secret for both kinds, only the [type] check rejects. *)
Example kind_isolation_one_secret :
  let access := JWTService.generateAccessToken config_one_secret 5000 alice in
  jsonwebtoken.verify access (refreshSecret (jwt config_one_secret)) 6000
  = Return {| body := {| userId := "a1"; p_email := "alice@example.com";
                         p_role := USER; type := "access" |};
              iat := 5; exp := 905 |}
  ∧ JWTService.verifyRefreshToken config_one_secret 6000 access
    = Throw (Error "Invalid refresh token").
Proof. vm_compute. split; reflexivity. Qed.

(** C1 on the code.  Alice logs in at 5.000 s and holds [t1].  A
    refresh presenting [t1] at 5.400 s, in the same clock second, succeeds
    and mints [t1] again, so the rotation puts it back into her set; a
    second refresh presenting the same [t1] at 9.000 s succeeds too. *)
Theorem rotation_reuse_in_issue_second :
  let first := AuthController.refreshToken config 5400 (Some t1) None in
  let second := AuthController.refreshToken config 9000 (Some t1) None in
  findById "a1" db1
  = (Return (Some (UserModel.set_refreshTokens [t1] alice)), db1)
  ∧ outcome first db1
    = Return {| status := 200; success := true;
                message := "Token refreshed successfully";
                data := Some (TokenData
                  {| accessToken :=
                       JWTService.generateAccessToken config 5400 alice;
                     refreshToken := t1 |});
                error := None;
                cookie := Some (SetRefreshCookie t1 true) |}
  ∧ after first db1 = db1
  ∧ is_Return (outcome second (after first db1)) = true.
Proof. vm_compute. repeat split; reflexivity. Qed.

(** The ordinary case: Alice, with two sessions, refreshes [t1] at
    70.000 s, a later clock second than its issue.  The call succeeds, her
    set becomes [t2] and the new token, and presenting [t1] again fails with
    Unauthorized. *)
Example rotation_in_a_later_second :
  let first := AuthController.refreshToken config 70000 (Some t1) None in
  let t3 := JWTService.generateRefreshToken config 70000 alice in
  is_Return (outcome first db2) = true
  ∧ findById "a1" (after first db2)
    = (Return (Some (UserModel.set_refreshTokens [t2; t3] alice)),
       after first db2)
  ∧ AuthController.refreshToken config 71000 (Some t1) None (after first db2)
    = (Throw (Api UnauthorizedError "Invalid refresh token"),
       after first db2).
Proof. vm_compute. repeat split; reflexivity. Qed.

(** A reset with a password shorter than eight characters is refused by
    the validation of the save and consumes nothing: the same token then
    resets the password, once. *)
Example reset_with_short_password :
  AuthController.resetPassword 80000 "salt" (Some "r3s3t") (Some "short")
    db_forgot
  = (Throw (Plain "ValidationError"
       "User validation failed: password: Password must be at least 8 characters long"
       None), db_forgot)
  ∧ is_Return (outcome (AuthController.resetPassword 81000 "salt"
                          (Some "r3s3t") (Some "N3wPassw0rd!")) db_forgot)
    = true.
Proof. vm_compute. split; reflexivity. Qed.

(** The length that counts is the one of the text: a password of seven
    characters, two of them outside ASCII, has nine bytes and is refused
    all the same. *)
Example reset_with_seven_characters :
  js_length "pässwör" = 7%nat
  ∧ String.length "pässwör" = 9%nat
  ∧ AuthController.resetPassword 80000 "salt" (Some "r3s3t")
      (Some "pässwör") db_forgot
    = (Throw (Plain "ValidationError"
         "User validation failed: password: Password must be at least 8 characters long"
         None), db_forgot).
Proof. vm_compute. repeat split; reflexivity. Qed.

(** After a logout the reset token mailed before it is refused. *)
Example logout_then_reset :
  AuthController.resetPassword 80000 "salt" (Some "r3s3t")
    (Some "N3wPassw0rd!")
    (after (AuthController.logout
              (Some (UserModel.set_refreshTokens [t1; t2] alice))) db_forgot)
  = (Throw (Api BadRequestError "Invalid or expired reset token"),
     after (AuthController.logout
              (Some (UserModel.set_refreshTokens [t1; t2] alice))) db_forgot).
Proof. vm_compute. reflexivity. Qed.

(** C2 on the code.  A refresh presenting a token that does not verify
    throws a plain [Error], which has no status code: the application
    answers it with status 500, in production and in development, and so
    would the exported [errorHandler].  This holds for an access token in
    place of a refresh token, for a refresh token past its expiry, and for
    a string that is no token.  The other two failures are answered with
    status 401. *)
Theorem refresh_unverified_is_internal_error :
  let wrong_kind := JWTService.generateAccessToken config 5000 alice in
  let malformed := Symbolic.Raw "not-a-token" in
  let run now presented :=
    outcome (AuthController.refreshToken config now (Some presented) None)
      db1 in
  run 6000%Z wrong_kind = Throw (Error "Invalid refresh token")
  ∧ run 604805000%Z t1 = Throw (Error "Invalid refresh token")
  ∧ run 6000%Z malformed = Throw (Error "Invalid refresh token")
  ∧ reply_status (respond config (run 6000%Z wrong_kind)) = 500%Z
  ∧ reply_status (respond config (run 604805000%Z t1)) = 500%Z
  ∧ reply_status (respond config (run 6000%Z malformed)) = 500%Z
  ∧ reply_status (respond config_dev (run 604805000%Z t1)) = 500%Z
  ∧ reply_status
      (respond config
         (outcome (AuthController.refreshToken config 6000 None None) db1))
    = 401%Z
  ∧ reply_status (respond config (run 6000%Z t2)) = 401%Z
  ∧ status (errorHandler config (Error "Invalid refresh token")) = 500%Z
  ∧ status (errorHandler config_dev (Error "Invalid refresh token")) = 500%Z
  ∧ status (errorHandler config
              (Api UnauthorizedError "Refresh token required")) = 401%Z
  ∧ status (errorHandler config
              (Api UnauthorizedError "Invalid refresh token")) = 401%Z.
Proof. vm_compute. repeat split; reflexivity. Qed.

(** C6 on the code.  A login whose password is no string (a JSON number
    passes the validation of the route) throws Unauthorized
    "Invalid email or password" for an email that no account has, and the
    plain error "Password comparison failed" for Alice's email: the
    application answers the first with status 401 and the second with
    status 500.  With a string that does not match, the login for Alice's
    email throws the same Unauthorized as the unknown email. *)
Theorem login_password_not_text_reveals_account :
  let existing_account :=
    outcome (AuthController.login config 5000 "alice@example.com" NotText)
      db0 in
  let absent_account :=
    outcome (AuthController.login config 5000 "nobody@example.com" NotText)
      db0 in
  existing_account = Throw (Error "Password comparison failed")
  ∧ absent_account = Throw (Api UnauthorizedError "Invalid email or password")
  ∧ reply_status (respond config existing_account) = 500%Z
  ∧ reply_status (respond config absent_account) = 401%Z
  ∧ outcome (AuthController.login config 5000 "alice@example.com"
               "passw0rd?") db0
    = Throw (Api UnauthorizedError "Invalid email or password").
Proof. vm_compute. repeat split; reflexivity. Qed.

(** C5 fails as stated: when the reset mail is not delivered, the request
    for Alice's address is answered with status 500 and the error page of
    [finalhandler], and the request for an unknown address with the
    generic 200. *)
Lemma forgot_password_distinguishes_accounts :
  let existing_account :=
    respond config
      (outcome (AuthController.forgotPassword 70000 "r3s3t" false
                  "alice@example.com") db2) in
  let absent_account :=
    respond config
      (outcome (AuthController.forgotPassword 70000 "r3s3t" false
                  "nobody@example.com") db2) in
  existing_account = ErrorPage 500 StatusMessage
  ∧ reply_status existing_account = 500%Z
  ∧ absent_account
    = Json {| status := 200; success := true;
              message := "If an account with that email exists, a password reset link has been sent";
              data := None; error := None; cookie := None |}
  ∧ reply_status absent_account = 200%Z
  ∧ existing_account ≠ absent_account.
Proof. vm_compute. repeat split; try reflexivity. discriminate. Qed.

(** Membership in a concrete store, by cases. *)
Ltac by_cases_in H :=
  apply list_elem_of_In in H; vm_compute in H;
  repeat (destruct H as [<-|H]); [..|destruct H].

(** The theorems with hypotheses, applied to the requests above. *)
Lemma rotation_frame_witness :
  AuthController.refreshToken config 70000 (Some t1) None db2
  = (Return {| status := 200; success := true;
               message := "Token refreshed successfully";
               data := Some (TokenData
                               (JWTService.generateTokenPair config 70000
                                  (UserModel.set_refreshTokens [t1; t2] alice)));
               error := None;
               cookie := Some (SetRefreshCookie
                                 (JWTService.generateRefreshToken config 70000
                                    alice) true) |},
     after (AuthController.refreshToken config 70000 (Some t1) None) db2)
  ∧ ∃ t u,
      u ∈ db2 ∧ t ∈ refreshTokens u ∧
      after (AuthController.refreshToken config 70000 (Some t1) None) db2
      = store (AuthController.rotated config 70000 t u) db2.
Proof.
  assert (Hrun :
    AuthController.refreshToken config 70000 (Some t1) None db2
    = (Return {| status := 200; success := true;
               message := "Token refreshed successfully";
               data := Some (TokenData
                               (JWTService.generateTokenPair config 70000
                                  (UserModel.set_refreshTokens [t1; t2] alice)));
               error := None;
               cookie := Some (SetRefreshCookie
                                 (JWTService.generateRefreshToken config 70000
                                    alice) true) |},
     after (AuthController.refreshToken config 70000 (Some t1) None) db2)).
  { vm_compute. reflexivity. }
  split; [exact Hrun|].
  destruct (rotation_frame config 70000 (Some t1) None db2 _ _ Hrun)
    as (t & u & _ & Hu & Hin & Hdb & _).
  exists t, u. auto.
Defined.

Lemma login_failure_same_message_witness :
  (∃ u, UserModel.findByEmail "Alice@Example.com" db0 = (Return (Some u), db0)
        ∧ UserModel.comparePassword u "passw0rd?" = Return false)
  ∧ AuthController.login config 5000 "Alice@Example.com" "passw0rd?" db0
    = (Throw (Api UnauthorizedError "Invalid email or password"), db0)
  ∧ AuthController.login config 5000 "nobody@example.com" "Passw0rd!" db0
    = (Throw (Api UnauthorizedError "Invalid email or password"), db0).
Proof.
  assert (Hcause : ∃ u,
    UserModel.findByEmail "Alice@Example.com" db0 = (Return (Some u), db0)
    ∧ UserModel.comparePassword u "passw0rd?" = Return false).
  { exists alice. vm_compute. split; reflexivity. }
  split; [exact Hcause|]. split.
  - apply (login_failure_same_message config 5000 "Alice@Example.com"
             "passw0rd?" db0). right. exact Hcause.
  - apply (login_failure_same_message config 5000 "nobody@example.com"
             "Passw0rd!" db0). left. vm_compute. reflexivity.
Defined.

Lemma forgot_password_responses_witness :
  UserModel.findByEmail "alice@example.com" db2
  = (Return (Some (UserModel.set_refreshTokens [t1; t2] alice)), db2)
  ∧ UserModel.findByEmail "nobody@example.com" db2 = (Return None, db2)
  ∧ respond config
      (outcome (AuthController.forgotPassword 70000 "r3s3t" true
                  "alice@example.com") db2)
    = respond config
        (outcome (AuthController.forgotPassword 70000 "r3s3t" true
                    "nobody@example.com") db2).
Proof.
  assert (Hknown : UserModel.findByEmail "alice@example.com" db2
    = (Return (Some (UserModel.set_refreshTokens [t1; t2] alice)), db2)).
  { vm_compute. reflexivity. }
  assert (Hunknown :
    UserModel.findByEmail "nobody@example.com" db2 = (Return None, db2)).
  { vm_compute. reflexivity. }
  split; [exact Hknown|]. split; [exact Hunknown|].
  destruct (forgot_password_responses config 70000 "r3s3t" true
              "alice@example.com" "nobody@example.com" db2 _ Hknown Hunknown)
    as (_ & Hsame & _).
  apply Hsame. reflexivity.
Defined.

Lemma db_pending_once :
  pending_once emailVerificationToken (sha256 "v3r1fy") db_pending.
Proof.
  intros v w Hv Hw. by_cases_in Hv; by_cases_in Hw;
    simpl; intros; congruence.
Defined.

Lemma db_forgot_once :
  pending_once passwordResetToken (sha256 "r3s3t") db_forgot.
Proof.
  intros v w Hv Hw. by_cases_in Hv; by_cases_in Hw;
    simpl; intros; congruence.
Defined.

Lemma one_time_token_single_use_witness :
  (is_Return (outcome (AuthController.verifyEmail 2000 true (Some "v3r1fy"))
                db_pending) = true
   ∧ ∀ now2 delivered2,
       AuthController.verifyEmail now2 delivered2 (Some "v3r1fy")
         (after (AuthController.verifyEmail 2000 true (Some "v3r1fy"))
            db_pending)
       = (Throw (Api BadRequestError "Invalid or expired verification token"),
          after (AuthController.verifyEmail 2000 true (Some "v3r1fy"))
            db_pending))
  ∧
  (is_Return (outcome (AuthController.resetPassword 80000 "salt"
                         (Some "r3s3t") (Some "N3wPassw0rd!"))
                db_forgot) = true
   ∧ ∀ now2 salt2,
       AuthController.resetPassword now2 salt2 (Some "r3s3t")
         (Some "N3wPassw0rd!")
         (after (AuthController.resetPassword 80000 "salt" (Some "r3s3t")
                   (Some "N3wPassw0rd!")) db_forgot)
       = (Throw (Api BadRequestError "Invalid or expired reset token"),
          after (AuthController.resetPassword 80000 "salt" (Some "r3s3t")
                   (Some "N3wPassw0rd!")) db_forgot)).
Proof.
  split; (split; [vm_compute; reflexivity|]).
  - intros now2 delivered2.
    refine (proj2 (proj1 (one_time_token_single_use 2000 true "salt"
                            "v3r1fy" None db_pending _ _) _ db_pending_once)
              now2 delivered2).
    apply run_pair. vm_compute. reflexivity.
  - intros now2 salt2.
    refine (proj2 (proj2 (one_time_token_single_use 80000 true "salt"
                            "r3s3t" (Some "N3wPassw0rd!") db_forgot _ _)
                     _ db_forgot_once)
              now2 salt2 (Some "N3wPassw0rd!")).
    apply run_pair. vm_compute. reflexivity.
Defined.

Lemma expired_one_time_token_fails_witness :
  (∃ m, AuthController.verifyEmail 86401000 true (Some "v3r1fy") db_pending
        = (Throw (Api BadRequestError m), db_pending))
  ∧ (∃ m, AuthController.resetPassword 670001 "salt" (Some "r3s3t")
            (Some "N3wPassw0rd!") db_forgot
          = (Throw (Api BadRequestError m), db_forgot)).
Proof.
  split.
  - refine (proj2 (proj1 (expired_one_time_token_fails 86401000 true "salt"
                            "v3r1fy" None db_pending)) _).
    intros u e Hu. by_cases_in Hu; simpl; intros Hh He;
      try discriminate; injection He as <-; lia.
  - refine (proj2 (proj2 (expired_one_time_token_fails 670001 true "salt"
                            "r3s3t" (Some "N3wPassw0rd!") db_forgot)) _).
    intros u e Hu. by_cases_in Hu; simpl; intros Hh He;
      try discriminate; injection He as <-; lia.
Defined.

Lemma reset_revokes_sessions_witness :
  is_Return (outcome (AuthController.resetPassword 80000 "salt"
                        (Some "r3s3t") (Some "N3wPassw0rd!")) db_forgot)
  = true
  ∧ ∃ u u',
      findById (_id u)
        (after (AuthController.resetPassword 80000 "salt" (Some "r3s3t")
                  (Some "N3wPassw0rd!")) db_forgot)
      = (Return (Some u'),
         after (AuthController.resetPassword 80000 "salt" (Some "r3s3t")
                  (Some "N3wPassw0rd!")) db_forgot)
      ∧ refreshTokens u' = [].
Proof.
  split; [vm_compute; reflexivity|].
  destruct (reset_revokes_sessions 80000 "salt" (Some "r3s3t")
              (Some "N3wPassw0rd!") db_forgot
              {| status := 200; success := true;
                 message := "Password reset successfully. Please log in with your new password.";
                 data := None; error := None; cookie := None |}
              (after (AuthController.resetPassword 80000 "salt"
                        (Some "r3s3t") (Some "N3wPassw0rd!")) db_forgot))
    as (u & u' & _ & Hstored & Hempty & _).
  { apply run_pair. vm_compute. reflexivity. }
  exists u, u'. auto.
Defined.

(* ===================================================================== *)
(** ** The routes and the middlewares on concrete requests *)
(* ===================================================================== *)

Import ScenarioRoutes.

Lemma accepted_token_not_expired_witness :
  jsonwebtoken.verify a1 "access-secret" 6000
  = Return {| body := {| userId := "a1"; p_email := "alice@example.com";
                         p_role := USER; type := "access" |};
              iat := 5; exp := 905 |}
  ∧ JWTInspect.isTokenExpired 6000 a1 = false
  ∧ JWTInspect.isTokenExpired 905000 a1 = false
  ∧ is_Return (jsonwebtoken.verify a1 "access-secret" 905000) = false.
Proof.
  assert (Hv : jsonwebtoken.verify a1 "access-secret" 6000
    = Return {| body := {| userId := "a1"; p_email := "alice@example.com";
                           p_role := USER; type := "access" |};
                iat := 5; exp := 905 |}).
  { vm_compute. reflexivity. }
  split; [exact Hv|].
  destruct (accepted_token_not_expired
              {| userId := "a1"; p_email := "alice@example.com";
                 p_role := USER; type := "access" |}
              "access-secret" 900 5000 "access-secret" 6000 _
              ltac:(lia) Hv) as (_ & _ & H1 & H2 & H3).
  split; [exact H1|]. split; [exact H2 | exact H3].
Defined.

Lemma authenticate_refuses_refresh_token_witness :
  AuthMiddleware.authenticate config read_token 6000
    (Some "Bearer alice.refresh") db1
  = (Return (AuthMiddleware.Responded
               (AuthMiddleware.refuse 401 "Authentication failed"
                  "Invalid or expired access token")), db1).
Proof.
  apply (authenticate_refuses_refresh_token config read_token 6000 5000 alice
           "alice.refresh" db1).
  - discriminate.
  - vm_compute. reflexivity.
Defined.


Lemma logout_keeps_access_token_witness :
  JWTService.verifyAccessToken config 80000 (read_token "alice.access")
  = Return {| userId := "a1"; p_email := "alice@example.com";
              p_role := USER; type := "access" |}
  ∧ ∃ u,
      AuthMiddleware.authenticate config read_token 80000
        (Some "Bearer alice.access") db_logout
      = (Return (AuthMiddleware.Next (Some (UserModel.clearTokens u))),
         db_logout).
Proof.
  assert (Hv :
    JWTService.verifyAccessToken config 80000 (read_token "alice.access")
    = Return {| userId := "a1"; p_email := "alice@example.com";
                p_role := USER; type := "access" |}).
  { vm_compute. reflexivity. }
  split; [exact Hv|].
  destruct (logout_keeps_access_token config read_token 70000 80000
              "alice.access"
              {| userId := "a1"; p_email := "alice@example.com";
                 p_role := USER; type := "access" |} db2
              {| status := 200; success := true;
                 message := "Logout successful";
                 data := None; error := None;
                 cookie := Some ClearRefreshCookie |} db_logout)
    as (u & _ & _ & Hpass).
  - apply run_pair. vm_compute. reflexivity.
  - reflexivity.
  - exact Hv.
  - exists u. exact Hpass.
Defined.

Lemma authorize_by_stored_role_witness :
  AuthMiddleware.authenticate config read_token 70000
    (Some "Bearer alice.access") db2
  = (Return (AuthMiddleware.Next (Some alice2)), db2)
  ∧ ∃ res,
      AuthMiddleware.authorize [ADMIN] (Some alice2)
      = AuthMiddleware.Responded res
      ∧ status res = 403%Z.
Proof.
  destruct (authorize_by_stored_role config read_token [ADMIN] 70000
              "alice.access"
              {| userId := "a1"; p_email := "alice@example.com";
                 p_role := USER; type := "access" |} alice2 db2)
    as (Hpass & _ & Hdenied & _).
  - discriminate.
  - vm_compute. reflexivity.
  - vm_compute. reflexivity.
  - discriminate.
  - split; [exact Hpass|].
    destruct Hdenied as (res & Hres & Hst & _).
    + intros Hin. apply list_elem_of_In in Hin. vm_compute in Hin.
      destruct Hin as [Hin|[]]. discriminate.
    + exists res. split; [exact Hres | exact Hst].
Defined.

Lemma errorHandler_discloses_no_internals_witness :
  isDevelopment config = false
  ∧ errorHandler config
      (Plain "Error" "connect ECONNREFUSED 10.0.0.5:27017" None)
    = errorHandler config (Plain "Error" "Invalid refresh token" None).
Proof.
  split; [reflexivity|].
  destruct (errorHandler_discloses_no_internals config)
    as (_ & _ & _ & _ & Hsame & _).
  apply Hsame. reflexivity.
Defined.

Lemma login_opens_session_witness :
  ∃ res res',
    AuthController.login config 5000 "alice@example.com" "Passw0rd!" db0
    = (Return res, db1)
    ∧ status res = 200%Z
    ∧ AuthController.refreshToken config 6000 (Some t1) None db1
      = (Return res',
         store (AuthController.rotated config 6000 t1
                  (UserModel.set_refreshTokens [t1] alice)) db1).
Proof.
  destruct (login_opens_session config 5000 6000 "alice@example.com"
              "Passw0rd!" db0 alice)
    as (res & res' & Hrun & Hst & _ & _ & _ & _ & Href).
  - vm_compute. reflexivity.
  - vm_compute. reflexivity.
  - vm_compute. reflexivity.
  - exists res, res'. split; [exact Hrun|]. split; [exact Hst | exact Href].
Defined.

Lemma forgot_then_reset_witness :
  outcome (AuthController.forgotPassword 70000 "r3s3t" false
             "alice@example.com") db2
  = Throw (Error "Failed to send password reset email")
  ∧ ∃ res db' u',
      AuthController.resetPassword 80000 "salt" (Some "r3s3t")
        (Some "N3wPassw0rd!") db_lost_mail
      = (Return res, db')
      ∧ status res = 200%Z
      ∧ findById "a1" db' = (Return (Some u'), db')
      ∧ password u' = "bcrypt:N3wPassw0rd!"
      ∧ refreshTokens u' = [].
Proof.
  split; [vm_compute; reflexivity|].
  destruct (forgot_then_reset 70000 80000 "r3s3t" false "alice@example.com"
              "salt" "N3wPassw0rd!" db2 alice2)
    as (res & db' & u' & Hrun & Hst & Hfind & Hpw & Hses & _).
  - vm_compute. reflexivity.
  - intros w Hw. by_cases_in Hw; simpl; intros; congruence.
  - discriminate.
  - simpl. lia.
  - lia.
  - exists res, db', u'. split; [exact Hrun|]. split; [exact Hst|].
    split; [exact Hfind|]. split; [exact Hpw | exact Hses].
Defined.

Lemma newer_reset_token_replaces_older_witness :
  AuthController.resetPassword 80000 "salt" (Some "r3s3t")
    (Some "N3wPassw0rd!") db_forgot_twice
  = (Throw (Api BadRequestError "Invalid or expired reset token"),
     db_forgot_twice).
Proof.
  apply (newer_reset_token_replaces_older 70000 75000 80000 "r3s3t" "r3s3t-2"
           true true "alice@example.com" "salt" "N3wPassw0rd!" db2 alice2).
  - vm_compute. reflexivity.
  - intros w Hw. by_cases_in Hw; simpl; intros; congruence.
  - vm_compute. discriminate.
  - discriminate.
  - discriminate.
Defined.

Lemma verifyEmail_effect_witness :
  AuthController.verifyEmail 2000 false (Some "v3r1fy") db_pending
  = (Return {| status := 200; success := true;
               message := "Email verified successfully";
               data := None; error := None; cookie := None |},
     after (AuthController.verifyEmail 2000 true (Some "v3r1fy"))
       db_pending).
Proof.
  refine (proj2 (verifyEmail_effect 2000 true (Some "v3r1fy") db_pending _ _
                   _) false).
  apply run_pair. vm_compute. reflexivity.
Defined.

Lemma failed_request_writes_nothing_witness :
  outcome (Routes.serve config read_token 70000
             (Routes.Logout (Some "Bearer alice.refresh"))) db2
  = Return (AuthMiddleware.refuse 401 "Authentication failed"
              "Invalid or expired access token")
  ∧ after (Routes.serve config read_token 70000
             (Routes.Logout (Some "Bearer alice.refresh"))) db2
    = db2.
Proof.
  assert (Hout :
    outcome (Routes.serve config read_token 70000
               (Routes.Logout (Some "Bearer alice.refresh"))) db2
    = Return (AuthMiddleware.refuse 401 "Authentication failed"
                "Invalid or expired access token")).
  { vm_compute. reflexivity. }
  split; [exact Hout|].
  apply (failed_request_writes_nothing config read_token 70000
           (Routes.Logout (Some "Bearer alice.refresh")) _ db2 _
           (run_pair _ _ _ Hout)).
  - intros res [= <-]. reflexivity.
  - discriminate.
Defined.

Lemma db1_distinct_ids : NoDup (map _id db1).
Proof. refine (bool_decide_unpack _ _). vm_compute. exact I. Defined.

Lemma db1_sessions u t :
  u ∈ db1 → t ∈ refreshTokens u → issued_to config u t.
Proof.
  intros Hu Ht. by_cases_in Hu; apply list_elem_of_In in Ht; simpl in Ht;
    repeat (destruct Ht as [<-|Ht]); try contradiction.
  exists 5000%Z. vm_compute. reflexivity.
Defined.

Lemma db1_paired u : u ∈ db1 → paired u.
Proof.
  intros Hu. by_cases_in Hu; unfold paired; simpl;
    (split; split; intros [? ?]; discriminate).
Defined.

Lemma db2_reachable : Routes.reachable config read_token db1 db2.
Proof.
  apply (Routes.reachable_serve config read_token db1 db1 65000
           (Routes.Login "alice@example.com" "Passw0rd!")).
  apply Routes.reachable_start.
Defined.

Lemma requests_keep_store_consistent_witness :
  consistent config db1
    (after (Routes.serve config read_token 70000
              (Routes.Logout (Some "Bearer alice.access")))
       (after (Routes.serve config read_token 66000
                 (Routes.RefreshToken (Some t1) None)) db2)).
Proof.
  apply (requests_keep_store_consistent config read_token db1).
  - exact db1_distinct_ids.
  - exact db1_sessions.
  - exact db1_paired.
  - apply Routes.reachable_serve, Routes.reachable_serve, db2_reachable.
Defined.

Lemma reset_then_login_witness :
  ∃ res u',
    AuthController.login config 90000 "alice@example.com" "N3wPassw0rd!"
      db_reset
    = (Return res, store u' db_reset)
    ∧ status res = 200%Z
    ∧ refreshTokens u'
      = [JWTService.generateRefreshToken config 90000 alice]
    ∧ AuthController.login config 90000 "alice@example.com" "Passw0rd!"
        db_reset
      = (Throw (Api UnauthorizedError "Invalid email or password"),
         db_reset).
Proof.
  destruct (reset_then_login config 80000 90000 "alice@example.com" "salt"
              "r3s3t" "N3wPassw0rd!" db_forgot alice_forgot)
    as ((res & u' & Hrun & Hst & _ & _ & Hses & _) & Hother).
  - vm_compute. reflexivity.
  - vm_compute. reflexivity.
  - discriminate.
  - simpl. lia.
  - vm_compute. reflexivity.
  - exists res, u'. split; [exact Hrun|]. split; [exact Hst|].
    split; [exact Hses|]. apply Hother. vm_compute. reflexivity.
Defined.

Lemma stored_session_is_served_witness :
  alice2 ∈ db2 ∧ t2 ∈ refreshTokens alice2
  ∧ (∀ v, v ∈ db2 → t2 ∈ refreshTokens v → v = alice2)
  ∧ ∃ res,
      Routes.serve config read_token 70000
        (Routes.RefreshToken (Some t2) None) db2
      = (Return res, store (AuthController.rotated config 70000 t2 alice2) db2)
      ∧ status res = 200%Z.
Proof.
  assert (Hu : alice2 ∈ db2).
  { apply list_elem_of_In. vm_compute. auto. }
  assert (Ht : t2 ∈ refreshTokens alice2).
  { apply list_elem_of_In. vm_compute. auto. }
  split; [exact Hu|]. split; [exact Ht|].
  destruct (stored_session_is_served config read_token db1 db2 alice2 t2 70000
              db1_distinct_ids db1_sessions db1_paired db2_reachable Hu Ht)
    as (Honly & c & Hdec & _ & Hserved & _).
  split; [exact Honly|]. apply Hserved.
  injection Hdec as <-. vm_compute. reflexivity.
Defined.

Lemma maskEmail_shape_witness :
  Helpers.maskEmail alice_at_x_org = Helpers.units "a***e@x.org"
  ∧ Helpers.maskEmail (Helpers.units "alice@x.org@y.org")
    = Helpers.units "a***e@x.org"
  ∧ Helpers.maskEmail (Helpers.units "ae@x.org") = Helpers.units "ae@x.org".
Proof.
  destruct (Helpers.units "lic") as [|m0 middle] eqn:Hmiddle;
    [discriminate|].
  destruct (maskEmail_shape (Helpers.unit "a") (Helpers.unit "e")
              (Helpers.units "lic") (Helpers.units "x.org")
              (Helpers.units "y.org"))
    as (Hone & Htwo & _ & _ & Hshort & _).
  - intros Hin. apply list_elem_of_In in Hin. vm_compute in Hin.
    intuition discriminate.
  - intros Hin. apply list_elem_of_In in Hin. vm_compute in Hin.
    intuition discriminate.
  - discriminate.
  - discriminate.
  - split; [exact Hone|]. split; [exact Htwo | exact Hshort].
Defined.

Lemma access_token_lifetime_witness :
  AuthMiddleware.authenticate config read_token 70000
    (Some "Bearer alice.access") db2
  = (Return (AuthMiddleware.Next (Some alice2)), db2)
  ∧ AuthMiddleware.authenticate config read_token 905000
      (Some "Bearer alice.access") db2
    = (Return (AuthMiddleware.Responded
                 (AuthMiddleware.refuse 401 "Authentication failed"
                    "Invalid or expired access token")), db2).
Proof.
  split.
  - refine (proj1 (proj2 (access_token_lifetime config read_token 5000 70000
                            alice "alice.access" db2 _ _) _) alice2 _ _).
    + discriminate.
    + vm_compute. reflexivity.
    + vm_compute. reflexivity.
    + vm_compute. reflexivity.
    + discriminate.
  - refine (proj1 (access_token_lifetime config read_token 5000 905000
                     alice "alice.access" db2 _ _) _).
    + discriminate.
    + vm_compute. reflexivity.
    + vm_compute. discriminate.
Defined.

Lemma guards_are_stable_witness :
  bob ∈ db1
  ∧ AuthMiddleware.requireEmailVerification (Some bob)
    = AuthMiddleware.Next (Some bob)
  ∧ ∃ u',
      u' ∈ db2 ∧ _id u' = "b2"
      ∧ AuthMiddleware.requireAdmin (Some u') = AuthMiddleware.Next (Some u')
      ∧ AuthMiddleware.requireEmailVerification (Some u')
        = AuthMiddleware.Next (Some u').
Proof.
  assert (Hu : bob ∈ db1).
  { apply list_elem_of_In. vm_compute. auto. }
  split; [exact Hu|]. split; [reflexivity|].
  destruct (guards_are_stable config read_token db1 db2 bob
              db1_distinct_ids db1_sessions db1_paired db2_reachable Hu)
    as (u' & Hu' & Hid & Hroles & Hver).
  exists u'. split; [exact Hu'|]. split; [exact Hid|]. split.
  - apply (Hroles [ADMIN]). reflexivity.
  - apply Hver. reflexivity.
Defined.
